(** * Negative-keyword provisioning pipeline

    A shallow embedding of the programs of the repository that carry the
    provisioning logic, the properties of them that the specification
    states, and further properties of the code around them:

    - [Calculations]: the opportunity scorer and the dashboard sums of
      [src/utils/calculations.ts];
    - [WebApp]: the submission path of the spreadsheet web application
      ([validateKeyword], [addNegativeKeywords], [handleAddNegativeKeywords]);
    - [Worker]: the scheduled script [scripts/google-ads-script-negative.js]
      that drains the pending rows against the advertising account;
    - [Api], [Catalog], [Dashboard]: the other requests of the web
      application (reading, removing, processing status, dashboard) and
      the catalogue of shared lists that the script refreshes;
    - [Form], [DataUtils], [Distribution], [ClientDashboard], [Analytics]:
      the form of the client, and its sorting, paging and sums.

    Modelling conventions.
    - A JavaScript string is the sequence of its UTF-16 code units; the
      model keeps code units below 256, so a [string] of Rocq is read as a
      Latin-1 string and [String.length] is the [length] property.
    - A JavaScript number is an exact rational ([Q]); the rounding of
      IEEE doubles is outside the model.  [===] on numbers is [Qeq_bool].
    - A sheet is the list of its rows, the header being row 1; a row is a
      record of its fourteen cells, each cell a string.  The sheets of the
      model have no content after column 14, and what the code writes
      there falls outside of the model.
    - Calls that leave the program (the advertising account, the clock,
      the random generator) are parameters of the model. *)

From Stdlib Require Import String Ascii List Bool QArith ZArith NArith Lia.
From Stdlib Require Import Permutation Sorted DecimalString DecimalNat DecimalN Lqa Qround.
From stdpp Require Import base list strings sorting.
Import ListNotations.

Open Scope string_scope.
Open Scope list_scope.

(** * The programs *)

(** ** JavaScript primitives used by the code *)

Module Js.

Definition code (c : ascii) : N := N_of_ascii c.

Definition between (lo hi : N) (c : ascii) : bool :=
  ((lo <=? code c) && (code c <=? hi))%N.

(** Upper-case letters of Latin-1: A-Z, and U+00C0..U+00DE but the
    multiplication sign U+00D7. *)
Definition isUpper (c : ascii) : bool :=
  between 65 90 c || (between 192 222 c && negb (code c =? 215)%N).

Definition toLowerCaseChar (c : ascii) : ascii :=
  if isUpper c then ascii_of_N (code c + 32) else c.

(** [s.toLowerCase()] *)
Fixpoint toLowerCase (s : string) : string :=
  match s with
  | EmptyString => EmptyString
  | String c s' => String (toLowerCaseChar c) (toLowerCase s')
  end.

(** White space and line terminators, as [trim] and the regular
    expression class [\s] read them: TAB, LF, VT, FF, CR, SP, NBSP. *)
Definition isWhiteSpace (c : ascii) : bool :=
  between 9 13 c || (code c =? 32)%N || (code c =? 160)%N.

Fixpoint trimStart (s : string) : string :=
  match s with
  | EmptyString => EmptyString
  | String c s' => if isWhiteSpace c then trimStart s' else s
  end.

Fixpoint trimEnd (s : string) : string :=
  match s with
  | EmptyString => EmptyString
  | String c s' =>
      match trimEnd s' with
      | EmptyString => if isWhiteSpace c then EmptyString else String c EmptyString
      | t => String c t
      end
  end.

(** [s.trim()] *)
Definition trim (s : string) : string := trimEnd (trimStart s).

(** [s.startsWith(p)] *)
Fixpoint startsWith (s p : string) {struct p} : bool :=
  match p, s with
  | EmptyString, _ => true
  | String _ _, EmptyString => false
  | String a p', String b s' => Ascii.eqb a b && startsWith s' p'
  end.

(** [s.includes(sub)] *)
Fixpoint includes (s sub : string) : bool :=
  startsWith s sub ||
  match s with
  | EmptyString => false
  | String _ s' => includes s' sub
  end.

(** [s.split(sep)] for a separator of one code unit: the pieces between
    the separators, empty pieces kept; the empty string gives one empty
    piece. *)
Fixpoint split (sep : ascii) (s : string) : list string :=
  match s with
  | EmptyString => [EmptyString]
  | String c s' =>
      if Ascii.eqb c sep then EmptyString :: split sep s'
      else match split sep s' with
           | w :: ws => String c w :: ws
           | [] => [String c EmptyString]
           end
  end.

(** [l.join(sep)] *)
Fixpoint join (sep : string) (l : list string) : string :=
  match l with
  | [] => EmptyString
  | [x] => x
  | x :: l' => x +:+ sep +:+ join sep l'
  end.

(** [l.includes(x)] on an array of strings *)
Definition arrayIncludes (l : list string) (x : string) : bool :=
  existsb (String.eqb x) l.

(** [l.some(p)] *)
Definition some {A} (p : A -> bool) (l : list A) : bool := existsb p l.

(** An optional string field of an object: [None] is [undefined]. *)
Definition truthy (o : option string) : bool :=
  match o with
  | Some s => negb (String.eqb s EmptyString)
  | None => false
  end.

(** [x || ''] *)
Definition orEmpty (o : option string) : string :=
  match o with
  | Some s => s
  | None => EmptyString
  end.

(** A cell read from a sheet is truthy when it is not the empty string. *)
Definition nonEmpty (s : string) : bool := negb (String.eqb s EmptyString).

(** Decimal text of a count, as a template literal prints it. *)
Definition decimal (n : nat) : string := NilEmpty.string_of_uint (Nat.to_uint n).

(** Decimal text of [Date.now()], a count of milliseconds. *)
Definition decimalN (n : N) : string := NilEmpty.string_of_uint (N.to_uint n).

(** The double quote, for the messages that quote a name. *)
Definition dquote : string := String (ascii_of_nat 34) EmptyString.

(** [a > b] and [a === 0] on numbers *)
Definition gt (a b : Q) : bool := negb (Qle_bool a b).
Definition isZero (a : Q) : bool := Qeq_bool a 0.

(** [arr.forEach((x, index) => ...)] where the callback updates the
    variables [V] it closes over. *)
Fixpoint forEach {A V} (f : V -> A -> nat -> V) (l : list A) (index : nat) (s : V) : V :=
  match l with
  | [] => s
  | x :: l' => forEach f l' (S index) (f s x index)
  end.

(** [arr.sort(compare)]: the sort is stable, so with a consistent
    comparison the result is the one a stable insertion sort gives.  [x]
    is placed before the first [y] it does not have to follow. *)
Fixpoint insertSorted {A} (compare : A -> A -> Q) (x : A) (l : list A) : list A :=
  match l with
  | [] => [x]
  | y :: l' =>
      if Qle_bool (compare x y) 0 then x :: l
      else y :: insertSorted compare x l'
  end.

Definition sort {A} (compare : A -> A -> Q) (l : list A) : list A :=
  fold_right (insertSorted compare) [] l.

(** [arr.reduce((total, x) => total + f(x), 0)] *)
Definition sumOf {A} (f : A -> Q) (l : list A) : Q :=
  fold_left (fun total x => (total + f x)%Q) l 0%Q.

End Js.

(** ** The scorer and the dashboard sums: [src/utils/calculations.ts] *)

Module Calculations.
Import Js.

Inductive MatchType := EXACT | PHRASE | BROAD.

Inductive NegativeKeywordLevel := CAMPAIGN | AD_GROUP | SHARED_LIST.

(** [SearchTermData], with the fields the calculations read. *)
Record SearchTermData := {
  searchTerm : string;
  campaignName : string;
  adGroupName : string;
  cost : Q;
  clicks : Q;
  impressions : Q;
  conversions : Q;
  costPerConversion : Q;
  ctr : Q;
  cpc : Q
}.

(** [NegativeKeywordOpportunity] *)
Record NegativeKeywordOpportunity := {
  opp_searchTerm : string;
  opp_cost : Q;
  opp_clicks : Q;
  opp_conversions : Q;
  potentialSavings : Q;
  recommendedMatchType : MatchType;
  recommendedLevel : NegativeKeywordLevel;
  opp_campaignName : string;
  opp_adGroupName : string
}.

(** [calculations.calculateWastedSpend] *)
Definition calculateWastedSpend (data : list SearchTermData) : Q :=
  sumOf cost (List.filter (fun item => isZero (conversions item)) data).

(** [calculations.calculatePotentialSavings] *)
Definition calculatePotentialSavings (data : list SearchTermData) : Q :=
  sumOf cost
    (List.filter (fun item => isZero (conversions item) && gt (cost item) 5) data).

Definition brandTerms : list string :=
  ["brand"; "official"; "store"; "shop"; "buy"; "purchase"].

Definition productTerms : list string :=
  ["price"; "cost"; "cheap"; "free"; "discount"; "sale"].

Definition containsBrandTerms (term : string) : bool :=
  some (fun brand => includes term brand) brandTerms.

Definition containsProductTerms (term : string) : bool :=
  some (fun product => includes term product) productTerms.

(** [negativeKeywordAnalysis.recommendMatchType] *)
Definition recommendMatchType (searchTerm : string) : MatchType :=
  let term := toLowerCase searchTerm in
  if (length (split " " term) =? 1)%nat || (String.length term <=? 3)%nat then EXACT
  else if containsBrandTerms term || containsProductTerms term then PHRASE
  else BROAD.

(** The words of [searchTerm] that a word of [name] contains or is
    contained in: [matchingWords] of [isAdGroupSpecific] and of
    [isCampaignSpecific], which compute it alike. *)
Definition matchingWords (searchTerm name : string) : list string :=
  let nameWords := split " " (toLowerCase name) in
  let searchWords := split " " (toLowerCase searchTerm) in
  List.filter
    (fun word =>
       some (fun nameWord => includes nameWord word || includes word nameWord) nameWords)
    searchWords.

Definition ratio (a b : nat) : Q :=
  (inject_Z (Z.of_nat a) / inject_Z (Z.of_nat b))%Q.

Definition isAdGroupSpecific (searchTerm adGroupName : string) : bool :=
  let searchWords := split " " (toLowerCase searchTerm) in
  gt (ratio (length (matchingWords searchTerm adGroupName)) (length searchWords)) (1 # 2).

Definition isCampaignSpecific (searchTerm campaignName : string) : bool :=
  (0 <? length (matchingWords searchTerm campaignName))%nat.

(** [negativeKeywordAnalysis.recommendLevel] *)
Definition recommendLevel (item : SearchTermData) : NegativeKeywordLevel :=
  if isAdGroupSpecific (searchTerm item) (adGroupName item) then AD_GROUP
  else if isCampaignSpecific (searchTerm item) (campaignName item) then CAMPAIGN
  else SHARED_LIST.

(** The filter of [identifyOpportunities]. *)
Definition isOpportunity (item : SearchTermData) : bool :=
  isZero (conversions item) && gt (cost item) 5 && gt (clicks item) 0.

(** The object [identifyOpportunities] maps a row to. *)
Definition toOpportunity (item : SearchTermData) : NegativeKeywordOpportunity :=
  {| opp_searchTerm := searchTerm item;
     opp_cost := cost item;
     opp_clicks := clicks item;
     opp_conversions := conversions item;
     potentialSavings := cost item;
     recommendedMatchType := recommendMatchType (searchTerm item);
     recommendedLevel := recommendLevel item;
     opp_campaignName := campaignName item;
     opp_adGroupName := adGroupName item |}.

Definition bySavingsDescending (a b : NegativeKeywordOpportunity) : Q :=
  (potentialSavings b - potentialSavings a)%Q.

(** [negativeKeywordAnalysis.identifyOpportunities] *)
Definition identifyOpportunities (data : list SearchTermData)
  : list NegativeKeywordOpportunity :=
  sort bySavingsDescending (map toOpportunity (List.filter isOpportunity data)).

(** The sum [calculateImpact] takes over the candidates, before it
    rounds it for display. *)
Definition totalSavings (opportunities : list NegativeKeywordOpportunity) : Q :=
  sumOf potentialSavings opportunities.

End Calculations.


(** ** The shared spreadsheet

    The web application and the worker share two tabs: [NegativeKeywords],
    the ledger of requests, and [ProcessingTriggers]. *)

(** A row of the [NegativeKeywords] tab, columns 1 to 14. *)
Module Row.
Record t := mk {
  id : string;
  keywordText : string;
  matchType : string;
  level : string;
  campaignId : string;
  campaignName : string;
  adGroupId : string;
  adGroupName : string;
  sharedListId : string;
  sharedListName : string;
  addedDate : string;
  status : string;
  message : string;
  processedDate : string
}.

(** Columns 12, 13 and 14 set, the others kept. *)
Definition setOutcome (status message processedDate : string) (row : t) : t :=
  mk (id row) (keywordText row) (matchType row) (level row)
     (campaignId row) (campaignName row) (adGroupId row) (adGroupName row)
     (sharedListId row) (sharedListName row) (addedDate row)
     status message processedDate.

(** The cells of a row, column 1 first. *)
Definition cells (row : t) : list string :=
  [id row; keywordText row; matchType row; level row; campaignId row;
   campaignName row; adGroupId row; adGroupName row; sharedListId row;
   sharedListName row; addedDate row; status row; message row; processedDate row].

(** The row of the first fourteen of [l]; a cell that [l] lacks is
    empty. *)
Definition ofCells (l : list string) : t :=
  mk (nth 0 l "") (nth 1 l "") (nth 2 l "") (nth 3 l "") (nth 4 l "") (nth 5 l "")
     (nth 6 l "") (nth 7 l "") (nth 8 l "") (nth 9 l "") (nth 10 l "") (nth 11 l "")
     (nth 12 l "") (nth 13 l "").

(** The number of the last of the cells [l] that has content, 0 when
    none has. *)
Fixpoint lastContent (l : list string) : nat :=
  match l with
  | [] => 0
  | cell :: l' =>
      match lastContent l' with
      | 0 => if Js.nonEmpty cell then 1 else 0
      | S n => S (S n)
      end
  end.

(** The header row that [initializeNegativeKeywordsSheet] writes. *)
Definition headers : t :=
  mk "ID" "Keyword Text" "Match Type" "Level" "Campaign ID" "Campaign Name"
     "Ad Group ID" "Ad Group Name" "Shared List ID" "Shared List Name"
     "Added Date" "Status" "Message" "Processed Date".
End Row.

(** A row of the [ProcessingTriggers] tab, columns 1 to 5. *)
Module Trigger.
Record t := mk {
  action : string;
  timestamp : string;
  status : string;
  message : string;
  processedDate : string
}.

Definition headers : t :=
  mk "Action" "Timestamp" "Status" "Message" "Processed Date".
End Trigger.

(** Reading from a sheet and writing to it, rows and columns counted
    from 1. *)
Module Range.

(** [sheet.getRange(row, 1, values.length, width).setValues(values)]: the
    rows from [row] on are replaced by [values], the others stay. *)
Definition setValues {A} (row : nat) (values sheet : list A) : list A :=
  take (row - 1) sheet ++ values ++ drop (row - 1 + length values) sheet.

(** [sheet.getLastColumn()]: the number of the last column that has
    content in some row, on a sheet without content after column 14. *)
Definition getLastColumn (sheet : list Row.t) : nat :=
  list_max (map (fun row => Row.lastContent (Row.cells row)) sheet).

(** [sheet.getRange(row, col, 1, values.length).setValues([values])].
    The model keeps the fourteen columns of a row: a value that the code
    writes to a column after the fourteenth falls outside of it.  The
    worker writes to row 1 of a sheet that it has read rows of; on a sheet
    without row [row] the model changes nothing. *)
Definition setCells (row col : nat) (values : list string) (sheet : list Row.t)
  : list Row.t :=
  alter (fun r => Row.ofCells (setValues col values (Row.cells r))) (row - 1) sheet.

(** The cells of row [row] set through [f].  The worker writes to rows it
    has read, which are on the sheet; on a sheet without such a row the
    model changes nothing. *)
Definition setRow {A} (row : nat) (f : A -> A) (sheet : list A) : list A :=
  alter f (row - 1) sheet.

End Range.

(** The spreadsheet: each tab is the list of its rows, row 1 first;
    [None] when [getSheetByName] finds no such tab. *)
Module Spreadsheet.
Record t := mk {
  negativeKeywords : option (list Row.t);
  processingTriggers : option (list Trigger.t)
}.
End Spreadsheet.

(** ** The submission path of the web application *)

(** An element of the [keywords] array of a request. *)
Module Keyword.
Record t := mk {
  text : option string;
  matchType : string;
  level : string;
  campaignId : option string;
  campaignName : option string;
  adGroupId : option string;
  adGroupName : option string;
  sharedListId : option string;
  sharedListName : option string
}.
End Keyword.

Module WebApp.
Import Js.

(** [if (condition) errors.push(text)] *)
Definition pushIf (condition : bool) (text : string) (errors : list string) : list string :=
  if condition then errors ++ [text] else errors.

(** [validateKeyword] *)
Definition validateKeyword (keyword : Keyword.t) : list string :=
  let errors := [] in
  let errors :=
    pushIf (negb (truthy (Keyword.text keyword))
            || (String.length (trim (orEmpty (Keyword.text keyword))) =? 0)%nat)
           "Keyword text is required" errors in
  let errors :=
    pushIf (truthy (Keyword.text keyword)
            && (80 <? String.length (orEmpty (Keyword.text keyword)))%nat)
           "Keyword text must be 80 characters or less" errors in
  let errors :=
    pushIf (negb (arrayIncludes ["EXACT"; "PHRASE"; "BROAD"] (Keyword.matchType keyword)))
           "Invalid match type. Must be EXACT, PHRASE, or BROAD" errors in
  let errors :=
    pushIf (negb (arrayIncludes ["CAMPAIGN"; "AD_GROUP"; "SHARED_LIST"] (Keyword.level keyword)))
           "Invalid level. Must be CAMPAIGN, AD_GROUP, or SHARED_LIST" errors in
  let errors :=
    pushIf ((Keyword.level keyword =? "CAMPAIGN")
            && negb (truthy (Keyword.campaignId keyword)))
           "Campaign ID is required for campaign level keywords" errors in
  let errors :=
    pushIf ((Keyword.level keyword =? "AD_GROUP")
            && (negb (truthy (Keyword.campaignId keyword))
                || negb (truthy (Keyword.adGroupId keyword))))
           "Campaign ID and Ad Group ID are required for ad group level keywords" errors in
  let errors :=
    pushIf ((Keyword.level keyword =? "SHARED_LIST")
            && negb (truthy (Keyword.sharedListId keyword)))
           "Shared List ID is required for shared list keywords" errors in
  errors.

(** What the handling of one keyword reads from outside: [Date.now()],
    the characters, nine at most, that
    [Math.random().toString(36).substr(2, 9)] gives, and
    [new Date().toISOString()]. *)
Record Reads := {
  dateNow : N;
  randomSuffix : string;
  isoString : string
}.

(** The outside of a request: the reads of the keyword at each index of
    the batch, and the time stamp of the trigger row. *)
Record Env := {
  reads : nat -> Reads;
  triggerTimestamp : string
}.

(** The id made for a keyword. *)
Definition newId (r : Reads) : string :=
  "new_" +:+ decimalN (dateNow r) +:+ "_" +:+ randomSuffix r.

Definition newRow (r : Reads) (keyword : Keyword.t) : Row.t :=
  Row.mk (newId r)
         (orEmpty (Keyword.text keyword))
         (Keyword.matchType keyword)
         (Keyword.level keyword)
         (orEmpty (Keyword.campaignId keyword))
         (orEmpty (Keyword.campaignName keyword))
         (orEmpty (Keyword.adGroupId keyword))
         (orEmpty (Keyword.adGroupName keyword))
         (orEmpty (Keyword.sharedListId keyword))
         (orEmpty (Keyword.sharedListName keyword))
         (isoString r)
         "PENDING"
         "Waiting for processing"
         "".

(** The result object of [addNegativeKeywords]. *)
Record SheetResult := {
  added : nat;
  failed : nat;
  errors : list string
}.

(** The variables of the loop of [addNegativeKeywords]. *)
Record Adding := {
  result : SheetResult;
  newRows : list Row.t
}.

(** [addNegativeKeywords]: one row per keyword, written below the last
    row of the sheet.  Building a row from a keyword object throws
    nothing, so the [catch] of the loop, which counts [failed], is never
    entered. *)
Definition addNegativeKeywords (env : Env) (sheet : list Row.t) (keywords : list Keyword.t)
  : SheetResult * list Row.t :=
  let lastRow := length sheet in
  let final :=
    forEach
      (fun (v : Adding) keyword index =>
         {| result := {| added := S (added (result v));
                         failed := failed (result v);
                         errors := errors (result v) |};
            newRows := newRows v ++ [newRow (reads env index) keyword] |})
      keywords 0
      {| result := {| added := 0; failed := 0; errors := [] |}; newRows := [] |} in
  (result final,
   if (0 <? length (newRows final))%nat
   then Range.setValues (lastRow + 1) (newRows final) sheet
   else sheet).

(** The data of the success response. *)
Record AddResponse := {
  res_added : nat;
  res_failed : nat;
  res_errors : list string;
  res_message : string
}.

(** The two kinds of response, without their time stamp. *)
Inductive Response :=
| createErrorResponse (message : string) (statusCode : nat)
| createResponse (data : AddResponse).

(** The line of the validation report for the keyword at [index]. *)
Definition validationLine (index : nat) (keyword : Keyword.t) : list string :=
  let errors := validateKeyword keyword in
  if (0 <? length errors)%nat
  then ["Keyword " +:+ decimal (index + 1) +:+ ": " +:+ join ", " errors]
  else [].

(** [getOrCreateTriggerSheet] then [appendRow]. *)
Definition appendTrigger (timestamp : string) (tab : option (list Trigger.t))
  : list Trigger.t :=
  let sheet := match tab with Some rows => rows | None => [Trigger.headers] end in
  sheet ++ [Trigger.mk "PROCESS_NEGATIVE_KEYWORDS" timestamp "PENDING" "" ""].

(** [handleAddNegativeKeywords].  [postData] is the [keywords] array of
    the request body, [None] when the request has no body. *)
Definition handleAddNegativeKeywords (env : Env) (ss : Spreadsheet.t)
           (postData : option (list Keyword.t)) : Response * Spreadsheet.t :=
  match postData with
  | None => (createErrorResponse "No data provided" 400, ss)
  | Some keywords =>
      if (length keywords =? 0)%nat
      then (createErrorResponse "Invalid keywords data" 400, ss)
      else
        let validationErrors :=
          forEach (fun errs keyword index => errs ++ validationLine index keyword)
                  keywords 0 [] in
        if (0 <? length validationErrors)%nat
        then (createErrorResponse
                ("Validation errors: " +:+ join "; " validationErrors) 400, ss)
        else
          match Spreadsheet.negativeKeywords ss with
          | None => (createErrorResponse "Negative keywords sheet not found" 404, ss)
          | Some sheet =>
              let '(sheetResult, sheet') := addNegativeKeywords env sheet keywords in
              (createResponse
                 {| res_added := added sheetResult;
                    res_failed := failed sheetResult;
                    res_errors := errors sheetResult;
                    res_message :=
                      decimal (added sheetResult) +:+
                      " negative keywords queued for addition to Google Ads. Processing will occur automatically within 15 minutes, or you can trigger it manually." |},
               Spreadsheet.mk
                 (Some sheet')
                 (Some (appendTrigger (triggerTimestamp env)
                                      (Spreadsheet.processingTriggers ss))))
          end
  end.

End WebApp.

(** ** The worker: [scripts/google-ads-script-negative.js] *)

(** The object [getPendingKeywords] makes of a pending row. *)
Module Pending.
Record t := mk {
  rowIndex : nat;
  id : string;
  keywordText : string;
  matchType : string;
  level : string;
  campaignId : string;
  campaignName : string;
  adGroupId : string;
  adGroupName : string;
  sharedListId : string;
  sharedListName : string;
  addedDate : string
}.
End Pending.

Module Worker.
Import Js.

(** How a call ends: with a value, or with an exception, of which the
    model keeps the text that [error.toString()] gives. *)
Inductive Completion (A : Type) :=
| Returned (a : A)
| Thrown (error : string).
Arguments Returned {A} a.
Arguments Thrown {A} error.

(** The result of [add] on the negative keywords of an entity. *)
Record Operation := {
  isSuccessful : bool;
  getErrors : list string
}.

(** The advertising account and the clock, as the script sees them.
    [World] is the state of what lies outside the script, [Entity] a
    campaign, an ad group or a shared list that an iterator hands out.
    Each selector answers [None] when its iterator is empty, and each call
    may throw. *)
Record AdsApp (World Entity : Type) := {
  getName : Entity -> string;
  campaigns : string -> World -> Completion (option Entity) * World;
  campaignAdd : Entity -> string -> string -> World -> Completion Operation * World;
  adGroups : string -> World -> Completion (option Entity) * World;
  adGroupAdd : Entity -> string -> string -> World -> Completion Operation * World;
  negativeKeywordLists : string -> World -> Completion (option Entity) * World;
  sharedListAdd : Entity -> string -> string -> World -> Completion Operation * World;
  toISOString : World -> string * World
}.
Arguments getName {World Entity}.
Arguments campaigns {World Entity}.
Arguments campaignAdd {World Entity}.
Arguments adGroups {World Entity}.
Arguments adGroupAdd {World Entity}.
Arguments negativeKeywordLists {World Entity}.
Arguments sharedListAdd {World Entity}.
Arguments toISOString {World Entity}.

(** What a function of the script returns for one keyword:
    [{success: true, message}] or [{success: false, error}]. *)
Inductive Result :=
| Success (message : string)
| Failure (error : string).

(** An entry of the [results] array of a run. *)
Record Entry := {
  keyword : string;
  entryLevel : string;
  success : bool;
  entryMessage : string
}.

(** [getPendingKeywords]: the rows below the header whose status cell is
    empty or PENDING and whose id starts with [new_], each with its row
    number. *)
Definition isPendingRow (row : Row.t) : bool :=
  let status := Row.status row in
  ((status =? "") || (status =? "PENDING"))
  && nonEmpty (Row.id row) && startsWith (Row.id row) "new_".

Definition pendingOf (index : nat) (row : Row.t) : Pending.t :=
  Pending.mk (index + 2) (Row.id row) (Row.keywordText row) (Row.matchType row)
             (Row.level row) (Row.campaignId row) (Row.campaignName row)
             (Row.adGroupId row) (Row.adGroupName row) (Row.sharedListId row)
             (Row.sharedListName row) (Row.addedDate row).

Definition getPendingKeywords (sheet : list Row.t) : list Pending.t :=
  let lastRow := length sheet in
  if (lastRow <=? 1)%nat then []
  else
    let data := take (lastRow - 1) (drop 1 sheet) in
    forEach
      (fun pendingKeywords row index =>
         if isPendingRow row then pendingKeywords ++ [pendingOf index row]
         else pendingKeywords)
      data 0 [].

Section Script.
Context {World Entity : Type} (ads : AdsApp World Entity).

(** The variables of a run. *)
Record State := {
  world : World;
  sheet : list Row.t;
  successCount : nat;
  failureCount : nat;
  results : list Entry
}.

(** A piece of the script: it changes the state and returns or throws. *)
Definition M (A : Type) : Type := State -> Completion A * State.

Definition ret {A} (a : A) : M A := fun s => (Returned a, s).

Definition bind {A B} (m : M A) (k : A -> M B) : M B :=
  fun s =>
    match m s with
    | (Returned a, s') => k a s'
    | (Thrown error, s') => (Thrown error, s')
    end.

(** [try { body } catch (error) { handler }] *)
Definition tryCatch {A} (body : M A) (handler : string -> M A) : M A :=
  fun s =>
    match body s with
    | (Returned a, s') => (Returned a, s')
    | (Thrown error, s') => handler error s'
    end.

(** A call into the account. *)
Definition call {A} (op : World -> Completion A * World) : M A :=
  fun s =>
    let '(c, w) := op (world s) in
    (c, {| world := w; sheet := sheet s; successCount := successCount s;
           failureCount := failureCount s; results := results s |}).

(** [new Date().toISOString()] *)
Definition now : M string :=
  fun s =>
    let '(t, w) := toISOString ads (world s) in
    (Returned t, {| world := w; sheet := sheet s; successCount := successCount s;
                    failureCount := failureCount s; results := results s |}).

Definition setSheet (f : list Row.t -> list Row.t) : M unit :=
  fun s =>
    (Returned tt, {| world := world s; sheet := f (sheet s);
                     successCount := successCount s;
                     failureCount := failureCount s; results := results s |}).

(** [successCount++] *)
Definition countSuccess : M unit :=
  fun s =>
    (Returned tt, {| world := world s; sheet := sheet s;
                     successCount := S (successCount s);
                     failureCount := failureCount s; results := results s |}).

(** [failureCount++] *)
Definition countFailure : M unit :=
  fun s =>
    (Returned tt, {| world := world s; sheet := sheet s;
                     successCount := successCount s;
                     failureCount := S (failureCount s); results := results s |}).

(** [results.push(entry)] *)
Definition pushResult (entry : Entry) : M unit :=
  fun s =>
    (Returned tt, {| world := world s; sheet := sheet s;
                     successCount := successCount s;
                     failureCount := failureCount s;
                     results := results s ++ [entry] |}).

Notation "'const' x := m ; k" := (bind m (fun x => k))
  (at level 10, x name, m at level 100, k at level 200).
Notation "'run' m ; k" := (bind m (fun _ => k))
  (at level 10, m at level 100, k at level 200).

(** [errors.length > 0 ? errors[0] : fallback] *)
Definition firstError (errors : list string) (fallback : string) : string :=
  match errors with
  | e :: _ => e
  | [] => fallback
  end.

(** The [try] block of [addCampaignNegativeKeyword]. *)
Definition addCampaignNegativeKeyword_try (keyword : Pending.t) : M Result :=
  if negb (nonEmpty (Pending.campaignId keyword))
  then ret (Failure "Campaign ID is required")
  else
    const campaignIterator := call (campaigns ads (Pending.campaignId keyword)) ;
    match campaignIterator with
    | None => ret (Failure ("Campaign not found: " +:+ Pending.campaignId keyword))
    | Some campaign =>
        const operation := call (campaignAdd ads campaign (Pending.keywordText keyword)
                                       (Pending.matchType keyword)) ;
        if isSuccessful operation
        then ret (Success ("Added to campaign " +:+ dquote +:+ getName ads campaign +:+ dquote))
        else ret (Failure (firstError (getErrors operation)
                                      "Unknown error adding campaign negative keyword"))
    end.

(** [addCampaignNegativeKeyword] *)
Definition addCampaignNegativeKeyword (keyword : Pending.t) : M Result :=
  tryCatch (addCampaignNegativeKeyword_try keyword)
           (fun error => ret (Failure ("Campaign error: " +:+ error))).

(** The [try] block of [addAdGroupNegativeKeyword]. *)
Definition addAdGroupNegativeKeyword_try (keyword : Pending.t) : M Result :=
  if negb (nonEmpty (Pending.adGroupId keyword))
  then ret (Failure "Ad Group ID is required")
  else
    const adGroupIterator := call (adGroups ads (Pending.adGroupId keyword)) ;
    match adGroupIterator with
    | None => ret (Failure ("Ad group not found: " +:+ Pending.adGroupId keyword))
    | Some adGroup =>
        const operation := call (adGroupAdd ads adGroup (Pending.keywordText keyword)
                                      (Pending.matchType keyword)) ;
        if isSuccessful operation
        then ret (Success ("Added to ad group " +:+ dquote +:+ getName ads adGroup +:+ dquote))
        else ret (Failure (firstError (getErrors operation)
                                      "Unknown error adding ad group negative keyword"))
    end.

(** [addAdGroupNegativeKeyword] *)
Definition addAdGroupNegativeKeyword (keyword : Pending.t) : M Result :=
  tryCatch (addAdGroupNegativeKeyword_try keyword)
           (fun error => ret (Failure ("Ad group error: " +:+ error))).

(** The [try] block of [addSharedListNegativeKeyword]. *)
Definition addSharedListNegativeKeyword_try (keyword : Pending.t) : M Result :=
  if negb (nonEmpty (Pending.sharedListId keyword))
  then ret (Failure "Shared List ID is required")
  else
    const sharedListIterator := call (negativeKeywordLists ads (Pending.sharedListId keyword)) ;
    match sharedListIterator with
    | None => ret (Failure ("Shared list not found: " +:+ Pending.sharedListId keyword))
    | Some sharedList =>
        const operation := call (sharedListAdd ads sharedList (Pending.keywordText keyword)
                                         (Pending.matchType keyword)) ;
        if isSuccessful operation
        then ret (Success ("Added to shared list " +:+ dquote +:+ getName ads sharedList +:+ dquote))
        else ret (Failure (firstError (getErrors operation)
                                      "Unknown error adding shared list negative keyword"))
    end.

(** [addSharedListNegativeKeyword] *)
Definition addSharedListNegativeKeyword (keyword : Pending.t) : M Result :=
  tryCatch (addSharedListNegativeKeyword_try keyword)
           (fun error => ret (Failure ("Shared list error: " +:+ error))).

(** [addNegativeKeywordToGoogleAds] *)
Definition addNegativeKeywordToGoogleAds (keyword : Pending.t) : M Result :=
  tryCatch
    (if Pending.level keyword =? "CAMPAIGN" then addCampaignNegativeKeyword keyword
     else if Pending.level keyword =? "AD_GROUP" then addAdGroupNegativeKeyword keyword
     else if Pending.level keyword =? "SHARED_LIST" then addSharedListNegativeKeyword keyword
     else ret (Failure ("Invalid keyword level: " +:+ Pending.level keyword)))
    (fun error => ret (Failure error)).

(** The work on the account for one keyword, outside every [catch]: the
    [try] block of the function that the level selects. *)
Definition dispatch_try (keyword : Pending.t) : M Result :=
  if Pending.level keyword =? "CAMPAIGN" then addCampaignNegativeKeyword_try keyword
  else if Pending.level keyword =? "AD_GROUP" then addAdGroupNegativeKeyword_try keyword
  else if Pending.level keyword =? "SHARED_LIST" then addSharedListNegativeKeyword_try keyword
  else ret (Failure ("Invalid keyword level: " +:+ Pending.level keyword)).

(** What the [catch] of that function puts before the text of an
    exception. *)
Definition errorPrefix (level : string) : string :=
  if level =? "CAMPAIGN" then "Campaign error: "
  else if level =? "AD_GROUP" then "Ad group error: "
  else "Shared list error: ".

(** The first lines of [updateKeywordStatus]: when the content of the
    sheet ends before column 14, the three labels are written to row 1,
    from the column after the last one with content. *)
Definition ensureColumns (sheet : list Row.t) : list Row.t :=
  let lastCol := Range.getLastColumn sheet in
  if (lastCol <? 14)%nat
  then Range.setCells 1 (lastCol + 1) ["Status"; "Message"; "Processed Date"] sheet
  else sheet.

(** [updateKeywordStatus]: the columns are seen to, then status, message
    and processed date of the row are set.  Writing to the sheet throws
    nothing in the model. *)
Definition updateKeywordStatus (rowIndex : nat) (status message : string) : M unit :=
  tryCatch
    (run setSheet ensureColumns ;
     const processed := now ;
     setSheet (Range.setRow rowIndex (Row.setOutcome status message processed)))
    (fun _ => ret tt).

(** The callback of the loop of [processPendingNegativeKeywords]. *)
Definition processKeyword (keyword : Pending.t) : M unit :=
  tryCatch
    (const result := addNegativeKeywordToGoogleAds keyword ;
     match result with
     | Success message =>
         run countSuccess ;
         run updateKeywordStatus (Pending.rowIndex keyword) "ACTIVE" message ;
         pushResult {| keyword := Pending.keywordText keyword;
                       entryLevel := Pending.level keyword;
                       success := true;
                       entryMessage := message |}
     | Failure error =>
         run countFailure ;
         run updateKeywordStatus (Pending.rowIndex keyword) "FAILED" error ;
         pushResult {| keyword := Pending.keywordText keyword;
                       entryLevel := Pending.level keyword;
                       success := false;
                       entryMessage := error |}
     end)
    (fun error =>
       run countFailure ;
       updateKeywordStatus (Pending.rowIndex keyword) "FAILED" error).

(** [pendingKeywords.forEach(...)]: an exception that leaves the callback
    ends the loop. *)
Fixpoint forEachKeyword (f : Pending.t -> M unit) (l : list Pending.t) : M unit :=
  match l with
  | [] => ret tt
  | keyword :: l' => run f keyword ; forEachKeyword f l'
  end.

(** The row of the most recent pending trigger, counted from 0 among the
    rows below the header. *)
Fixpoint lastPendingTrigger (data : list Trigger.t) : option nat :=
  match data with
  | [] => None
  | t :: rest =>
      match lastPendingTrigger rest with
      | Some i => Some (S i)
      | None => if Trigger.status t =? "PENDING" then Some 0 else None
      end
  end.

(** [updateProcessingTriggerStatus] *)
Definition updateProcessingTriggerStatus (successCount failureCount : nat)
           (tab : option (list Trigger.t)) (w : World)
  : option (list Trigger.t) * World :=
  match tab with
  | None => (tab, w)
  | Some rows =>
      let lastRow := length rows in
      if (lastRow <=? 1)%nat then (tab, w)
      else
        match lastPendingTrigger (take (lastRow - 1) (drop 1 rows)) with
        | None => (tab, w)
        | Some i =>
            let rowIndex := i + 2 in
            let message :=
              "Processed: " +:+ decimal successCount +:+ " successful, "
              +:+ decimal failureCount +:+ " failed" in
            let '(processed, w') := toISOString ads w in
            (Some (Range.setRow rowIndex
                     (fun t => Trigger.mk (Trigger.action t) (Trigger.timestamp t)
                                          "COMPLETED" message processed)
                     rows),
             w')
        end
  end.

(** [processPendingNegativeKeywords]: [None] is the [null] it returns when
    the tab is missing or an exception reaches its [catch]. *)
Definition processPendingNegativeKeywords (ss : Spreadsheet.t) (w : World)
  : option (list Entry) * Spreadsheet.t * World :=
  match Spreadsheet.negativeKeywords ss with
  | None => (None, ss, w)
  | Some rows =>
      let pendingKeywords := getPendingKeywords rows in
      if (length pendingKeywords =? 0)%nat then (Some [], ss, w)
      else
        match forEachKeyword processKeyword pendingKeywords
                {| world := w; sheet := rows; successCount := 0;
                   failureCount := 0; results := [] |} with
        | (Returned _, s) =>
            let '(triggers, w') :=
              updateProcessingTriggerStatus (successCount s) (failureCount s)
                (Spreadsheet.processingTriggers ss) (world s) in
            (Some (results s), Spreadsheet.mk (Some (sheet s)) triggers, w')
        | (Thrown _, s) =>
            (None, Spreadsheet.mk (Some (sheet s)) (Spreadsheet.processingTriggers ss),
             world s)
        end
  end.

(** The state in which a run starts its loop. *)
Definition start (rows : list Row.t) (w : World) : State :=
  {| world := w; sheet := rows; successCount := 0; failureCount := 0; results := [] |}.

(** The state after the loop has gone through [l]. *)
Definition after (l : list Pending.t) (s : State) : State :=
  snd (forEachKeyword processKeyword l s).

End Script.

End Worker.

(** ** The other requests of the web application *)

Module Api.
Import Js.

(** A response: an error with its status code, or the data of a success. *)
Inductive Reply (A : Type) :=
| errorReply (message : string) (statusCode : nat)
| okReply (data : A).
Arguments errorReply {A} message statusCode.
Arguments okReply {A} data.

(** [sheet.deleteRow(row)], rows counted from 1. *)
Definition deleteRow {A} (row : nat) (sheet : list A) : list A :=
  take (row - 1) sheet ++ drop row sheet.

(** The loop of [removeNegativeKeyword], from the index [i] on: the index
    of the first row whose id cell is [keywordId]. *)
Fixpoint findRow (keywordId : string) (data : list Row.t) (i : nat) : option nat :=
  match data with
  | [] => None
  | row :: rest =>
      if Row.id row =? keywordId then Some i
      else findRow keywordId rest (S i)
  end.

(** [removeNegativeKeyword]: the loop starts at index 1, below the header. *)
Definition removeNegativeKeyword (sheet : list Row.t) (keywordId : string)
  : bool * list Row.t :=
  match findRow keywordId (drop 1 sheet) 1 with
  | Some i => (true, deleteRow (i + 1) sheet)
  | None => (false, sheet)
  end.

(** The data of the response to a removal. *)
Record Removal := {
  removed : bool;
  removalMessage : string
}.

(** [handleRemoveNegativeKeyword]; [id] is the parameter of the request. *)
Definition handleRemoveNegativeKeyword (ss : Spreadsheet.t) (id : option string)
  : Reply Removal * Spreadsheet.t :=
  if negb (truthy id) then (errorReply "Keyword ID is required" 400, ss)
  else
    match Spreadsheet.negativeKeywords ss with
    | None => (errorReply "Negative keywords sheet not found" 404, ss)
    | Some sheet =>
        let '(success, sheet') := removeNegativeKeyword sheet (orEmpty id) in
        (okReply {| removed := success;
                    removalMessage :=
                      if success then "Negative keyword removed successfully"
                      else "Failed to remove negative keyword" |},
         Spreadsheet.mk (Some sheet') (Spreadsheet.processingTriggers ss))
    end.

(** The object that [getNegativeKeywordData] makes of a row: the cells as
    they are, but for a status that is PENDING when the cell is empty. *)
Definition itemOf (row : Row.t) : Row.t :=
  Row.mk (Row.id row) (Row.keywordText row) (Row.matchType row) (Row.level row)
         (Row.campaignId row) (Row.campaignName row) (Row.adGroupId row)
         (Row.adGroupName row) (Row.sharedListId row) (Row.sharedListName row)
         (Row.addedDate row)
         (if nonEmpty (Row.status row) then Row.status row else "PENDING")
         (Row.message row) (Row.processedDate row).

(** [getNegativeKeywordData] *)
Definition getNegativeKeywordData (sheet : list Row.t) : list Row.t :=
  let lastRow := length sheet in
  if (lastRow <=? 1)%nat then []
  else map itemOf (take (lastRow - 1) (drop 1 sheet)).

(** The data of the response of [handleGetNegativeKeywords]. *)
Record Buckets := {
  campaign : list Row.t;
  adGroup : list Row.t;
  shared : list Row.t;
  all : list Row.t;
  total : nat
}.

(** [handleGetNegativeKeywords] *)
Definition handleGetNegativeKeywords (ss : Spreadsheet.t) : Reply Buckets :=
  match Spreadsheet.negativeKeywords ss with
  | None => errorReply "Negative keywords sheet not found" 404
  | Some sheet =>
      let data := getNegativeKeywordData sheet in
      okReply {| campaign := List.filter (fun item => Row.level item =? "CAMPAIGN") data;
                 adGroup := List.filter (fun item => Row.level item =? "AD_GROUP") data;
                 shared := List.filter (fun item => Row.level item =? "SHARED_LIST") data;
                 all := data;
                 total := length data |}
  end.

(** The data of the response of [handleGetProcessingStatus]. *)
Record ProcessingStatus := {
  status : string;
  lastProcessed : option string;
  pendingRequests : nat
}.

(** The variables of the loop of [handleGetProcessingStatus]. *)
Record Scan := {
  scanLast : option string;
  scanPending : nat
}.

Section Dates.
(** [new Date(a) > new Date(b)] on two cells. *)
Variable later : string -> string -> bool.

(** The callback of the loop of [handleGetProcessingStatus]. *)
Definition scanTrigger (v : Scan) (row : Trigger.t) (index : nat) : Scan :=
  if Trigger.status row =? "PENDING"
  then {| scanLast := scanLast v; scanPending := S (scanPending v) |}
  else if (Trigger.status row =? "COMPLETED") && nonEmpty (Trigger.processedDate row)
  then
    match scanLast v with
    | None => {| scanLast := Some (Trigger.processedDate row);
                 scanPending := scanPending v |}
    | Some last =>
        if later (Trigger.processedDate row) last
        then {| scanLast := Some (Trigger.processedDate row);
                scanPending := scanPending v |}
        else v
    end
  else v.

(** [handleGetProcessingStatus] *)
Definition handleGetProcessingStatus (ss : Spreadsheet.t) : ProcessingStatus :=
  let none := {| status := "No processing history found";
                 lastProcessed := None;
                 pendingRequests := 0 |} in
  match Spreadsheet.processingTriggers ss with
  | None => none
  | Some sheet =>
      let lastRow := length sheet in
      if (lastRow <=? 1)%nat then none
      else
        let data := take (lastRow - 1) (drop 1 sheet) in
        let v := forEach scanTrigger data 0 {| scanLast := None; scanPending := 0 |} in
        {| status := if (0 <? scanPending v)%nat then "Processing pending" else "Up to date";
           lastProcessed := scanLast v;
           pendingRequests := scanPending v |}
  end.
End Dates.

(** The data of the response of [handleProcessKeywords]. *)
Record Queued := {
  queuedMessage : string;
  queuedTimestamp : string
}.

(** [handleProcessKeywords]; [timestamp] is what the clock gives. *)
Definition handleProcessKeywords (ss : Spreadsheet.t) (timestamp : string)
  : Reply Queued * Spreadsheet.t :=
  match Spreadsheet.negativeKeywords ss with
  | None => (errorReply "Negative keywords sheet not found" 404, ss)
  | Some sheet =>
      (okReply {| queuedMessage :=
                    "Processing request queued. Keywords will be added to Google Ads shortly.";
                  queuedTimestamp := timestamp |},
       Spreadsheet.mk (Some sheet)
                      (Some (WebApp.appendTrigger timestamp
                                                  (Spreadsheet.processingTriggers ss))))
  end.

(** An entry of the list of shared lists that the dropdown shows. *)
Record SharedList := {
  listId : string;
  listName : string
}.

(** [getSharedListDataFromSheet]; a row of the tab is the pair of its two
    cells. *)
Definition getSharedListDataFromSheet (tab : option (list (string * string)))
  : list SharedList :=
  match tab with
  | None => []
  | Some sheet =>
      let lastRow := length sheet in
      if (lastRow <=? 1)%nat then []
      else map (fun row => {| listId := fst row; listName := snd row |})
               (take (lastRow - 1) (drop 1 sheet))
  end.

End Api.

(** ** The catalogue of shared lists that the worker refreshes *)

Module Catalog.
Import Js.

(** The shared lists of the account, as the script sees them. *)
Record Lists (World Entity : Type) := {
  negativeKeywordLists : World -> Worker.Completion (list Entity) * World;
  getId : Entity -> string;
  getName : Entity -> string
}.
Arguments negativeKeywordLists {World Entity}.
Arguments getId {World Entity}.
Arguments getName {World Entity}.

Definition headers : string * string := ("Shared List ID", "Shared List Name").

(** [updateSharedListData]: the tab is made if it is missing and cleared
    if it is not, the header is written, the lists of the account are
    gathered and written below it.  An exception of the account is caught
    after the tab has been cleared. *)
Definition updateSharedListData {World Entity : Type} (lists : Lists World Entity)
           (tab : option (list (string * string))) (w : World)
  : option (list (string * string)) * World :=
  let cleared : list (string * string) := [] in
  let sheet := Range.setValues 1 [headers] cleared in
  match negativeKeywordLists lists w with
  | (Worker.Thrown _, w') => (Some sheet, w')
  | (Worker.Returned found, w') =>
      let data := map (fun sharedList => (getId lists sharedList, getName lists sharedList))
                      found in
      (Some (if (0 <? length data)%nat then Range.setValues 2 data sheet else sheet), w')
  end.

End Catalog.

(** ** The dashboard of the web application *)

Module Dashboard.
Import Js.

(** What [calculateDashboardMetrics] and the opportunities read of a row
    of the search terms sheet: the three names as [row[i] || ''] gives
    them, the four numbers as [parseFloat(row[i]) || 0] and
    [parseInt(row[i]) || 0] give them. *)
Record Reading := {
  searchTerm : string;
  campaignName : string;
  adGroupName : string;
  cost : Q;
  clicks : Q;
  impressions : Q;
  conversions : Q
}.

(** An element of [opportunities]. *)
Record Opportunity := {
  opp_searchTerm : string;
  opp_cost : Q;
  opp_clicks : Q;
  opp_conversions : Q;
  opp_potentialSavings : Q;
  opp_campaignName : string;
  opp_adGroupName : string
}.

(** The variables of the loop. *)
Record Totals := {
  sumCost : Q;
  sumClicks : Q;
  sumImpressions : Q;
  sumConversions : Q;
  sumWasted : Q;
  sumSavings : Q;
  opportunities : list Opportunity
}.

(** The object that the loop pushes for a row. *)
Definition toOpportunity (row : Reading) : Opportunity :=
  {| opp_searchTerm := searchTerm row;
     opp_cost := cost row;
     opp_clicks := clicks row;
     opp_conversions := conversions row;
     opp_potentialSavings := cost row;
     opp_campaignName := campaignName row;
     opp_adGroupName := adGroupName row |}.

(** The callback of the loop. *)
Definition addRow (v : Totals) (row : Reading) (index : nat) : Totals :=
  let wasted := isZero (conversions row) in
  let dear := wasted && gt (cost row) 5 in
  {| sumCost := (sumCost v + cost row)%Q;
     sumClicks := (sumClicks v + clicks row)%Q;
     sumImpressions := (sumImpressions v + impressions row)%Q;
     sumConversions := (sumConversions v + conversions row)%Q;
     sumWasted := if wasted then (sumWasted v + cost row)%Q else sumWasted v;
     sumSavings := if dear then (sumSavings v + cost row)%Q else sumSavings v;
     opportunities :=
       if dear then opportunities v ++ [toOpportunity row] else opportunities v |}.

(** [Math.round(x * 100) / 100], [Math.round] being the integer below
    [x + 1/2] or equal to it. *)
Definition round2 (x : Q) : Q := (inject_Z (Qfloor (x * 100 + (1 # 2))) / 100)%Q.

Record Metrics := {
  totalSearchTerms : nat;
  totalCost : Q;
  totalClicks : Q;
  totalConversions : Q;
  wastedSpend : Q;
  potentialSavings : Q;
  averageCtr : Q;
  averageCpc : Q;
  averageCpa : Q;
  topNegativeKeywordOpportunities : list Opportunity
}.

(** [getEmptyMetrics] *)
Definition getEmptyMetrics : Metrics :=
  {| totalSearchTerms := 0; totalCost := 0; totalClicks := 0; totalConversions := 0;
     wastedSpend := 0; potentialSavings := 0; averageCtr := 0; averageCpc := 0;
     averageCpa := 0; topNegativeKeywordOpportunities := [] |}.

Definition bySavingsDescending (a b : Opportunity) : Q :=
  (opp_potentialSavings b - opp_potentialSavings a)%Q.

(** [calculateDashboardMetrics]; the sheet has its header in row 1. *)
Definition calculateDashboardMetrics (sheet : list Reading) : Metrics :=
  let lastRow := length sheet in
  if (lastRow <=? 1)%nat then getEmptyMetrics
  else
    let data := take (lastRow - 1) (drop 1 sheet) in
    let v := forEach addRow data 0
                     {| sumCost := 0; sumClicks := 0; sumImpressions := 0;
                        sumConversions := 0; sumWasted := 0; sumSavings := 0;
                        opportunities := [] |} in
    let averageCTR :=
      if gt (sumImpressions v) 0 then ((sumClicks v / sumImpressions v) * 100)%Q else 0%Q in
    let averageCPC := if gt (sumClicks v) 0 then (sumCost v / sumClicks v)%Q else 0%Q in
    let averageCPA :=
      if gt (sumConversions v) 0 then (sumCost v / sumConversions v)%Q else 0%Q in
    let sorted := sort bySavingsDescending (opportunities v) in
    {| totalSearchTerms := length data;
       totalCost := round2 (sumCost v);
       totalClicks := sumClicks v;
       totalConversions := sumConversions v;
       wastedSpend := round2 (sumWasted v);
       potentialSavings := round2 (sumSavings v);
       averageCtr := round2 averageCTR;
       averageCpc := round2 averageCPC;
       averageCpa := round2 averageCPA;
       topNegativeKeywordOpportunities := take 10 sorted |}.

End Dashboard.

(** ** The vocabulary of the specification

    The properties below are stated with these propositions, which follow
    the wording of the specification and not the code. *)

Module Spec.
Import Js Calculations.

(** A row qualifies as an opportunity. *)
Definition qualifies (item : SearchTermData) : Prop :=
  (conversions item == 0 /\ 5 < cost item /\ 0 < clicks item)%Q.

(** A row counts towards the potential savings of the dashboard. *)
Definition countsAsSavings (item : SearchTermData) : Prop :=
  (conversions item == 0 /\ 5 < cost item)%Q.















(** The claim on the two savings sums, as the specification words it: the
    dashboard's potential savings are the savings summed over the scorer's
    candidates, whatever the rows. *)
Definition SamePredicate : Prop :=
  forall data : list SearchTermData,
    (calculatePotentialSavings data == totalSavings (identifyOpportunities data))%Q.




(** The class [[A-Za-z0-9\s\-_.,!?]] of the specification. *)
Definition allowedChar (c : ascii) : bool :=
  between 65 90 c || between 97 122 c || between 48 57 c || isWhiteSpace c
  || Ascii.eqb c "-" || Ascii.eqb c "_" || Ascii.eqb c "." || Ascii.eqb c ","
  || Ascii.eqb c "!" || Ascii.eqb c "?".

(** Every character of the text is of the class. *)
Definition inClass (s : string) : Prop :=
  Forall (fun c => allowedChar c = true) (list_ascii_of_string s).

(** The text is white space only. *)
Definition blank (s : string) : Prop :=
  Forall (fun c => isWhiteSpace c = true) (list_ascii_of_string s).

(** An id field is present: given and not empty. *)
Definition present (o : option string) : Prop :=
  exists s, o = Some s /\ s <> "".

(** The id fields that the level requires are present. *)
Definition levelIdsPresent (k : Keyword.t) : Prop :=
  (Keyword.level k = "CAMPAIGN" -> present (Keyword.campaignId k)) /\
  (Keyword.level k = "AD_GROUP" ->
   present (Keyword.campaignId k) /\ present (Keyword.adGroupId k)) /\
  (Keyword.level k = "SHARED_LIST" -> present (Keyword.sharedListId k)).

(** The rules of the validator as the specification lists them. *)
Definition rulesAsStated (k : Keyword.t) : Prop :=
  (exists t, Keyword.text k = Some t /\ t <> "" /\ String.length t <= 80 /\ inClass t) /\
  In (Keyword.matchType k) ["EXACT"; "PHRASE"; "BROAD"] /\
  In (Keyword.level k) ["CAMPAIGN"; "AD_GROUP"; "SHARED_LIST"] /\
  levelIdsPresent k.

(** The text of the keyword, when it has one, is not blank. *)
Definition textNotBlank (k : Keyword.t) : Prop :=
  forall t, Keyword.text k = Some t -> ~ blank t.

(** The text of the keyword, when it has one, stays within the class. *)
Definition textInClass (k : Keyword.t) : Prop :=
  forall t, Keyword.text k = Some t -> inClass t.

(** The claim on the validator, as the specification words it. *)
Definition ValidatorAsStated : Prop :=
  forall k : Keyword.t, WebApp.validateKeyword k = [] <-> rulesAsStated k.

Definition isValid (k : Keyword.t) : bool :=
  (length (WebApp.validateKeyword k) =? 0)%nat.

(** The claim on batches, as the specification words it: of a batch with
    valid and invalid keywords, the valid ones are appended to the ledger
    and counted, the invalid ones alone are turned down. *)
Definition PerItemAdmission : Prop :=
  forall (env : WebApp.Env) (sheet : list Row.t) (triggers : option (list Trigger.t))
         (keywords : list Keyword.t),
    (exists k, In k keywords /\ WebApp.validateKeyword k = []) ->
    (exists k, In k keywords /\ WebApp.validateKeyword k <> []) ->
    exists data sheet' triggers',
      WebApp.handleAddNegativeKeywords env (Spreadsheet.mk (Some sheet) triggers)
                                       (Some keywords)
      = (WebApp.createResponse data, Spreadsheet.mk (Some sheet') triggers') /\
      WebApp.res_added data = length (List.filter isValid keywords) /\
      map Row.keywordText (drop (length sheet) sheet')
      = map (fun k => orEmpty (Keyword.text k)) (List.filter isValid keywords).

(** The claim on the ids of appended rows, as the specification words it:
    whatever the clock and the generator give, the new rows have ids that
    differ from each other and from the ids the ledger had. *)
Definition AppendFreshIds : Prop :=
  forall (env : WebApp.Env) (sheet : list Row.t) (keywords : list Keyword.t),
    let sheet' := snd (WebApp.addNegativeKeywords env sheet keywords) in
    NoDup (map Row.id (drop (length sheet) sheet')) /\
    (forall row, In row (drop (length sheet) sheet') ->
                 ~ In (Row.id row) (map Row.id sheet)).

(** The row of the sheet that a pending keyword stands for has this
    status and this message. *)
Definition marked (rows : list Row.t) (p : Pending.t) (status message : string) : Prop :=
  exists row, rows !! (Pending.rowIndex p - 1) = Some row /\
              Row.status row = status /\ Row.message row = message.

(** The row of the sheet that a pending keyword stands for has been
    processed: it is ACTIVE or FAILED. *)
Definition processed (rows : list Row.t) (p : Pending.t) : Prop :=
  exists row, rows !! (Pending.rowIndex p - 1) = Some row /\
              (Row.status row = "ACTIVE" \/ Row.status row = "FAILED").

(** A run over a ledger whose pending keywords are [before], then [p],
    then [rest], in which the account throws an exception of text [t]
    while [p] is dispatched: the run ends with its list of results, [p] is
    FAILED with [message t] as its message, and every keyword of [rest]
    has been processed. *)
Definition isolated (message : Pending.t -> string -> string) : Prop :=
  forall (World Entity : Type) (ads : Worker.AdsApp World Entity)
         (rows : list Row.t) (triggers : option (list Trigger.t)) (w : World)
         (before rest : list Pending.t) (p : Pending.t) (t : string),
    Worker.getPendingKeywords rows = before ++ p :: rest ->
    fst (Worker.dispatch_try ads p (Worker.after ads before (Worker.start rows w)))
    = Worker.Thrown t ->
    exists entries rows' triggers' w',
      Worker.processPendingNegativeKeywords ads (Spreadsheet.mk (Some rows) triggers) w
      = (Some entries, Spreadsheet.mk (Some rows') triggers', w') /\
      marked rows' p "FAILED" (message p t) /\
      (forall q, In q rest -> processed rows' q).

(** The claim on the isolation of failures, as the specification words it:
    the message of the failed request is the text of the exception. *)
Definition IsolationAsStated : Prop := isolated (fun _ t => t).

(** The claim on [listPending], as the specification words it: every row
    below the header whose status is PENDING is listed, whatever its id. *)
Definition ListsEveryPending : Prop :=
  forall (sheet : list Row.t) (i : nat) (row : Row.t),
    drop 1 sheet !! i = Some row ->
    Row.status row = "PENDING" ->
    exists p, In p (Worker.getPendingKeywords sheet) /\ Pending.rowIndex p = i + 2.

(** The pending rows of [data], whose first row has index [index], in the
    order of the sheet. *)
Fixpoint pendingFrom (index : nat) (data : list Row.t) : list Pending.t :=
  match data with
  | [] => []
  | row :: rest =>
      (if Worker.isPendingRow row then [Worker.pendingOf index row] else [])
      ++ pendingFrom (S index) rest
  end.

(** A row waits for the worker: its status is PENDING, or empty, which
    reads as PENDING, and its id is one that the web application made. *)
Definition awaitsWorker (row : Row.t) : Prop :=
  (Row.status row = "PENDING" \/ Row.status row = "") /\
  exists suffix, Row.id row = "new_" +:+ suffix.

End Spec.

(** ** Sample data *)

Module Samples.
Import Js Calculations.

Definition row (term : string) (c k v : Q) : SearchTermData :=
  {| searchTerm := term;
     campaignName := "Shoes";
     adGroupName := "Running Shoes";
     cost := c;
     clicks := k;
     impressions := 100;
     conversions := v;
     costPerConversion := 0;
     ctr := 0;
     cpc := 0 |}.

(** A term whose two words a tab separates, and no space. *)
Definition tabbed : string := "red" +:+ String (ascii_of_nat 9) "shoes".

(** The rows of the scoring scenario of the specification. *)
Definition scenarioRows : list SearchTermData :=
  [row "free shipping" 20 5 0; row "shoe" 3 2 0; row "running shoes" 50 10 2].

(** A row that cost money without a click. *)
Definition unclickedRows : list SearchTermData :=
  [row "free shipping" 10 0 0].

(** The keyword of the admission scenario of the specification. *)
Definition freeShipping : Keyword.t :=
  Keyword.mk (Some "free shipping") "BROAD" "CAMPAIGN" (Some "123") (Some "Shoes")
             None None None None.

(** The keyword of the rejection scenario: an ad group level without the
    id of an ad group. *)
Definition shoesNoAdGroup : Keyword.t :=
  Keyword.mk (Some "shoes") "EXACT" "AD_GROUP" None None None None None None.

(** A keyword whose text is one space. *)
Definition blankText : Keyword.t :=
  Keyword.mk (Some " ") "EXACT" "CAMPAIGN" (Some "123") None None None None None.

(** A keyword with a character outside the permitted class. *)
Definition atSign : Keyword.t :=
  Keyword.mk (Some "a@b") "EXACT" "CAMPAIGN" (Some "123") None None None None None.

(** A clock that stands still and a generator that repeats itself. *)
Definition frozen : WebApp.Env :=
  {| WebApp.reads := fun _ =>
       {| WebApp.dateNow := 1700000000000;
          WebApp.randomSuffix := "k3x9q2m1z";
          WebApp.isoString := "2023-11-14T22:13:20.000Z" |};
     WebApp.triggerTimestamp := "2023-11-14T22:13:20.000Z" |}.

(** A generator whose draws differ from one keyword to the next. *)
Definition counting : WebApp.Env :=
  {| WebApp.reads := fun index =>
       {| WebApp.dateNow := 1700000000000;
          WebApp.randomSuffix := "k3x9q2m1" +:+ Js.decimal index;
          WebApp.isoString := "2023-11-14T22:13:20.000Z" |};
     WebApp.triggerTimestamp := "2023-11-14T22:13:20.000Z" |}.

(** A ledger with its header and one row that the collector wrote. *)
Definition ledger : list Row.t :=
  [Row.headers;
   Row.mk "neg_1" "jobs" "BROAD" "CAMPAIGN" "123" "Shoes" "" "" "" ""
          "2023-11-01T00:00:00.000Z" "ACTIVE" "Existing negative keyword"
          "2023-11-01T00:00:00.000Z"].

Definition book : Spreadsheet.t := Spreadsheet.mk (Some ledger) None.

Definition pendingRow (id text level campaign : string) : Row.t :=
  Row.mk id text "BROAD" level campaign "" "" "" "" ""
         "2023-11-14T22:13:20.000Z" "PENDING" "Waiting for processing" "".

(** A ledger with a row of the collector and a pending row whose id the
    web application did not make. *)
Definition foreignLedger : list Row.t :=
  [Row.headers; pendingRow "kw_7" "jobs" "CAMPAIGN" "123"].

(** A ledger with three requests of the web application: for a campaign
    on which the account throws, for a known campaign, and with a level
    that does not exist. *)
Definition queue : list Row.t :=
  [Row.headers;
   pendingRow "new_1_a" "free shipping" "CAMPAIGN" "500";
   pendingRow "new_2_b" "cheap" "CAMPAIGN" "123";
   pendingRow "new_3_c" "jobs" "ACCOUNT" "123"].

(** An account with the campaign 123, named Shoes, that throws when it is
    asked for the campaign 500; its clock stands still. *)
Definition account : Worker.AdsApp unit string :=
  {| Worker.getName := fun name => name;
     Worker.campaigns := fun id w =>
       if id =? "123" then (Worker.Returned (Some "Shoes"), w)
       else if id =? "500" then (Worker.Thrown "Error: internal error", w)
       else (Worker.Returned None, w);
     Worker.campaignAdd := fun _ _ _ w =>
       (Worker.Returned {| Worker.isSuccessful := true; Worker.getErrors := [] |}, w);
     Worker.adGroups := fun _ w => (Worker.Returned None, w);
     Worker.adGroupAdd := fun _ _ _ w =>
       (Worker.Returned {| Worker.isSuccessful := true; Worker.getErrors := [] |}, w);
     Worker.negativeKeywordLists := fun _ w => (Worker.Returned None, w);
     Worker.sharedListAdd := fun _ _ _ w =>
       (Worker.Returned {| Worker.isSuccessful := true; Worker.getErrors := [] |}, w);
     Worker.toISOString := fun w => ("2023-11-14T22:30:00.000Z", w) |}.

End Samples.

(** ** The form of the client: [src/components/NegativeKeywordModal.tsx] *)

Module Form.
Import Js.

(** [NegativeKeywordFormData] *)
Record t := mk {
  keywords : list string;
  matchType : string;
  level : string;
  campaignId : option string;
  adGroupId : option string;
  sharedListId : option string
}.

(** The class of the regular expression [/^[a-zA-Z0-9\s\-_.,!?]+$/]. *)
Definition allowed (c : ascii) : bool :=
  between 97 122 c || between 65 90 c || between 48 57 c || isWhiteSpace c
  || Ascii.eqb c "-" || Ascii.eqb c "_" || Ascii.eqb c "." || Ascii.eqb c ","
  || Ascii.eqb c "!" || Ascii.eqb c "?".

(** [/^[a-zA-Z0-9\s\-_.,!?]+$/.test(keyword)]: one character or more, all
    of the class. *)
Definition test (keyword : string) : bool :=
  nonEmpty keyword && forallb allowed (list_ascii_of_string keyword).

(** The callback of the loop of [validateForm]. *)
Definition validateEntry (errors : list string) (keyword : string) (index : nat)
  : list string :=
  let errors :=
    WebApp.pushIf (negb (nonEmpty (trim keyword)))
                  ("Keyword " +:+ decimal (index + 1) +:+ " cannot be empty") errors in
  let errors :=
    WebApp.pushIf (80 <? String.length keyword)%nat
                  ("Keyword " +:+ decimal (index + 1) +:+ " is too long (max 80 characters)")
                  errors in
  WebApp.pushIf (negb (test keyword))
                ("Keyword " +:+ decimal (index + 1) +:+ " contains invalid characters")
                errors.

(** [validateForm] *)
Definition validateForm (formData : t) : list string :=
  let errors := [] in
  let errors :=
    WebApp.pushIf (length (keywords formData) =? 0)%nat
                  "At least one keyword is required" errors in
  let errors :=
    WebApp.pushIf ((level formData =? "CAMPAIGN") && negb (truthy (campaignId formData)))
                  "Campaign is required for campaign-level negative keywords" errors in
  let errors :=
    WebApp.pushIf ((level formData =? "AD_GROUP")
                   && (negb (truthy (campaignId formData))
                       || negb (truthy (adGroupId formData))))
                  "Campaign and Ad Group are required for ad group-level negative keywords"
                  errors in
  let errors :=
    WebApp.pushIf ((level formData =? "SHARED_LIST")
                   && negb (truthy (sharedListId formData)))
                  "Shared list is required for shared list negative keywords" errors in
  forEach validateEntry (keywords formData) 0 errors.

(** [addKeyword]: the form and the text of the input field, before and
    after. *)
Definition addKeyword (formData : t) (newKeyword : string) : t * string :=
  if nonEmpty (trim newKeyword)
     && negb (arrayIncludes (keywords formData) (trim newKeyword))
  then (mk (keywords formData ++ [trim newKeyword]) (matchType formData)
           (level formData) (campaignId formData) (adGroupId formData)
           (sharedListId formData),
        "")
  else (formData, newKeyword).

(** The [keywords] of the request that [handleAddNegativeKeywords] of
    [src/app/search-terms/page.tsx] makes of the form. *)
Definition request (formData : t) : list Keyword.t :=
  map (fun keyword =>
         Keyword.mk (Some keyword) (matchType formData) (level formData)
                    (campaignId formData) None (adGroupId formData) None
                    (sharedListId formData) None)
      (keywords formData).

End Form.

(** ** Sorting and paging: [dataUtils] of [src/utils/calculations.ts] *)

Module DataUtils.
Import Js Calculations.

(** The field that [sortSearchTerms] sorts by: one that holds a string,
    one that holds a number, or one that holds neither. *)
Inductive Field :=
| stringField (get : SearchTermData -> string)
| numberField (get : SearchTermData -> Q)
| otherField.

Inductive Direction := asc | desc.

Section Locale.
(** [a.localeCompare(b)] *)
Variable localeCompare : string -> string -> Q.

(** The comparison function of [sortSearchTerms]. *)
Definition compareBy (field : Field) (direction : Direction) (a b : SearchTermData) : Q :=
  match field with
  | stringField get =>
      match direction with
      | asc => localeCompare (get a) (get b)
      | desc => localeCompare (get b) (get a)
      end
  | numberField get =>
      match direction with
      | asc => (get a - get b)%Q
      | desc => (get b - get a)%Q
      end
  | otherField => 0%Q
  end.

(** [dataUtils.sortSearchTerms] *)
Definition sortSearchTerms (data : list SearchTermData) (field : Field)
           (direction : Direction) : list SearchTermData :=
  sort (compareBy field direction) data.
End Locale.

(** An index of [slice] brought into the array: a negative one counts
    from the end. *)
Definition sliceIndex (len i : Z) : Z :=
  if (i <? 0)%Z then Z.max (len + i) 0 else Z.min i len.

(** [arr.slice(start, end)] *)
Definition slice {A} (start end_ : Z) (l : list A) : list A :=
  let len := Z.of_nat (length l) in
  let k := sliceIndex len start in
  let final := sliceIndex len end_ in
  take (Z.to_nat (final - k)) (drop (Z.to_nat k) l).

(** A number that a division of two integers may give. *)
Inductive Num :=
| Finite (z : Z)
| Infinity
| NaN.

(** [Math.ceil(total / pageSize)] on integers, a count [total]. *)
Definition ceilDiv (total pageSize : Z) : Num :=
  if (pageSize =? 0)%Z then (if (total =? 0)%Z then NaN else Infinity)
  else Finite (- ((- total) / pageSize))%Z.

Record Page (A : Type) := {
  data : list A;
  total : nat;
  totalPages : Num;
  currentPage : Z
}.
Arguments data {A}.
Arguments total {A}.
Arguments totalPages {A}.
Arguments currentPage {A}.

(** [dataUtils.paginateData], for a page and a page size that are whole
    numbers. *)
Definition paginateData {A} (l : list A) (page pageSize : Z) : Page A :=
  let total := length l in
  let totalPages := ceilDiv (Z.of_nat total) pageSize in
  let startIndex := ((page - 1) * pageSize)%Z in
  let endIndex := (startIndex + pageSize)%Z in
  let paginatedData := slice startIndex endIndex l in
  {| data := paginatedData;
     total := total;
     totalPages := totalPages;
     currentPage := page |}.

End DataUtils.

(** ** Spend by campaign: [dashboardCalculations.calculateSpendDistribution] *)

Module Distribution.
Import Js Calculations.

(** The value that the [Map] holds for a campaign. *)
Record Spend := {
  campaign : string;
  spendCost : Q;
  spendConversions : Q;
  spendClicks : Q;
  spendImpressions : Q
}.

(** A [Map] with string keys: the entries in the order in which their
    keys were first set. *)
Definition JsMap (V : Type) : Type := list (string * V).

(** [map.get(key)] *)
Fixpoint mapGet {V} (key : string) (m : JsMap V) : option V :=
  match m with
  | [] => None
  | (k, v) :: m' => if k =? key then Some v else mapGet key m'
  end.

(** [map.set(key, value)]: a key that is there keeps its place. *)
Fixpoint mapSet {V} (key : string) (value : V) (m : JsMap V) : JsMap V :=
  match m with
  | [] => [(key, value)]
  | (k, v) :: m' =>
      if k =? key then (key, value) :: m' else (k, v) :: mapSet key value m'
  end.

(** [Array.from(map.values())] *)
Definition values {V} (m : JsMap V) : list V := map snd m.

(** The callback of the loop of [calculateSpendDistribution]. *)
Definition addItem (campaignMap : JsMap Spend) (item : SearchTermData) (index : nat)
  : JsMap Spend :=
  let existing :=
    match mapGet (campaignName item) campaignMap with
    | Some e => e
    | None => {| campaign := campaignName item; spendCost := 0; spendConversions := 0;
                 spendClicks := 0; spendImpressions := 0 |}
    end in
  mapSet (campaignName item)
         {| campaign := campaignName item;
            spendCost := spendCost existing + cost item;
            spendConversions := spendConversions existing + conversions item;
            spendClicks := spendClicks existing + clicks item;
            spendImpressions := spendImpressions existing + impressions item |}
         campaignMap.

(** An entry of the distribution. *)
Record Share := {
  share : Spend;
  shareCtr : Q;
  shareCpa : Q
}.

Section Rounding.
(** [Number(x.toFixed(2))] *)
Variable toFixed2 : Q -> Q.

(** [calculations.calculateCTR] *)
Definition calculateCTR (clicks impressions : Q) : Q :=
  if isZero impressions then 0 else toFixed2 ((clicks / impressions) * 100).

(** [calculations.calculateCPA] *)
Definition calculateCPA (cost conversions : Q) : Q :=
  if isZero conversions then 0 else toFixed2 (cost / conversions).

(** [dashboardCalculations.calculateSpendDistribution] *)
Definition calculateSpendDistribution (data : list SearchTermData) : list Share :=
  let campaignMap := forEach addItem data 0 [] in
  map (fun item =>
         {| share := item;
            shareCtr := calculateCTR (spendClicks item) (spendImpressions item);
            shareCpa := calculateCPA (spendCost item) (spendConversions item) |})
      (values campaignMap).
End Rounding.

End Distribution.

(** ** The dashboard of the client: [dashboardCalculations.generateDashboardMetrics] *)

Module ClientDashboard.
Import Js Calculations.

(** A row of [topNegativeKeywordOpportunities]: a [SearchTermData] in
    full. *)
Record TopRow := {
  id : string;
  searchTerm : string;
  campaignName : string;
  adGroupName : string;
  keywordText : string;
  cost : Q;
  clicks : Q;
  impressions : Q;
  conversions : Q;
  costPerConversion : Q;
  ctr : Q;
  cpc : Q;
  associatedNegativeKeywordLists : list string;
  date : string
}.

Record DashboardMetrics := {
  totalSearchTerms : nat;
  totalCost : Q;
  totalClicks : Q;
  totalConversions : Q;
  wastedSpend : Q;
  potentialSavings : Q;
  averageCtr : Q;
  averageCpc : Q;
  averageCpa : Q;
  topNegativeKeywordOpportunities : list TopRow
}.

(** [arr.length] as a number *)
Definition lengthOf {A} (l : list A) : Q := inject_Z (Z.of_nat (length l)).

Section Outside.
(** [Number(x.toFixed(2))] *)
Variable toFixed2 : Q -> Q.
(** [new Date().toISOString()] at the row of each index. *)
Variable isoString : nat -> string.

(** [calculations.calculateAverageCTR] *)
Definition calculateAverageCTR (data : list SearchTermData) : Q :=
  if (length data =? 0)%nat then 0%Q
  else toFixed2 (sumOf Calculations.ctr data / lengthOf data).

(** [calculations.calculateAverageCPC] *)
Definition calculateAverageCPC (data : list SearchTermData) : Q :=
  if (length data =? 0)%nat then 0%Q
  else toFixed2 (sumOf Calculations.cpc data / lengthOf data).

(** [calculations.calculateAverageCPA] *)
Definition calculateAverageCPA (data : list SearchTermData) : Q :=
  let itemsWithConversions :=
    List.filter (fun item => gt (Calculations.conversions item) 0) data in
  if (length itemsWithConversions =? 0)%nat then 0%Q
  else toFixed2 (sumOf Calculations.costPerConversion itemsWithConversions
                 / lengthOf itemsWithConversions).

(** The row that the dashboard makes of an opportunity. *)
Definition topRow (index : nat) (opp : NegativeKeywordOpportunity) : TopRow :=
  {| id := opp_searchTerm opp +:+ "-" +:+ opp_campaignName opp +:+ "-"
           +:+ opp_adGroupName opp;
     searchTerm := opp_searchTerm opp;
     campaignName := opp_campaignName opp;
     adGroupName := opp_adGroupName opp;
     keywordText := opp_searchTerm opp;
     cost := opp_cost opp;
     clicks := opp_clicks opp;
     impressions := (opp_clicks opp * 10)%Q;
     conversions := opp_conversions opp;
     costPerConversion :=
       if gt (opp_conversions opp) 0 then (opp_cost opp / opp_conversions opp)%Q else 0%Q;
     ctr :=
       if gt (opp_clicks opp) 0
       then ((opp_clicks opp / (opp_clicks opp * 10)) * 100)%Q else 0%Q;
     cpc := if gt (opp_clicks opp) 0 then (opp_cost opp / opp_clicks opp)%Q else 0%Q;
     associatedNegativeKeywordLists := [];
     date := isoString index |}.

(** [dashboardCalculations.generateDashboardMetrics] *)
Definition generateDashboardMetrics (data : list SearchTermData) : DashboardMetrics :=
  let totalCost := sumOf Calculations.cost data in
  let totalClicks := sumOf Calculations.clicks data in
  let totalConversions := sumOf Calculations.conversions data in
  let wastedSpend := calculateWastedSpend data in
  let potentialSavings := calculatePotentialSavings data in
  let opportunities :=
    take 10 (sort bySavingsDescending (identifyOpportunities data)) in
  {| totalSearchTerms := length data;
     totalCost := toFixed2 totalCost;
     totalClicks := totalClicks;
     totalConversions := totalConversions;
     wastedSpend := toFixed2 wastedSpend;
     potentialSavings := toFixed2 potentialSavings;
     averageCtr := calculateAverageCTR data;
     averageCpc := calculateAverageCPC data;
     averageCpa := calculateAverageCPA data;
     topNegativeKeywordOpportunities := imap topRow opportunities |}.
End Outside.

End ClientDashboard.

(** ** The sums of the search terms page: [src/hooks/useSearchTerms.ts] *)

Module Analytics.
Import Js Calculations.

Record t := {
  totalCost : Q;
  totalClicks : Q;
  totalConversions : Q;
  wastedSpend : Q;
  potentialSavings : Q;
  averageCtr : Q;
  averageCpc : Q;
  averageCpa : Q;
  topOpportunities : list SearchTermData
}.

Definition byCostDescending (a b : SearchTermData) : Q := (cost b - cost a)%Q.

(** [arr.length] as a number *)
Definition lengthOf {A} (l : list A) : Q := inject_Z (Z.of_nat (length l)).

(** The effect of [useSearchTermAnalytics]: the analytics that it sets
    for [data], [None] when there is none. *)
Definition useSearchTermAnalytics (data : option (list SearchTermData)) : t :=
  let empty := {| totalCost := 0; totalClicks := 0; totalConversions := 0;
                  wastedSpend := 0; potentialSavings := 0; averageCtr := 0;
                  averageCpc := 0; averageCpa := 0; topOpportunities := [] |} in
  match data with
  | None => empty
  | Some data =>
      if (length data =? 0)%nat then empty
      else
        {| totalCost := sumOf cost data;
           totalClicks := sumOf clicks data;
           totalConversions := sumOf conversions data;
           wastedSpend :=
             sumOf cost (List.filter (fun item => isZero (conversions item)) data);
           potentialSavings :=
             sumOf cost (List.filter (fun item => isZero (conversions item)
                                                  && gt (cost item) 5) data);
           averageCtr :=
             if (0 <? length data)%nat then sumOf ctr data / lengthOf data else 0;
           averageCpc :=
             if (0 <? length data)%nat then sumOf cpc data / lengthOf data else 0;
           averageCpa :=
             if (0 <? length data)%nat
             then sumOf costPerConversion data / lengthOf data else 0;
           topOpportunities :=
             take 10 (sort byCostDescending
                           (List.filter (fun item => isZero (conversions item)
                                                     && gt (cost item) 10) data)) |}
  end.

End Analytics.

(** ** Vocabulary of the further properties *)

Module Terms.
Import Js Calculations Distribution.

(** Two rows hold the same request: they agree on the eleven columns that
    the web application fills, from the id to the added date. *)
Definition sameRequest (a b : Row.t) : Prop :=
  Row.id a = Row.id b /\
  Row.keywordText a = Row.keywordText b /\
  Row.matchType a = Row.matchType b /\
  Row.level a = Row.level b /\
  Row.campaignId a = Row.campaignId b /\
  Row.campaignName a = Row.campaignName b /\
  Row.adGroupId a = Row.adGroupId b /\
  Row.adGroupName a = Row.adGroupName b /\
  Row.sharedListId a = Row.sharedListId b /\
  Row.sharedListName a = Row.sharedListName b /\
  Row.addedDate a = Row.addedDate b.

(** A run changed nothing but the world: the variables of the script are
    what they were. *)
Definition sameVariables {World : Type} (s s' : @Worker.State World) : Prop :=
  Worker.sheet s' = Worker.sheet s /\
  Worker.successCount s' = Worker.successCount s /\
  Worker.failureCount s' = Worker.failureCount s /\
  Worker.results s' = Worker.results s.

(** The entry of the results and the outcome on the sheet tell the same
    about a pending keyword. *)
Definition reported (rows : list Row.t) (p : Pending.t) (e : Worker.Entry) : Prop :=
  Worker.keyword e = Pending.keywordText p /\
  Worker.entryLevel e = Pending.level p /\
  Spec.marked rows p (if Worker.success e then "ACTIVE" else "FAILED")
              (Worker.entryMessage e).

(** The sheet, the triggers and the world after a run. *)
Definition ranSheet {World : Type}
           (r : option (list Worker.Entry) * Spreadsheet.t * World) : option (list Row.t) :=
  Spreadsheet.negativeKeywords (snd (fst r)).

(** The number of trigger rows, below the header, that are PENDING. *)
Definition pendingTriggers (tab : option (list Trigger.t)) : nat :=
  match tab with
  | None => 0
  | Some sheet =>
      length (List.filter (fun t => Trigger.status t =? "PENDING") (drop 1 sheet))
  end.

(** The trigger row that a run of the worker completes. *)
Definition completed (successCount failureCount : nat) (processed : string)
           (t : Trigger.t) : Trigger.t :=
  Trigger.mk (Trigger.action t) (Trigger.timestamp t) "COMPLETED"
             ("Processed: " +:+ decimal successCount +:+ " successful, "
              +:+ decimal failureCount +:+ " failed")
             processed.

(** The level is one of the three. *)
Definition knownLevel (item : Row.t) : bool :=
  (Row.level item =? "CAMPAIGN") || (Row.level item =? "AD_GROUP")
  || (Row.level item =? "SHARED_LIST").

(** The read interface shows the item as a pending request of the web
    application. *)
Definition shownPending (item : Row.t) : bool :=
  (Row.status item =? "PENDING") && startsWith (Row.id item) "new_".

(** The names of a list in the order in which they first appear. *)
Fixpoint firsts (l : list string) : list string :=
  match l with
  | [] => []
  | x :: l' => x :: List.filter (fun y => negb (y =? x)) (firsts l')
  end.

(** The value for campaign [c] after the rows [rows] of it were added to
    [start]. *)
Definition spendOf (c : string) (start : Spend) (rows : list SearchTermData) : Spend :=
  {| campaign := c;
     spendCost := fold_left (fun total x => total + cost x)%Q rows (spendCost start);
     spendConversions :=
       fold_left (fun total x => total + conversions x)%Q rows (spendConversions start);
     spendClicks := fold_left (fun total x => total + clicks x)%Q rows (spendClicks start);
     spendImpressions :=
       fold_left (fun total x => total + impressions x)%Q rows (spendImpressions start) |}.

Definition zeroSpend (c : string) : Spend :=
  {| campaign := c; spendCost := 0; spendConversions := 0; spendClicks := 0;
     spendImpressions := 0 |}.

End Terms.

(** * Properties *)

(** ** The JavaScript primitives *)

Section JsFacts.
Import Js.

Lemma append_nil_l (s : string) : "" +:+ s = s.
Proof. reflexivity. Qed.

Lemma append_cons (c : ascii) (s t : string) :
  String c s +:+ t = String c (s +:+ t).
Proof. reflexivity. Qed.




Lemma toLowerCaseChar_space (c : ascii) :
  toLowerCaseChar c = " "%char <-> c = " "%char.
Proof.
  destruct c as [[] [] [] [] [] [] [] []]; vm_compute; split; intro H;
    solve [reflexivity | discriminate H].
Qed.

Lemma toLowerCase_space (s : string) :
  In " "%char (list_ascii_of_string (toLowerCase s)) <->
  In " "%char (list_ascii_of_string s).
Proof.
  induction s as [|c s IH]; simpl; [tauto|].
  rewrite IH. split; intros [H|H]; auto; left.
  - now apply toLowerCaseChar_space.
  - now apply toLowerCaseChar_space.
Qed.

Lemma startsWith_spec (s p : string) :
  startsWith s p = true <-> exists rest, s = p +:+ rest.
Proof.
  revert s. induction p as [|a p IH]; intros s; simpl.
  - split; [intros _; now exists s | reflexivity].
  - destruct s as [|b s].
    + split; [discriminate | intros [rest H]; discriminate H].
    + rewrite andb_true_iff, Ascii.eqb_eq, IH. split.
      * intros [-> [rest ->]]. now exists rest.
      * intros [rest H]. injection H as -> ->. split; [reflexivity | now exists rest].
Qed.


Lemma split_nonempty (sep : ascii) (s : string) : split sep s <> [].
Proof.
  destruct s as [|c s]; simpl; [discriminate|].
  destruct (Ascii.eqb c sep); [discriminate|].
  destruct (split sep s); discriminate.
Qed.

Lemma split_length_pos (sep : ascii) (s : string) : 0 < length (split sep s).
Proof.
  pose proof (split_nonempty sep s). destruct (split sep s); simpl; [congruence | lia].
Qed.

(** One piece exactly when the separator does not occur. *)
Lemma split_length_one (sep : ascii) (s : string) :
  length (split sep s) = 1 <-> ~ In sep (list_ascii_of_string s).
Proof.
  induction s as [|c s IH]; simpl; [tauto|].
  destruct (Ascii.eqb_spec c sep) as [->|Hne].
  - pose proof (split_length_pos sep s). simpl. split; [lia | tauto].
  - pose proof (split_nonempty sep s).
    destruct (split sep s) as [|w ws] eqn:E; [congruence|].
    simpl in *. rewrite IH. tauto.
Qed.

(** The pieces, joined by the separator, give the text back, and no piece
    holds the separator: [split] is the tokenization at [sep]. *)
Lemma join_split (sep : ascii) (s : string) :
  join (String sep EmptyString) (split sep s) = s.
Proof.
  induction s as [|c s IH]; simpl; [reflexivity|].
  pose proof (split_nonempty sep s) as Hne.
  destruct (Ascii.eqb_spec c sep) as [->|Hc].
  - destruct (split sep s) as [|w ws] eqn:E; [congruence|].
    simpl in *. now rewrite IH.
  - destruct (split sep s) as [|w ws] eqn:E; [congruence|].
    destruct ws as [|w' ws]; simpl in *; now rewrite <- IH.
Qed.

Lemma split_pieces (sep : ascii) (s : string) :
  Forall (fun w => ~ In sep (list_ascii_of_string w)) (split sep s).
Proof.
  induction s as [|c s IH]; simpl.
  - constructor; [simpl; tauto | constructor].
  - destruct (Ascii.eqb_spec c sep) as [->|Hc].
    + constructor; [simpl; tauto | exact IH].
    + destruct (split sep s) as [|w ws]; simpl.
      * constructor; [simpl; intuition congruence | constructor].
      * inversion IH; subst. constructor; [simpl; intuition congruence | assumption].
Qed.





Lemma filter_map {A B} (f : A -> B) (p : B -> bool) (l : list A) :
  List.filter p (map f l) = map f (List.filter (fun x => p (f x)) l).
Proof.
  induction l as [|x l IH]; simpl; [reflexivity|].
  destruct (p (f x)); simpl; now rewrite IH.
Qed.

Lemma gt_spec (a b : Q) : gt a b = true <-> (b < a)%Q.
Proof.
  unfold gt. rewrite negb_true_iff. split.
  - intros H. apply Qnot_le_lt. intros Hle.
    apply Qle_bool_iff in Hle. congruence.
  - intros H. destruct (Qle_bool a b) eqn:E; [|reflexivity].
    apply Qle_bool_iff in E. exfalso. exact (Qlt_not_le _ _ H E).
Qed.

Lemma isZero_spec (a : Q) : isZero a = true <-> (a == 0)%Q.
Proof. apply Qeq_bool_iff. Qed.

Lemma sumOf_from {A} (f : A -> Q) (l : list A) (a : Q) :
  (fold_left (fun total x => total + f x) l a == a + sumOf f l)%Q.
Proof.
  unfold sumOf. revert a. induction l as [|x l IH]; intros a; simpl.
  - ring.
  - rewrite (IH (a + f x)%Q), (IH (0 + f x)%Q). ring.
Qed.

Lemma sumOf_cons {A} (f : A -> Q) (x : A) (l : list A) :
  (sumOf f (x :: l) == f x + sumOf f l)%Q.
Proof.
  unfold sumOf at 1. simpl. rewrite sumOf_from. ring.
Qed.

Lemma sumOf_perm {A} (f : A -> Q) (l l' : list A) :
  Permutation l l' -> (sumOf f l == sumOf f l')%Q.
Proof.
  induction 1 as [|x l l' _ IH|x y l|l l' l'' _ IH1 _ IH2].
  - reflexivity.
  - now rewrite !sumOf_cons, IH.
  - rewrite !sumOf_cons. ring.
  - now rewrite IH1.
Qed.

Lemma sumOf_map {A B} (f : B -> Q) (g : A -> B) (l : list A) :
  sumOf f (map g l) = sumOf (fun x => f (g x)) l.
Proof.
  unfold sumOf. generalize 0%Q. induction l as [|x l IH]; intros a; simpl; auto.
Qed.

Lemma insertSorted_perm {A} (compare : A -> A -> Q) (x : A) (l : list A) :
  Permutation (insertSorted compare x l) (x :: l).
Proof.
  induction l as [|y l IH]; simpl; [reflexivity|].
  destruct (Qle_bool (compare x y) 0); [reflexivity|].
  rewrite IH. apply perm_swap.
Qed.

(** Sorting rearranges and neither drops nor duplicates. *)
Lemma sort_perm {A} (compare : A -> A -> Q) (l : list A) :
  Permutation (sort compare l) l.
Proof.
  induction l as [|x l IH]; simpl; [reflexivity|].
  rewrite insertSorted_perm. now constructor.
Qed.

End JsFacts.

(** ** The scorer and the dashboard sums *)

Section CalculationsFacts.
Import Js Calculations Spec.

Lemma isOpportunity_spec (item : SearchTermData) :
  isOpportunity item = true <-> qualifies item.
Proof.
  unfold isOpportunity, qualifies.
  rewrite !andb_true_iff, isZero_spec, !gt_spec. tauto.
Qed.

Lemma countsAsSavings_spec (item : SearchTermData) :
  isZero (conversions item) && gt (cost item) 5 = true <-> countsAsSavings item.
Proof.
  unfold countsAsSavings. rewrite andb_true_iff, isZero_spec, gt_spec. tauto.
Qed.

Lemma identifyOpportunities_perm (data : list SearchTermData) :
  Permutation (identifyOpportunities data)
              (map toOpportunity (List.filter isOpportunity data)).
Proof. apply sort_perm. Qed.

(** C5. [identifyOpportunities] yields one candidate per qualifying row
    and nothing else: the candidates are, up to their order, the images of
    the rows with [conversions == 0], [cost > 5] and [clicks > 0]; no such
    row is left out, every candidate comes from such a row, and its
    [potentialSavings] is the cost of that row. *)
Theorem identifyOpportunities_filter (data : list SearchTermData) :
  Permutation (identifyOpportunities data)
              (map toOpportunity (List.filter isOpportunity data)) /\
  (forall item, In item (List.filter isOpportunity data) <-> In item data /\ qualifies item) /\
  (forall item, In item data -> qualifies item ->
     In (toOpportunity item) (identifyOpportunities data)) /\
  (forall c, In c (identifyOpportunities data) ->
     exists item, In item data /\ qualifies item /\ c = toOpportunity item /\
                  potentialSavings c = cost item).
Proof.
  pose proof (identifyOpportunities_perm data) as HP.
  split; [exact HP|]. split; [|split].
  - intros item. now rewrite filter_In, isOpportunity_spec.
  - intros item Hin Hq.
    apply (Permutation_in _ (Permutation_sym HP)).
    apply in_map, filter_In. split; [exact Hin|].
    now apply isOpportunity_spec.
  - intros c Hc.
    apply (Permutation_in _ HP) in Hc.
    apply in_map_iff in Hc as (item & <- & Hin).
    apply filter_In in Hin as [Hin Hq].
    exists item. repeat split; try assumption.
    all: now apply isOpportunity_spec in Hq as (? & ? & ?).
Qed.

(** The scoring scenario of the specification: of the three rows only the
    first is a candidate, with savings 20. *)
Example identifyOpportunities_scenario :
  map potentialSavings (identifyOpportunities Samples.scenarioRows) = [20%Q].
Proof. reflexivity. Qed.

Lemma sumOf_filter_le {A} (f : A -> Q) (p q : A -> bool) (l : list A) :
  (forall x, In x l -> p x = true -> q x = true) ->
  (forall x, In x l -> (0 <= f x)%Q) ->
  (sumOf f (List.filter p l) <= sumOf f (List.filter q l))%Q.
Proof.
  induction l as [|x l IH]; intros Hpq Hpos; simpl.
  - apply Qle_refl.
  - assert (IH' : (sumOf f (List.filter p l) <= sumOf f (List.filter q l))%Q).
    { apply IH; intros; [apply Hpq | apply Hpos]; simpl; auto. }
    pose proof (Hpos x (or_introl eq_refl)) as Hx.
    pose proof (Hpq x (or_introl eq_refl)) as Hx'.
    destruct (p x) eqn:Ep, (q x) eqn:Eq; rewrite ?sumOf_cons.
    + lra.
    + specialize (Hx' eq_refl). discriminate.
    + lra.
    + exact IH'.
Qed.

(** C10. When no row has a negative cost, the potential savings never
    exceed the wasted spend: the rows summed for the former (no
    conversion, cost above 5) are among the rows summed for the latter (no
    conversion). *)
Theorem potentialSavings_le_wastedSpend (data : list SearchTermData) :
  (forall item, In item data -> (0 <= cost item)%Q) ->
  (calculatePotentialSavings data <= calculateWastedSpend data)%Q.
Proof.
  intros Hpos. unfold calculatePotentialSavings, calculateWastedSpend.
  apply sumOf_filter_le; [|exact Hpos].
  intros x _ H. now apply andb_true_iff in H as [H _].
Qed.

(** The rows of the scoring scenario have no negative cost. *)
Lemma potentialSavings_le_wastedSpend_witness :
  (forall item, In item Samples.scenarioRows -> (0 <= cost item)%Q) /\
  (calculatePotentialSavings Samples.scenarioRows
   <= calculateWastedSpend Samples.scenarioRows)%Q.
Proof.
  assert (H : forall item, In item Samples.scenarioRows -> (0 <= cost item)%Q).
  { intros item [<-|[<-|[<-|[]]]]; vm_compute; discriminate. }
  split; [exact H|].
  exact (potentialSavings_le_wastedSpend Samples.scenarioRows H).
Defined.

(** The wasted spend of the scenario is 23 and its potential savings 20:
    the row that cost 3 separates the two sums. *)
Example wastedSpend_scenario :
  calculateWastedSpend Samples.scenarioRows = 23%Q /\
  calculatePotentialSavings Samples.scenarioRows = 20%Q.
Proof. split; reflexivity. Qed.

(** C4, refuted as stated: a row with no conversion and a cost of 10 but
    no click counts for the dashboard (10) and is no candidate of the
    scorer (0). *)
Lemma samePredicate_fails : ~ SamePredicate.
Proof.
  intros H. specialize (H Samples.unclickedRows).
  vm_compute in H. discriminate H.
Qed.

(** C4, amended.  The scorer asks for a click besides what the dashboard
    asks for.  On rows where everything the dashboard counts has a click,
    the rows that the dashboard sums are those that the scorer makes its
    candidates of, so that the potential savings are the savings of the
    candidates added up in the order of their rows, the same additions in
    the same order; the candidates that [identifyOpportunities] returns
    are these in another order, and their savings add up to the same when
    numbers are taken as exact. *)
Theorem potentialSavings_eq_totalSavings (data : list SearchTermData) :
  (forall item, In item data -> countsAsSavings item -> (0 < clicks item)%Q) ->
  let candidates := map toOpportunity (List.filter isOpportunity data) in
  calculatePotentialSavings data = totalSavings candidates /\
  Permutation (identifyOpportunities data) candidates /\
  (calculatePotentialSavings data == totalSavings (identifyOpportunities data))%Q.
Proof.
  intros Hclicks candidates.
  assert (Hsame : calculatePotentialSavings data = totalSavings candidates).
  { subst candidates. unfold calculatePotentialSavings, totalSavings.
    rewrite sumOf_map. simpl.
    rewrite (filter_ext_in isOpportunity
               (fun item => isZero (conversions item) && gt (cost item) 5)).
    - reflexivity.
    - intros item Hin. unfold isOpportunity.
      destruct (isZero (conversions item) && gt (cost item) 5) eqn:E; [|reflexivity].
      simpl. apply gt_spec, Hclicks; [exact Hin|].
      now apply countsAsSavings_spec. }
  split; [exact Hsame|]. split; [apply identifyOpportunities_perm|].
  rewrite Hsame. unfold totalSavings. symmetry.
  apply sumOf_perm, identifyOpportunities_perm.
Qed.

(** In the scoring scenario every row that the dashboard counts has a
    click. *)
Lemma potentialSavings_eq_totalSavings_witness :
  (forall item, In item Samples.scenarioRows -> countsAsSavings item -> (0 < clicks item)%Q) /\
  let candidates := map toOpportunity (List.filter isOpportunity Samples.scenarioRows) in
  calculatePotentialSavings Samples.scenarioRows = totalSavings candidates /\
  Permutation (identifyOpportunities Samples.scenarioRows) candidates /\
  (calculatePotentialSavings Samples.scenarioRows
   == totalSavings (identifyOpportunities Samples.scenarioRows))%Q.
Proof.
  assert (H : forall item, In item Samples.scenarioRows ->
                           countsAsSavings item -> (0 < clicks item)%Q).
  { intros item [<-|[<-|[<-|[]]]] _; reflexivity. }
  split; [exact H|].
  exact (potentialSavings_eq_totalSavings Samples.scenarioRows H).
Defined.



















(** A term with a tab and no space is one token to the code. *)
Example recommendMatchType_tabbed : recommendMatchType Samples.tabbed = EXACT.
Proof. reflexivity. Qed.










(** Half of the words is not enough for the ad group: of the two words of
    the term one is a word of the ad group name, and the level is that of
    the campaign. *)
Example recommendLevel_half :
  recommendLevel (Samples.row "cheap shoes" 20 5 0) = CAMPAIGN.
Proof. reflexivity. Qed.

End CalculationsFacts.

(** ** The validator *)

Section ValidatorFacts.
Import Js WebApp Spec.

Lemma trimEnd_empty (s : string) : trimEnd s = "" <-> blank s.
Proof.
  unfold blank. induction s as [|c s IH]; simpl.
  - split; [constructor | reflexivity].
  - rewrite Forall_cons_iff, <- IH.
    destruct (trimEnd s); destruct (isWhiteSpace c); intuition congruence.
Qed.

Lemma trimStart_blank (s : string) : blank (trimStart s) <-> blank s.
Proof.
  unfold blank. induction s as [|c s IH]; simpl; [tauto|].
  destruct (isWhiteSpace c) eqn:E.
  - rewrite IH, Forall_cons_iff. tauto.
  - reflexivity.
Qed.

(** Trimming leaves nothing exactly of the texts that are white space. *)
Lemma trim_blank (s : string) : String.length (trim s) = 0 <-> blank s.
Proof.
  unfold trim. rewrite <- trimStart_blank, <- trimEnd_empty.
  destruct (trimEnd (trimStart s)); simpl; split; congruence.
Qed.

Lemma truthy_present (o : option string) : truthy o = true <-> present o.
Proof.
  unfold truthy, present. destruct o as [s|].
  - rewrite negb_true_iff. split.
    + intros H. exists s. split; [reflexivity|].
      intros ->. discriminate H.
    + intros (s' & [= <-] & Hne). now apply String.eqb_neq.
  - split; [discriminate | intros (s & H & _); discriminate H].
Qed.

Lemma pushIf_nil (condition : bool) (text : string) (errors : list string) :
  pushIf condition text errors = [] <-> condition = false /\ errors = [].
Proof.
  unfold pushIf. destruct condition.
  - split; [intros H; now apply app_eq_nil in H as [_ H] | intros [H _]; discriminate H].
  - tauto.
Qed.

(** The list of errors is empty exactly when none of the seven tests of
    [validateKeyword] fires. *)
Lemma validateKeyword_nil (k : Keyword.t) :
  validateKeyword k = [] <->
  (negb (truthy (Keyword.text k))
   || (String.length (trim (orEmpty (Keyword.text k))) =? 0)%nat = false) /\
  (truthy (Keyword.text k)
   && (80 <? String.length (orEmpty (Keyword.text k)))%nat = false) /\
  arrayIncludes ["EXACT"; "PHRASE"; "BROAD"] (Keyword.matchType k) = true /\
  arrayIncludes ["CAMPAIGN"; "AD_GROUP"; "SHARED_LIST"] (Keyword.level k) = true /\
  ((Keyword.level k =? "CAMPAIGN") && negb (truthy (Keyword.campaignId k)) = false) /\
  ((Keyword.level k =? "AD_GROUP")
   && (negb (truthy (Keyword.campaignId k)) || negb (truthy (Keyword.adGroupId k)))
   = false) /\
  ((Keyword.level k =? "SHARED_LIST") && negb (truthy (Keyword.sharedListId k)) = false).
Proof.
  unfold validateKeyword. rewrite !pushIf_nil, !negb_false_iff. tauto.
Qed.

Lemma arrayIncludes_In (l : list string) (x : string) :
  arrayIncludes l x = true <-> In x l.
Proof.
  unfold arrayIncludes. rewrite existsb_exists. split.
  - intros (y & Hin & H). apply String.eqb_eq in H. now subst.
  - intros H. exists x. split; [exact H | apply String.eqb_refl].
Qed.

Lemma levelIdsPresent_spec (k : Keyword.t) :
  ((Keyword.level k =? "CAMPAIGN") && negb (truthy (Keyword.campaignId k)) = false) /\
  ((Keyword.level k =? "AD_GROUP")
   && (negb (truthy (Keyword.campaignId k)) || negb (truthy (Keyword.adGroupId k)))
   = false) /\
  ((Keyword.level k =? "SHARED_LIST") && negb (truthy (Keyword.sharedListId k)) = false)
  <-> levelIdsPresent k.
Proof.
  unfold levelIdsPresent.
  rewrite <- !truthy_present, <- !String.eqb_eq.
  destruct (Keyword.level k =? "CAMPAIGN"), (Keyword.level k =? "AD_GROUP"),
    (Keyword.level k =? "SHARED_LIST"), (truthy (Keyword.campaignId k)),
    (truthy (Keyword.adGroupId k)), (truthy (Keyword.sharedListId k));
    simpl; intuition congruence.
Qed.

Lemma textChecks_spec (k : Keyword.t) :
  (negb (truthy (Keyword.text k))
   || (String.length (trim (orEmpty (Keyword.text k))) =? 0)%nat = false) /\
  (truthy (Keyword.text k)
   && (80 <? String.length (orEmpty (Keyword.text k)))%nat = false)
  <-> exists t, Keyword.text k = Some t /\ t <> "" /\ ~ blank t /\ String.length t <= 80.
Proof.
  rewrite orb_false_iff, negb_false_iff, Nat.eqb_neq, trim_blank.
  destruct (Keyword.text k) as [t|]; simpl.
  - rewrite negb_true_iff, String.eqb_neq. split.
    + intros [[Hne Hb] H]. exists t. repeat split; try assumption.
      destruct (String.eqb_spec t ""); [contradiction|].
      simpl in H. now apply Nat.ltb_ge in H.
    + intros (t' & [= <-] & Hne & Hb & Hlen). repeat split; try assumption.
      apply andb_false_iff. right. now apply Nat.ltb_ge.
  - split; [intros [[H _] _]; discriminate H | intros (t & H & _); discriminate H].
Qed.

(** Where the validator departs from the rules as the specification lists
    them, in both directions.  A text of one space meets the rules and is
    turned down: the validator asks for a text that is not blank.  A text
    with an at sign breaks the rule on characters and is let through:
    [validateKeyword] has no test of the characters. *)
Lemma validateKeyword_departs :
  (rulesAsStated Samples.blankText /\ validateKeyword Samples.blankText <> []) /\
  (~ rulesAsStated Samples.atSign /\ validateKeyword Samples.atSign = []).
Proof.
  split; split.
  - unfold rulesAsStated, levelIdsPresent, present; simpl. repeat split.
    + exists " ". repeat split; try discriminate; try (simpl; lia).
      repeat constructor.
    + tauto.
    + tauto.
    + intros _. exists "123". split; [reflexivity | discriminate].
    + discriminate.
    + discriminate.
    + discriminate.
  - discriminate.
  - intros [(t & [= <-] & _ & _ & H) _].
    unfold inClass in H. simpl in H.
    apply Forall_cons_iff in H as [_ H]. apply Forall_cons_iff in H as [H _].
    discriminate H.
  - reflexivity.
Qed.

(** C2, refuted as stated: the request whose text is one space (and the
    one whose text has an at sign as well) separates the empty list of
    errors from the rules of the specification. *)
Lemma validator_as_stated_fails : ~ ValidatorAsStated.
Proof.
  intros H. destruct validateKeyword_departs as [[Hr Hv] _].
  apply Hv, H, Hr.
Qed.

(** C2, amended.  For a request whose text stays within the class of
    permitted characters, the list of errors is empty exactly when the
    rules of the specification hold and the text is not blank.  What the
    validator answers on a text that leaves the class is not part of the
    statement. *)
Theorem validateKeyword_spec (k : Keyword.t) :
  textInClass k ->
  (validateKeyword k = [] <-> rulesAsStated k /\ textNotBlank k).
Proof.
  intros Hclass.
  pose proof (validateKeyword_nil k) as Hn.
  pose proof (textChecks_spec k) as Ht.
  pose proof (levelIdsPresent_spec k) as Hi.
  unfold rulesAsStated, textNotBlank. split.
  - intros H. apply Hn in H as (H1 & H2 & Hm & Hl & H5 & H6 & H7).
    destruct (proj1 Ht (conj H1 H2)) as (t & Et & Hne & Hb & Hlen).
    split; [split; [|split; [|split]]|].
    + exists t. repeat split; try assumption. now apply Hclass.
    + now apply arrayIncludes_In.
    + now apply arrayIncludes_In.
    + apply Hi. tauto.
    + intros t' Et'. rewrite Et in Et'. now injection Et' as <-.
  - intros [((t & Et & Hne & Hlen & _) & Hm & Hl & Hids) Hb].
    assert (H12 : exists t, Keyword.text k = Some t /\ t <> "" /\ ~ blank t
                            /\ String.length t <= 80).
    { exists t. repeat split; try assumption. now apply Hb. }
    apply Ht in H12. apply Hi in Hids.
    apply arrayIncludes_In in Hm. apply arrayIncludes_In in Hl.
    apply Hn. tauto.
Qed.

(** The keyword of the admission scenario stays within the class. *)
Lemma validateKeyword_spec_witness :
  textInClass Samples.freeShipping /\
  (validateKeyword Samples.freeShipping = [] <->
   rulesAsStated Samples.freeShipping /\ textNotBlank Samples.freeShipping).
Proof.
  assert (H : textInClass Samples.freeShipping).
  { intros t [= <-]. unfold inClass. simpl. repeat constructor. }
  split; [exact H|].
  exact (validateKeyword_spec Samples.freeShipping H).
Defined.

(** The rejection scenario of the specification: an ad group level without
    the id of an ad group is turned down with an error that names the ad
    group. *)
Example validateKeyword_missing_adGroup :
  validateKeyword Samples.shoesNoAdGroup
  = ["Campaign ID and Ad Group ID are required for ad group level keywords"].
Proof. reflexivity. Qed.

(** A request that lacks an id its level requires is turned down, whatever
    its text. *)
Lemma validateKeyword_missing_id (k : Keyword.t) :
  ~ levelIdsPresent k -> validateKeyword k <> [].
Proof.
  intros Hno Hnil. apply Hno.
  apply validateKeyword_nil in Hnil.
  apply levelIdsPresent_spec. tauto.
Qed.

End ValidatorFacts.

(** ** Appending to the ledger *)

Section LedgerFacts.
Import Js WebApp Spec.

Lemma setValues_below {A} (values sheet : list A) :
  Range.setValues (length sheet + 1) values sheet = sheet ++ values.
Proof.
  unfold Range.setValues.
  replace (length sheet + 1 - 1) with (length sheet) by lia.
  rewrite take_ge, drop_ge by lia. now rewrite app_nil_r.
Qed.

(** Writing at a row leaves the rows above it as they were. *)
Lemma setValues_above {A} (row : nat) (values sheet : list A) (i : nat) :
  i < row - 1 -> row - 1 <= length sheet ->
  Range.setValues row values sheet !! i = sheet !! i.
Proof.
  intros Hi Hrow. unfold Range.setValues.
  rewrite lookup_app_l by (rewrite length_take; lia).
  now apply lookup_take_lt.
Qed.

Lemma forEach_newRows (env : Env) (keywords : list Keyword.t) (index : nat) (v : Adding) :
  forEach
    (fun (v : Adding) keyword index =>
       {| result := {| added := S (added (result v));
                       failed := failed (result v);
                       errors := errors (result v) |};
          newRows := newRows v ++ [newRow (reads env index) keyword] |})
    keywords index v
  = {| result := {| added := added (result v) + length keywords;
                    failed := failed (result v);
                    errors := errors (result v) |};
       newRows := newRows v
                  ++ imap (fun i keyword => newRow (reads env (index + i)) keyword)
                          keywords |}.
Proof.
  revert index v. induction keywords as [|k keywords IH]; intros index v; simpl.
  - destruct v as [[a f e] rows]; simpl.
    now rewrite Nat.add_0_r, app_nil_r.
  - rewrite IH. simpl. f_equal.
    + f_equal. lia.
    + rewrite <- app_assoc. simpl. rewrite Nat.add_0_r. do 2 f_equal.
      apply imap_ext. intros i x _. simpl. f_equal. f_equal. lia.
Qed.

(** [addNegativeKeywords] in closed form: every keyword counts as added,
    and the sheet grows by one row per keyword, in the order of the
    batch. *)
Lemma addNegativeKeywords_eq (env : Env) (sheet : list Row.t) (keywords : list Keyword.t) :
  addNegativeKeywords env sheet keywords
  = ({| added := length keywords; failed := 0; errors := [] |},
     sheet ++ imap (fun i keyword => newRow (reads env i) keyword) keywords).
Proof.
  unfold addNegativeKeywords. rewrite forEach_newRows. simpl. f_equal.
  destruct keywords as [|k keywords]; simpl.
  - now rewrite app_nil_r.
  - apply setValues_below.
Qed.

Lemma digits_no_underscore (d : Decimal.uint) :
  ~ In "_"%char (list_ascii_of_string (NilEmpty.string_of_uint d)).
Proof.
  induction d; simpl; [tauto | intros [H|H]; [discriminate H | auto] ..].
Qed.

Lemma underscore_splits (s1 s2 r1 r2 : string) :
  ~ In "_"%char (list_ascii_of_string s1) ->
  ~ In "_"%char (list_ascii_of_string s2) ->
  s1 +:+ "_" +:+ r1 = s2 +:+ "_" +:+ r2 -> s1 = s2 /\ r1 = r2.
Proof.
  revert s2. induction s1 as [|a s1 IH]; intros [|b s2] H1 H2 H;
    rewrite ?append_cons, ?append_nil_l in H; simpl in H1, H2.
  - injection H as H. auto.
  - injection H as Hb _. intuition congruence.
  - injection H as Ha _. intuition congruence.
  - injection H as <- H. destruct (IH s2) as [<- <-]; tauto.
Qed.

Lemma decimalN_inj (a b : N) : decimalN a = decimalN b -> a = b.
Proof.
  unfold decimalN. intros H.
  apply (f_equal NilEmpty.uint_of_string) in H.
  rewrite !NilEmpty.usu in H. injection H as H.
  apply (f_equal N.of_uint) in H. now rewrite !DecimalN.Unsigned.of_to in H.
Qed.

(** The id determines the reading of the clock and the draw it is made of. *)
Lemma newId_inj (r1 r2 : Reads) :
  newId r1 = newId r2 ->
  dateNow r1 = dateNow r2 /\ randomSuffix r1 = randomSuffix r2.
Proof.
  unfold newId. intros H.
  rewrite !append_cons, !append_nil_l in H. injection H as H.
  apply underscore_splits in H as [H1 H2]; try apply digits_no_underscore.
  split; [now apply decimalN_inj | exact H2].
Qed.

(** C7, refuted as stated: when the clock stands still and the generator
    repeats a draw, two keywords of one batch get the same id. *)
Lemma appendFreshIds_fails : ~ AppendFreshIds.
Proof.
  intros H.
  destruct (H Samples.frozen Samples.ledger [Samples.freeShipping; Samples.freeShipping])
    as [Hnodup _].
  vm_compute in Hnodup.
  apply NoDup_cons in Hnodup as [Hnotin _].
  apply Hnotin. now left.
Qed.

Lemma newId_same (r1 r2 : Reads) :
  newId r1 = newId r2 <->
  (dateNow r1, randomSuffix r1) = (dateNow r2, randomSuffix r2).
Proof.
  split.
  - intros H. apply newId_inj in H as [-> ->]. reflexivity.
  - intros H. injection H as Hd Hr. unfold newId. now rewrite Hd, Hr.
Qed.

Lemma newId_prefix (r : Reads) : startsWith (newId r) "new_" = true.
Proof. reflexivity. Qed.

(** C7, amended.  [addNegativeKeywords] writes below the last row,
    whatever the batch: every row the ledger had is found unchanged at its
    place, and one row per keyword follows, with status PENDING, the
    message [Waiting for processing], the time of its reading of the clock
    as the added date, no processed date, and the id made of its readings
    of the clock and the generator.  The ids are as fresh as the readings:
    two rows of the batch have the same id exactly when the same pair of
    readings was made for both, so the new ids differ from each other
    exactly when no two pairs of readings coincide; a new id differs from
    every id of the ledger that does not start with [new_], and is the id
    that the ledger holds for a pair of readings exactly when its own pair
    is that one. *)
Theorem addNegativeKeywords_append (env : Env) (sheet : list Row.t)
        (keywords : list Keyword.t) :
  let sheet' := snd (addNegativeKeywords env sheet keywords) in
  let drawn i := (dateNow (reads env i), randomSuffix (reads env i)) in
  (forall i row, sheet !! i = Some row -> sheet' !! i = Some row) /\
  length sheet' = length sheet + length keywords /\
  (forall i keyword, keywords !! i = Some keyword ->
     exists row, sheet' !! (length sheet + i) = Some row /\
       Row.id row = newId (reads env i) /\
       Row.keywordText row = orEmpty (Keyword.text keyword) /\
       Row.addedDate row = isoString (reads env i) /\
       Row.status row = "PENDING" /\
       Row.message row = "Waiting for processing" /\
       Row.processedDate row = "") /\
  (forall i j, newId (reads env i) = newId (reads env j) <-> drawn i = drawn j) /\
  (NoDup (map Row.id (drop (length sheet) sheet')) <->
   forall i j, i < length keywords -> j < length keywords -> i <> j ->
               drawn i <> drawn j) /\
  (forall i (row : Row.t), startsWith (Row.id row) "new_" = false ->
                           Row.id row <> newId (reads env i)) /\
  (forall i (row : Row.t) r, Row.id row = newId r ->
                             (Row.id row = newId (reads env i) <->
                              (dateNow r, randomSuffix r) = drawn i)).
Proof.
  intros sheet' drawn. subst sheet' drawn. rewrite addNegativeKeywords_eq. cbn [snd].
  set (rows := imap (fun i keyword => newRow (reads env i) keyword) keywords).
  assert (Hrows : forall i row, rows !! i = Some row ->
            exists keyword, keywords !! i = Some keyword /\
                            row = newRow (reads env i) keyword).
  { intros i row H. unfold rows in H. rewrite list_lookup_imap in H.
    destruct (keywords !! i) as [keyword|]; [|discriminate H].
    injection H as <-. now exists keyword. }
  assert (Hids : forall i, i < length keywords ->
                           map Row.id rows !! i = Some (newId (reads env i))).
  { intros i Hi. rewrite list_lookup_fmap. unfold rows. rewrite list_lookup_imap.
    destruct (lookup_lt_is_Some_2 keywords i Hi) as [k ->]. reflexivity. }
  assert (Hdrop : drop (length sheet) (sheet ++ rows) = rows).
  { now rewrite drop_app_length. }
  rewrite Hdrop.
  split; [|split; [|split; [|split; [|split; [|split]]]]].
  - intros i row H. now apply lookup_app_l_Some.
  - rewrite length_app. unfold rows. now rewrite length_imap.
  - intros i keyword H. exists (newRow (reads env i) keyword).
    split; [|repeat split].
    rewrite lookup_app_r by lia.
    replace (length sheet + i - length sheet) with i by lia.
    unfold rows. rewrite list_lookup_imap, H. reflexivity.
  - intros i j. apply newId_same.
  - rewrite NoDup_alt. split.
    + intros Hnd i j Hi Hj Hne Hsame. apply Hne.
      apply (Hnd i j (newId (reads env i))); [now apply Hids|].
      rewrite Hids by exact Hj. f_equal. symmetry. now apply newId_same.
    + intros Hdraws i j x Hi Hj.
      pose proof (lookup_lt_Some _ _ _ Hi) as Li.
      pose proof (lookup_lt_Some _ _ _ Hj) as Lj.
      rewrite length_map in Li, Lj. unfold rows in Li, Lj. rewrite length_imap in Li, Lj.
      rewrite Hids in Hi, Hj by assumption.
      assert (E : newId (reads env i) = newId (reads env j)) by congruence.
      destruct (Nat.eq_dec i j) as [|Hne]; [assumption|exfalso].
      apply (Hdraws i j Li Lj Hne). now apply newId_same.
  - intros i row Hprefix Hid.
    assert (Hp : startsWith (Row.id row) "new_" = true)
      by (rewrite Hid; apply newId_prefix).
    congruence.
  - intros i row r Hid. rewrite Hid. apply newId_same.
Qed.

(** With a clock that moves, two keywords appended to the sample ledger
    get two ids. *)
Example addNegativeKeywords_counting :
  NoDup (map Row.id
             (drop (length Samples.ledger)
                   (snd (addNegativeKeywords Samples.counting Samples.ledger
                           [Samples.freeShipping; Samples.freeShipping])))).
Proof.
  vm_compute. apply NoDup_cons. split; [|apply NoDup_singleton].
  intros H. apply list_elem_of_singleton in H. discriminate H.
Qed.

End LedgerFacts.

(** ** Submitting a batch *)

Section SubmissionFacts.
Import Js WebApp Spec.

Lemma forEach_validationLines (keywords : list Keyword.t) (index : nat) (errs : list string) :
  forEach (fun errs keyword index => errs ++ validationLine index keyword)
          keywords index errs
  = errs ++ concat (imap (fun i keyword => validationLine (index + i) keyword) keywords).
Proof.
  revert index errs. induction keywords as [|k keywords IH]; intros index errs; simpl.
  - now rewrite app_nil_r.
  - rewrite IH, <- app_assoc, Nat.add_0_r. do 3 f_equal.
    apply imap_ext. intros i x _. simpl. f_equal. lia.
Qed.

Lemma validationLine_nil (index : nat) (keyword : Keyword.t) :
  validationLine index keyword = [] <-> validateKeyword keyword = [].
Proof.
  unfold validationLine. destruct (validateKeyword keyword); simpl; split; congruence.
Qed.

(** The report is empty exactly when every keyword of the batch is valid. *)
Lemma validationLines_nil (keywords : list Keyword.t) (index : nat) :
  concat (imap (fun i keyword => validationLine (index + i) keyword) keywords) = [] <->
  forall k, In k keywords -> validateKeyword k = [].
Proof.
  revert index. induction keywords as [|k keywords IH]; intros index; simpl.
  - tauto.
  - rewrite app_nil, validationLine_nil.
    rewrite (imap_ext _ (fun i keyword => validationLine (S index + i) keyword))
      by (intros i x _; simpl; f_equal; lia).
    rewrite IH. intuition (subst; auto).
Qed.

(** C1, refuted as stated: a batch of a valid and an invalid keyword is
    answered with an error, and the valid keyword is not appended. *)
Lemma perItemAdmission_fails : ~ PerItemAdmission.
Proof.
  intros H.
  destruct (H Samples.frozen Samples.ledger None
              [Samples.freeShipping; Samples.shoesNoAdGroup])
    as (data & sheet' & triggers' & Hr & _).
  - exists Samples.freeShipping. split; [now left | reflexivity].
  - exists Samples.shoesNoAdGroup. split; [right; now left | discriminate].
  - vm_compute in Hr. discriminate Hr.
Qed.

(** What becomes of that batch: status 400, a report that names the second
    keyword, and a spreadsheet left as it was. *)
Example handleAddNegativeKeywords_mixed :
  handleAddNegativeKeywords Samples.frozen Samples.book
    (Some [Samples.freeShipping; Samples.shoesNoAdGroup])
  = (createErrorResponse
       "Validation errors: Keyword 2: Campaign ID and Ad Group ID are required for ad group level keywords"
       400,
     Samples.book).
Proof. reflexivity. Qed.

(** C1, amended.  A batch is taken or turned down as a whole.  When some
    keyword of it is invalid, the answer is an error of status 400 whose
    report has one line for each invalid keyword, with its position and its
    errors, and the spreadsheet stays as it was: no keyword is appended,
    the valid ones included.  When every keyword is valid and the ledger is
    there, every keyword is appended, in the order of the batch, and
    [added] is the size of the batch. *)
Theorem handleAddNegativeKeywords_all_or_nothing
        (env : Env) (ss : Spreadsheet.t) (keywords : list Keyword.t) :
  keywords <> [] ->
  ((exists k, In k keywords /\ validateKeyword k <> []) ->
   handleAddNegativeKeywords env ss (Some keywords)
   = (createErrorResponse
        ("Validation errors: " +:+ join "; " (concat (imap validationLine keywords)))
        400,
      ss)) /\
  ((forall k, In k keywords -> validateKeyword k = []) ->
   forall sheet, Spreadsheet.negativeKeywords ss = Some sheet ->
   exists data,
     handleAddNegativeKeywords env ss (Some keywords)
     = (createResponse data,
        Spreadsheet.mk
          (Some (sheet ++ imap (fun i keyword => newRow (reads env i) keyword) keywords))
          (Some (appendTrigger (triggerTimestamp env)
                               (Spreadsheet.processingTriggers ss)))) /\
     res_added data = length keywords /\
     res_failed data = 0 /\
     res_errors data = []).
Proof.
  intros Hne.
  assert (Hlen : (length keywords =? 0)%nat = false).
  { apply Nat.eqb_neq. destruct keywords; simpl; [congruence | lia]. }
  assert (Hnil : concat (imap validationLine keywords) = [] <->
                 forall k, In k keywords -> validateKeyword k = [])
    by exact (validationLines_nil keywords 0).
  unfold handleAddNegativeKeywords.
  rewrite Hlen, forEach_validationLines, app_nil_l.
  change (fun i keyword => validationLine (0 + i) keyword) with validationLine.
  split.
  - intros (k & Hin & Hk).
    destruct (concat (imap validationLine keywords)) as [|line lines] eqn:E.
    + exfalso. apply Hk. now apply Hnil.
    + reflexivity.
  - intros Hall sheet Hsheet.
    rewrite (proj2 Hnil Hall), Hsheet, addNegativeKeywords_eq.
    eexists. split; [reflexivity|]. simpl. auto.
Qed.

(** The batch of a valid and an invalid keyword is turned down as a
    whole. *)
Lemma handleAddNegativeKeywords_all_or_nothing_witness :
  let keywords := [Samples.freeShipping; Samples.shoesNoAdGroup] in
  keywords <> [] /\
  (exists k, In k keywords /\ validateKeyword k <> []) /\
  handleAddNegativeKeywords Samples.frozen Samples.book (Some keywords)
  = (createErrorResponse
       ("Validation errors: " +:+ join "; " (concat (imap validationLine keywords)))
       400,
     Samples.book).
Proof.
  assert (Hne : [Samples.freeShipping; Samples.shoesNoAdGroup] <> []) by discriminate.
  assert (Hbad : exists k, In k [Samples.freeShipping; Samples.shoesNoAdGroup]
                           /\ validateKeyword k <> []).
  { exists Samples.shoesNoAdGroup. split; [right; now left | discriminate]. }
  split; [exact Hne|]. split; [exact Hbad|].
  exact (proj1 (handleAddNegativeKeywords_all_or_nothing
                  Samples.frozen Samples.book
                  [Samples.freeShipping; Samples.shoesNoAdGroup] Hne) Hbad).
Defined.

(** The admission scenario of the specification: the ledger gains one row,
    with status PENDING. *)
Example handleAddNegativeKeywords_scenario :
  exists data triggers,
    handleAddNegativeKeywords Samples.frozen Samples.book (Some [Samples.freeShipping])
    = (createResponse data,
       Spreadsheet.mk
         (Some (Samples.ledger
                ++ [Row.mk "new_1700000000000_k3x9q2m1z" "free shipping" "BROAD"
                           "CAMPAIGN" "123" "Shoes" "" "" "" ""
                           "2023-11-14T22:13:20.000Z" "PENDING"
                           "Waiting for processing" ""]))
         triggers) /\
    res_added data = 1.
Proof. eexists. eexists. split; reflexivity. Qed.

End SubmissionFacts.

(** ** The pending rows *)

Section PendingFacts.
Import Js Worker Spec.

Lemma forEach_pending (data : list Row.t) (index : nat) (acc : list Pending.t) :
  forEach
    (fun pendingKeywords row index =>
       if isPendingRow row then pendingKeywords ++ [pendingOf index row]
       else pendingKeywords)
    data index acc
  = acc ++ pendingFrom index data.
Proof.
  revert index acc. induction data as [|row data IH]; intros index acc; simpl.
  - now rewrite app_nil_r.
  - rewrite IH. destruct (isPendingRow row); simpl; [|reflexivity].
    now rewrite <- app_assoc.
Qed.

(** [getPendingKeywords] in closed form. *)
Lemma getPendingKeywords_eq (sheet : list Row.t) :
  getPendingKeywords sheet = pendingFrom 0 (drop 1 sheet).
Proof.
  unfold getPendingKeywords.
  destruct (length sheet <=? 1)%nat eqn:E.
  - apply Nat.leb_le in E. destruct sheet as [|h [|r sheet]]; simpl in *; [reflexivity..|lia].
  - rewrite take_ge by (rewrite length_drop; lia).
    now rewrite forEach_pending.
Qed.

Lemma isPendingRow_spec (row : Row.t) : isPendingRow row = true <-> awaitsWorker row.
Proof.
  unfold isPendingRow, awaitsWorker, nonEmpty.
  rewrite !andb_true_iff, orb_true_iff, !String.eqb_eq, negb_true_iff,
    String.eqb_neq, startsWith_spec.
  split.
  - intros [[Hs _] Hid]. tauto.
  - intros [Hs (suffix & Hid)]. repeat split; [tauto| |now exists suffix].
    rewrite Hid. discriminate.
Qed.

Lemma In_pendingFrom (p : Pending.t) (index : nat) (data : list Row.t) :
  In p (pendingFrom index data) <->
  exists i row, data !! i = Some row /\ isPendingRow row = true /\
                p = pendingOf (index + i) row.
Proof.
  revert index. induction data as [|row data IH]; intros index; simpl.
  - split; [tauto | intros (i & r & H & _); discriminate H].
  - rewrite in_app_iff, IH. split.
    + intros [H | (i & r & Hi & Hr & ->)].
      * destruct (isPendingRow row) eqn:E; [|destruct H].
        destruct H as [<-|[]]. exists 0, row. rewrite Nat.add_0_r. auto.
      * exists (S i), r. repeat split; try assumption. f_equal. lia.
    + intros ([|i] & r & Hi & Hr & ->); simpl in Hi.
      * injection Hi as <-. rewrite Hr, Nat.add_0_r. left. now left.
      * right. exists i, r. repeat split; try assumption. f_equal. lia.
Qed.

Lemma pendingFrom_bound (index : nat) (data : list Row.t) :
  Forall (fun p => index + 2 <= Pending.rowIndex p) (pendingFrom index data).
Proof.
  apply Forall_forall. intros p Hp. apply list_elem_of_In in Hp.
  apply In_pendingFrom in Hp as (i & row & _ & _ & ->). simpl. lia.
Qed.

(** The rows are listed in the order of the sheet. *)
Lemma pendingFrom_sorted (index : nat) (data : list Row.t) :
  StronglySorted lt (map Pending.rowIndex (pendingFrom index data)).
Proof.
  revert index. induction data as [|row data IH]; intros index; simpl.
  - constructor.
  - destruct (isPendingRow row); simpl; [|apply IH].
    constructor; [apply IH|].
    apply Forall_map, Forall_forall. intros p Hp.
    pose proof (pendingFrom_bound (S index) data) as Hb.
    rewrite Forall_forall in Hb. specialize (Hb p Hp). simpl in *. lia.
Qed.

(** C3, refuted as stated: a row with status PENDING whose id does not
    start with [new_] is not listed. *)
Lemma listsEveryPending_fails : ~ ListsEveryPending.
Proof.
  intros H.
  destruct (H Samples.foreignLedger 0 (Samples.pendingRow "kw_7" "jobs" "CAMPAIGN" "123")
              eq_refl eq_refl) as (p & Hin & _).
  exact Hin.
Qed.

(** The keywords listed are the rows that wait for the worker. *)
Lemma In_getPendingKeywords (sheet : list Row.t) (p : Pending.t) :
  In p (getPendingKeywords sheet) <->
  exists i row, drop 1 sheet !! i = Some row /\ awaitsWorker row /\
                p = pendingOf i row.
Proof.
  rewrite getPendingKeywords_eq, In_pendingFrom.
  split; intros (i & row & Hi & Hr & ->); exists i, row;
    (split; [assumption | split; [now apply isPendingRow_spec | reflexivity]]).
Qed.

Lemma getPendingKeywords_sorted (sheet : list Row.t) :
  StronglySorted lt (map Pending.rowIndex (getPendingKeywords sheet)).
Proof. rewrite getPendingKeywords_eq. apply pendingFrom_sorted. Qed.

(** C3, amended.  [getPendingKeywords] lists the rows below the header
    whose status is PENDING, or empty, and whose id starts with [new_]:
    each of them with its row number, no other row, and in the order of
    the sheet. *)
Theorem getPendingKeywords_spec (sheet : list Row.t) :
  (forall p, In p (getPendingKeywords sheet) <->
             exists i row, drop 1 sheet !! i = Some row /\ awaitsWorker row /\
                           p = pendingOf i row) /\
  (forall i row, drop 1 sheet !! i = Some row -> ~ awaitsWorker row ->
                 forall p, In p (getPendingKeywords sheet) -> Pending.rowIndex p <> i + 2) /\
  StronglySorted lt (map Pending.rowIndex (getPendingKeywords sheet)).
Proof.
  split; [apply In_getPendingKeywords|]. split; [|apply getPendingKeywords_sorted].
  intros i row Hi Hno p Hp Hidx.
  apply In_getPendingKeywords in Hp as (j & row' & Hj & Hr & ->). simpl in Hidx.
  assert (j = i) as -> by lia.
  rewrite Hi in Hj. injection Hj as <-. contradiction.
Qed.

(** The three requests of the sample queue are listed with the rows 2, 3
    and 4. *)
Example getPendingKeywords_queue :
  map Pending.rowIndex (getPendingKeywords Samples.queue) = [2; 3; 4].
Proof. reflexivity. Qed.

End PendingFacts.

(** ** The loop of the worker *)

Section LoopFacts.
Import Js Worker Spec.
Context {World Entity : Type} (ads : AdsApp World Entity).

(** A leaf of the case analysis on what the account answers. *)
Ltac answered :=
  eexists; eexists;
  split; [reflexivity | split; [reflexivity | intros ? H; simpl in H; congruence]].

(** Each of the three functions returns, whatever the account does, and
    leaves the sheet alone; an exception of the account comes back as a
    failure whose text is the exception's, after the prefix of the level. *)
Lemma addCampaignNegativeKeyword_returns (k : Pending.t) (s : State) :
  exists r s',
    addCampaignNegativeKeyword ads k s = (Returned r, s') /\
    sheet s' = sheet s /\
    (forall t, fst (addCampaignNegativeKeyword_try ads k s) = Thrown t ->
               r = Failure ("Campaign error: " +:+ t)).
Proof.
  unfold addCampaignNegativeKeyword, addCampaignNegativeKeyword_try,
    tryCatch, bind, call, ret.
  destruct (negb (nonEmpty (Pending.campaignId k))); simpl; [answered|].
  destruct (campaigns ads (Pending.campaignId k) (world s)) as [[[e|]|t] w];
    simpl; [|answered..].
  destruct (campaignAdd ads e (Pending.keywordText k) (Pending.matchType k) w)
    as [[op|t] w']; simpl; [|answered].
  destruct (isSuccessful op); answered.
Qed.

Lemma addAdGroupNegativeKeyword_returns (k : Pending.t) (s : State) :
  exists r s',
    addAdGroupNegativeKeyword ads k s = (Returned r, s') /\
    sheet s' = sheet s /\
    (forall t, fst (addAdGroupNegativeKeyword_try ads k s) = Thrown t ->
               r = Failure ("Ad group error: " +:+ t)).
Proof.
  unfold addAdGroupNegativeKeyword, addAdGroupNegativeKeyword_try,
    tryCatch, bind, call, ret.
  destruct (negb (nonEmpty (Pending.adGroupId k))); simpl; [answered|].
  destruct (adGroups ads (Pending.adGroupId k) (world s)) as [[[e|]|t] w];
    simpl; [|answered..].
  destruct (adGroupAdd ads e (Pending.keywordText k) (Pending.matchType k) w)
    as [[op|t] w']; simpl; [|answered].
  destruct (isSuccessful op); answered.
Qed.

Lemma addSharedListNegativeKeyword_returns (k : Pending.t) (s : State) :
  exists r s',
    addSharedListNegativeKeyword ads k s = (Returned r, s') /\
    sheet s' = sheet s /\
    (forall t, fst (addSharedListNegativeKeyword_try ads k s) = Thrown t ->
               r = Failure ("Shared list error: " +:+ t)).
Proof.
  unfold addSharedListNegativeKeyword, addSharedListNegativeKeyword_try,
    tryCatch, bind, call, ret.
  destruct (negb (nonEmpty (Pending.sharedListId k))); simpl; [answered|].
  destruct (negativeKeywordLists ads (Pending.sharedListId k) (world s))
    as [[[e|]|t] w]; simpl; [|answered..].
  destruct (sharedListAdd ads e (Pending.keywordText k) (Pending.matchType k) w)
    as [[op|t] w']; simpl; [|answered].
  destruct (isSuccessful op); answered.
Qed.

(** No exception leaves [addNegativeKeywordToGoogleAds]. *)
Lemma addNegativeKeywordToGoogleAds_returns (k : Pending.t) (s : State) :
  exists r s',
    addNegativeKeywordToGoogleAds ads k s = (Returned r, s') /\
    sheet s' = sheet s /\
    (forall t, fst (dispatch_try ads k s) = Thrown t ->
               r = Failure (errorPrefix (Pending.level k) +:+ t)).
Proof.
  unfold addNegativeKeywordToGoogleAds, dispatch_try, errorPrefix, tryCatch.
  destruct (Pending.level k =? "CAMPAIGN").
  { destruct (addCampaignNegativeKeyword_returns k s) as (r & s' & E & Hs & Ht).
    rewrite E. eauto. }
  destruct (Pending.level k =? "AD_GROUP").
  { destruct (addAdGroupNegativeKeyword_returns k s) as (r & s' & E & Hs & Ht).
    rewrite E. eauto. }
  destruct (Pending.level k =? "SHARED_LIST").
  { destruct (addSharedListNegativeKeyword_returns k s) as (r & s' & E & Hs & Ht).
    rewrite E. eauto. }
  unfold ret. answered.
Qed.

(** The labels are written to row 1 and nowhere else. *)
Lemma ensureColumns_length (rows : list Row.t) :
  length (ensureColumns rows) = length rows.
Proof.
  unfold ensureColumns, Range.setCells.
  destruct (Range.getLastColumn rows <? 14)%nat; [apply length_alter | reflexivity].
Qed.

Lemma ensureColumns_below (rows : list Row.t) (i : nat) :
  1 <= i -> ensureColumns rows !! i = rows !! i.
Proof.
  intros Hi. unfold ensureColumns, Range.setCells.
  destruct (Range.getLastColumn rows <? 14)%nat; [|reflexivity].
  apply list_lookup_alter_ne. simpl. lia.
Qed.

Lemma updateKeywordStatus_effect (rowIndex : nat) (status message : string) (s : State) :
  exists t s',
    updateKeywordStatus ads rowIndex status message s = (Returned tt, s') /\
    sheet s' = Range.setRow rowIndex (Row.setOutcome status message t)
                            (ensureColumns (sheet s)).
Proof.
  unfold updateKeywordStatus, tryCatch, bind, now, setSheet. simpl.
  destruct (toISOString ads (world s)) as [t w]. simpl. eauto.
Qed.

(** The callback of the loop returns for every keyword and every state:
    it sets the outcome of the row of the keyword, to ACTIVE or to FAILED,
    and when the account threw, to FAILED with the prefixed text. *)
Lemma processKeyword_effect (k : Pending.t) (s : State) :
  exists status message t s',
    processKeyword ads k s = (Returned tt, s') /\
    sheet s' = Range.setRow (Pending.rowIndex k)
                            (Row.setOutcome status message t)
                            (ensureColumns (sheet s)) /\
    (status = "ACTIVE" \/ status = "FAILED") /\
    (forall e, fst (dispatch_try ads k s) = Thrown e ->
               status = "FAILED" /\
               message = errorPrefix (Pending.level k) +:+ e).
Proof.
  unfold processKeyword, tryCatch, bind.
  destruct (addNegativeKeywordToGoogleAds_returns k s) as (r & s1 & E & Hs & Ht).
  rewrite E. destruct r as [message|error].
  - unfold countSuccess.
    match goal with
    | |- context [updateKeywordStatus ads ?i ?st ?m ?s0] =>
        destruct (updateKeywordStatus_effect i st m s0) as (t & s2 & E2 & Hs2)
    end.
    rewrite E2. unfold pushResult. simpl in *.
    exists "ACTIVE", message, t. eexists. split; [reflexivity|]. simpl.
    rewrite Hs2, Hs. split; [reflexivity|]. split; [now left|].
    intros e He. apply Ht in He. discriminate He.
  - unfold countFailure.
    match goal with
    | |- context [updateKeywordStatus ads ?i ?st ?m ?s0] =>
        destruct (updateKeywordStatus_effect i st m s0) as (t & s2 & E2 & Hs2)
    end.
    rewrite E2. unfold pushResult. simpl in *.
    exists "FAILED", error, t. eexists. split; [reflexivity|]. simpl.
    rewrite Hs2, Hs. split; [reflexivity|]. split; [now right|].
    intros e He. apply Ht in He. injection He as ->. auto.
Qed.

(** No exception of one keyword ends the loop: it goes through the whole
    list. *)
Lemma forEachKeyword_returns (l : list Pending.t) (s : State) :
  forEachKeyword (processKeyword ads) l s = (Returned tt, after ads l s).
Proof.
  unfold after. revert s. induction l as [|k l IH]; intros s; simpl.
  - reflexivity.
  - unfold bind.
    destruct (processKeyword_effect k s) as (st & m & t & s' & E & _).
    rewrite E. rewrite IH. reflexivity.
Qed.

Lemma after_cons (k : Pending.t) (l : list Pending.t) (s : State) :
  after ads (k :: l) s = after ads l (snd (processKeyword ads k s)).
Proof.
  unfold after. simpl. unfold bind.
  destruct (processKeyword_effect k s) as (st & m & t & s' & E & _).
  now rewrite E.
Qed.

Lemma after_app (l1 l2 : list Pending.t) (s : State) :
  after ads (l1 ++ l2) s = after ads l2 (after ads l1 s).
Proof.
  revert s. induction l1 as [|k l1 IH]; intros s; simpl.
  - reflexivity.
  - rewrite !after_cons. apply IH.
Qed.

Lemma after_length (l : list Pending.t) (s : State) :
  length (sheet (after ads l s)) = length (sheet s).
Proof.
  revert s. induction l as [|k l IH]; intros s; [reflexivity|].
  rewrite after_cons, IH.
  destruct (processKeyword_effect k s) as (st & m & t & s' & E & Hs & _).
  rewrite E. simpl. rewrite Hs. unfold Range.setRow.
  now rewrite length_alter, ensureColumns_length.
Qed.

(** A row below the header that no keyword of the list stands for is
    left as it is. *)
Lemma after_other (l : list Pending.t) (s : State) (i : nat) :
  1 <= i ->
  (forall q, In q l -> Pending.rowIndex q - 1 <> i) ->
  sheet (after ads l s) !! i = sheet s !! i.
Proof.
  intros Hi. revert s. induction l as [|k l IH]; intros s Hl; [reflexivity|].
  rewrite after_cons, IH by (intros q Hq; apply Hl; now right).
  destruct (processKeyword_effect k s) as (st & m & t & s' & E & Hs & _).
  rewrite E. simpl. rewrite Hs. unfold Range.setRow.
  rewrite list_lookup_alter_ne by (apply Hl; now left).
  now apply ensureColumns_below.
Qed.

(** A processed row below the header stays processed. *)
Lemma after_keeps (l : list Pending.t) (s : State) (i : nat) (row : Row.t) :
  1 <= i ->
  sheet s !! i = Some row ->
  Row.status row = "ACTIVE" \/ Row.status row = "FAILED" ->
  exists row', sheet (after ads l s) !! i = Some row' /\
               (Row.status row' = "ACTIVE" \/ Row.status row' = "FAILED").
Proof.
  intros H1. revert s row. induction l as [|k l IH]; intros s row Hi Hrow.
  - now exists row.
  - rewrite after_cons.
    destruct (processKeyword_effect k s) as (st & m & t & s' & E & Hs & Hst & _).
    rewrite E. simpl.
    destruct (Nat.eq_dec (Pending.rowIndex k - 1) i) as [Heq|Hne].
    + apply (IH s' (Row.setOutcome st m t row)); [|exact Hst].
      rewrite Hs. unfold Range.setRow. rewrite Heq.
      now rewrite list_lookup_alter_eq, ensureColumns_below, Hi.
    + apply (IH s' row); [|exact Hrow].
      rewrite Hs. unfold Range.setRow.
      now rewrite list_lookup_alter_ne, ensureColumns_below.
Qed.

(** Every keyword of the list whose row is on the sheet, below the
    header, is processed. *)
Lemma after_processed (l : list Pending.t) (s : State) (q : Pending.t) :
  In q l -> 2 <= Pending.rowIndex q -> Pending.rowIndex q - 1 < length (sheet s) ->
  processed (sheet (after ads l s)) q.
Proof.
  unfold processed. intros Hq H2. revert s Hq.
  induction l as [|k l IH]; intros s Hq Hlen; [destruct Hq|].
  rewrite after_cons.
  destruct (processKeyword_effect k s) as (st & m & t & s' & E & Hs & Hst & _).
  rewrite E. simpl.
  destruct Hq as [->|Hq].
  - destruct (lookup_lt_is_Some_2 (sheet s) _ Hlen) as [row Hrow].
    apply (after_keeps l s' _ (Row.setOutcome st m t row)); [lia| |exact Hst].
    rewrite Hs. unfold Range.setRow.
    rewrite list_lookup_alter_eq, ensureColumns_below by lia. now rewrite Hrow.
  - apply IH; [exact Hq|]. rewrite Hs. unfold Range.setRow.
    now rewrite length_alter, ensureColumns_length.
Qed.

(** The run, for a ledger with pending keywords: the loop goes through
    all of them. *)
Lemma processPendingNegativeKeywords_eq (rows : list Row.t)
      (triggers : option (list Trigger.t)) (w : World) :
  getPendingKeywords rows <> [] ->
  let s := after ads (getPendingKeywords rows) (start rows w) in
  processPendingNegativeKeywords ads (Spreadsheet.mk (Some rows) triggers) w
  = (Some (results s),
     Spreadsheet.mk
       (Some (sheet s))
       (fst (updateProcessingTriggerStatus ads (successCount s) (failureCount s)
                                           triggers (world s))),
     snd (updateProcessingTriggerStatus ads (successCount s) (failureCount s)
                                        triggers (world s))).
Proof.
  intros Hne s. unfold processPendingNegativeKeywords.
  cbn [Spreadsheet.negativeKeywords Spreadsheet.processingTriggers].
  destruct (length (getPendingKeywords rows) =? 0)%nat eqn:E.
  { apply Nat.eqb_eq in E. destruct (getPendingKeywords rows); [congruence | discriminate E]. }
  fold (start rows w). rewrite forEachKeyword_returns. fold s.
  destruct (updateProcessingTriggerStatus ads _ _ triggers (world s)).
  reflexivity.
Qed.

End LoopFacts.

Section IsolationFacts.
Import Js Worker Spec.

(** A pending keyword stands for a row of the sheet below the header. *)
Lemma pending_in_range (rows : list Row.t) (q : Pending.t) :
  In q (getPendingKeywords rows) ->
  2 <= Pending.rowIndex q /\ Pending.rowIndex q - 1 < length rows.
Proof.
  intros Hq. apply In_getPendingKeywords in Hq as (i & row & Hi & _ & ->).
  apply lookup_lt_Some in Hi. rewrite length_drop in Hi. simpl. lia.
Qed.

Lemma pending_later (rows : list Row.t) (before rest : list Pending.t)
      (p q : Pending.t) :
  getPendingKeywords rows = before ++ p :: rest -> In q rest ->
  Pending.rowIndex q - 1 <> Pending.rowIndex p - 1.
Proof.
  intros E Hq.
  pose proof (getPendingKeywords_sorted rows) as Hsorted.
  rewrite E, map_app in Hsorted. simpl in Hsorted.
  apply StronglySorted_app_1_r in Hsorted.
  apply StronglySorted_inv in Hsorted as [_ Hall].
  rewrite Forall_map, Forall_forall in Hall.
  apply list_elem_of_In in Hq. specialize (Hall q Hq). simpl in Hall.
  assert (Hp : In p (getPendingKeywords rows)).
  { rewrite E. apply in_or_app. right. now left. }
  apply In_getPendingKeywords in Hp as (i & row & _ & _ & ->). simpl in *. lia.
Qed.

(** C6, refuted as stated: when the account throws on a request for a
    campaign, the message of the row is not the text of the exception; the
    words [Campaign error: ] stand before it. *)
Lemma isolationAsStated_fails : ~ IsolationAsStated.
Proof.
  intros H.
  destruct (H unit string Samples.account Samples.queue None tt []
              (skipn 1 (getPendingKeywords Samples.queue))
              (pendingOf 0 (Samples.pendingRow "new_1_a" "free shipping" "CAMPAIGN" "500"))
              "Error: internal error" eq_refl eq_refl)
    as (entries & rows' & triggers' & w' & Hrun & Hmark & _).
  vm_compute in Hrun. injection Hrun as _ <- _ _.
  destruct Hmark as (row & Hrow & _ & Hmsg).
  vm_compute in Hrow. injection Hrow as <-.
  vm_compute in Hmsg. discriminate Hmsg.
Qed.

(** C6, amended.  When the account throws while a pending request is
    dispatched, the run still ends with its list of results; the request
    is marked FAILED, and its message is the text of the exception after
    the prefix of its level ([Campaign error: ], [Ad group error: ] or
    [Shared list error: ]); and every pending request that follows it in
    the ledger is processed in the same run. *)
Theorem processPending_isolation :
  isolated (fun p t => errorPrefix (Pending.level p) +:+ t).
Proof.
  intros World Entity ads rows triggers w before rest p t Epend Hthrow.
  assert (Hne : getPendingKeywords rows <> []).
  { rewrite Epend. destruct before; discriminate. }
  rewrite (processPendingNegativeKeywords_eq ads rows triggers w Hne).
  rewrite Epend. simpl.
  set (s1 := after ads before (start rows w)) in *.
  assert (Hlen1 : length (sheet s1) = length rows) by apply after_length.
  assert (Hp : In p (getPendingKeywords rows)).
  { rewrite Epend. apply in_or_app. right. now left. }
  replace (before ++ p :: rest) with (before ++ [p] ++ rest) by reflexivity.
  rewrite after_app. fold s1. simpl. rewrite after_cons.
  destruct (processKeyword_effect ads p s1) as (st & m & tm & s2 & E & Hs & _ & Hfail).
  rewrite E. simpl.
  destruct (Hfail t Hthrow) as [-> ->].
  do 4 eexists. split; [reflexivity|]. split.
  - unfold marked.
    destruct (pending_in_range rows p Hp) as [Hp2 Hplen].
    destruct (lookup_lt_is_Some_2 (sheet s1) (Pending.rowIndex p - 1)) as [row Hrow].
    { now rewrite Hlen1. }
    exists (Row.setOutcome "FAILED" (errorPrefix (Pending.level p) +:+ t) tm row).
    split; [|split; reflexivity].
    rewrite after_other;
      [|lia | intros q Hq; now apply (pending_later rows before rest)].
    rewrite Hs. unfold Range.setRow.
    rewrite list_lookup_alter_eq, ensureColumns_below by lia. now rewrite Hrow.
  - intros q Hq.
    assert (Hq' : In q (getPendingKeywords rows)).
    { rewrite Epend. apply in_or_app. right. now right. }
    destruct (pending_in_range rows q Hq') as [Hq2 Hqlen].
    apply after_processed; [exact Hq | exact Hq2 |].
    rewrite Hs. unfold Range.setRow.
    now rewrite length_alter, ensureColumns_length, Hlen1.
Qed.

(** The sample queue on the sample account: the account throws on the
    first request, and the two requests after it are processed. *)
Lemma processPending_isolation_witness :
  exists entries rows' triggers' w',
    processPendingNegativeKeywords Samples.account
      (Spreadsheet.mk (Some Samples.queue) None) tt
    = (Some entries, Spreadsheet.mk (Some rows') triggers', w') /\
    marked rows'
      (pendingOf 0 (Samples.pendingRow "new_1_a" "free shipping" "CAMPAIGN" "500"))
      "FAILED" "Campaign error: Error: internal error" /\
    (forall q, In q (skipn 1 (getPendingKeywords Samples.queue)) -> processed rows' q).
Proof.
  exact (processPending_isolation unit string Samples.account Samples.queue None tt []
           (skipn 1 (getPendingKeywords Samples.queue))
           (pendingOf 0 (Samples.pendingRow "new_1_a" "free shipping" "CAMPAIGN" "500"))
           "Error: internal error" eq_refl eq_refl).
Defined.

(** The run over the sample queue: the first request fails on the
    exception, the second is added to the campaign, the third fails on its
    level; none stays pending. *)
Example processPending_queue :
  let '(_, ss, _) :=
    processPendingNegativeKeywords Samples.account
      (Spreadsheet.mk (Some Samples.queue) None) tt in
  match Spreadsheet.negativeKeywords ss with
  | Some rows =>
      map (fun row => (Row.status row, Row.message row)) (drop 1 rows)
      = [("FAILED", "Campaign error: Error: internal error");
         ("ACTIVE", "Added to campaign " +:+ dquote +:+ "Shoes" +:+ dquote);
         ("FAILED", "Invalid keyword level: ACCOUNT")]
  | None => False
  end.
Proof. vm_compute. reflexivity. Qed.

End IsolationFacts.

(** * Further properties *)

(** ** A run of the worker, as a whole *)

Section RunFacts.
Import Js Worker Spec Terms.
Context {World Entity : Type} (ads : AdsApp World Entity).

Ltac framed :=
  eexists; eexists; split; [reflexivity | unfold sameVariables; simpl; repeat split].

(** The work on the account changes the world and none of the variables
    of the script. *)
Lemma addCampaignNegativeKeyword_frame (k : Pending.t) (s : State) :
  exists r s', addCampaignNegativeKeyword ads k s = (Returned r, s') /\ sameVariables s s'.
Proof.
  unfold addCampaignNegativeKeyword, addCampaignNegativeKeyword_try,
    tryCatch, bind, call, ret.
  destruct (negb (nonEmpty (Pending.campaignId k))); simpl; [framed|].
  destruct (campaigns ads (Pending.campaignId k) (world s)) as [[[e|]|t] w];
    simpl; [|framed..].
  destruct (campaignAdd ads e (Pending.keywordText k) (Pending.matchType k) w)
    as [[op|t] w']; simpl; [|framed].
  destruct (isSuccessful op); framed.
Qed.

Lemma addAdGroupNegativeKeyword_frame (k : Pending.t) (s : State) :
  exists r s', addAdGroupNegativeKeyword ads k s = (Returned r, s') /\ sameVariables s s'.
Proof.
  unfold addAdGroupNegativeKeyword, addAdGroupNegativeKeyword_try,
    tryCatch, bind, call, ret.
  destruct (negb (nonEmpty (Pending.adGroupId k))); simpl; [framed|].
  destruct (adGroups ads (Pending.adGroupId k) (world s)) as [[[e|]|t] w];
    simpl; [|framed..].
  destruct (adGroupAdd ads e (Pending.keywordText k) (Pending.matchType k) w)
    as [[op|t] w']; simpl; [|framed].
  destruct (isSuccessful op); framed.
Qed.

Lemma addSharedListNegativeKeyword_frame (k : Pending.t) (s : State) :
  exists r s', addSharedListNegativeKeyword ads k s = (Returned r, s') /\ sameVariables s s'.
Proof.
  unfold addSharedListNegativeKeyword, addSharedListNegativeKeyword_try,
    tryCatch, bind, call, ret.
  destruct (negb (nonEmpty (Pending.sharedListId k))); simpl; [framed|].
  destruct (negativeKeywordLists ads (Pending.sharedListId k) (world s))
    as [[[e|]|t] w]; simpl; [|framed..].
  destruct (sharedListAdd ads e (Pending.keywordText k) (Pending.matchType k) w)
    as [[op|t] w']; simpl; [|framed].
  destruct (isSuccessful op); framed.
Qed.

Lemma addNegativeKeywordToGoogleAds_frame (k : Pending.t) (s : State) :
  exists r s', addNegativeKeywordToGoogleAds ads k s = (Returned r, s') /\ sameVariables s s'.
Proof.
  unfold addNegativeKeywordToGoogleAds, tryCatch.
  destruct (Pending.level k =? "CAMPAIGN").
  { destruct (addCampaignNegativeKeyword_frame k s) as (r & s' & E & H).
    rewrite E. eauto. }
  destruct (Pending.level k =? "AD_GROUP").
  { destruct (addAdGroupNegativeKeyword_frame k s) as (r & s' & E & H).
    rewrite E. eauto. }
  destruct (Pending.level k =? "SHARED_LIST").
  { destruct (addSharedListNegativeKeyword_frame k s) as (r & s' & E & H).
    rewrite E. eauto. }
  unfold ret. framed.
Qed.

Lemma updateKeywordStatus_frame (rowIndex : nat) (status message : string) (s : State) :
  exists t s',
    updateKeywordStatus ads rowIndex status message s = (Returned tt, s') /\
    sheet s' = Range.setRow rowIndex (Row.setOutcome status message t)
                            (ensureColumns (sheet s)) /\
    successCount s' = successCount s /\
    failureCount s' = failureCount s /\
    results s' = results s.
Proof.
  unfold updateKeywordStatus, tryCatch, bind, now, setSheet. simpl.
  destruct (toISOString ads (world s)) as [t w]. simpl. eauto 10.
Qed.

(** What the callback of the loop does for one keyword, in full: the
    outcome on the sheet, the entry it appends to the results, and the
    counter it raises. *)
Lemma processKeyword_entry (k : Pending.t) (s : State) :
  exists status message t s',
    processKeyword ads k s = (Returned tt, s') /\
    sheet s' = Range.setRow (Pending.rowIndex k)
                            (Row.setOutcome status message t)
                            (ensureColumns (sheet s)) /\
    (status = "ACTIVE" \/ status = "FAILED") /\
    results s' = results s ++ [{| keyword := Pending.keywordText k;
                                  entryLevel := Pending.level k;
                                  success := (status =? "ACTIVE");
                                  entryMessage := message |}] /\
    successCount s' + failureCount s' = S (successCount s + failureCount s).
Proof.
  unfold processKeyword, tryCatch, bind.
  destruct (addNegativeKeywordToGoogleAds_frame k s)
    as (r & s1 & E & Hs & Hc & Hf & Hr).
  rewrite E. destruct r as [message|error].
  - unfold countSuccess.
    match goal with
    | |- context [updateKeywordStatus ads ?i ?st ?m ?s0] =>
        destruct (updateKeywordStatus_frame i st m s0)
          as (t & s2 & E2 & Hs2 & Hc2 & Hf2 & Hr2)
    end.
    rewrite E2. unfold pushResult. simpl in *.
    exists "ACTIVE", message, t. eexists. split; [reflexivity|]. simpl.
    rewrite Hs2, Hs, Hr2, Hr, Hc2, Hf2, Hc, Hf.
    repeat split; auto; try lia.
  - unfold countFailure.
    match goal with
    | |- context [updateKeywordStatus ads ?i ?st ?m ?s0] =>
        destruct (updateKeywordStatus_frame i st m s0)
          as (t & s2 & E2 & Hs2 & Hc2 & Hf2 & Hr2)
    end.
    rewrite E2. unfold pushResult. simpl in *.
    exists "FAILED", error, t. eexists. split; [reflexivity|]. simpl.
    rewrite Hs2, Hs, Hr2, Hr, Hc2, Hf2, Hc, Hf.
    repeat split; auto; try lia.
Qed.

Lemma sameRequest_refl (row : Row.t) : sameRequest row row.
Proof. unfold sameRequest. repeat split. Qed.

Lemma sameRequest_setOutcome (status message t : string) (row : Row.t) :
  sameRequest row (Row.setOutcome status message t row).
Proof. unfold sameRequest. repeat split. Qed.

Lemma sameRequest_trans (a b c : Row.t) :
  sameRequest a b -> sameRequest b c -> sameRequest a c.
Proof. unfold sameRequest. intuition congruence. Qed.

(** Below the header the loop writes outcomes and nothing else. *)
Lemma after_request (l : list Pending.t) (s : State) (i : nat) (row : Row.t) :
  1 <= i ->
  sheet s !! i = Some row ->
  exists row', sheet (after ads l s) !! i = Some row' /\ sameRequest row row'.
Proof.
  intros H1. revert s row. induction l as [|k l IH]; intros s row Hi.
  - exists row. split; [exact Hi | apply sameRequest_refl].
  - rewrite after_cons.
    destruct (processKeyword_effect ads k s) as (st & m & t & s' & E & Hs & _).
    rewrite E. simpl.
    destruct (Nat.eq_dec (Pending.rowIndex k - 1) i) as [Heq|Hne].
    + destruct (IH s' (Row.setOutcome st m t row)) as (row' & Hrow' & Hsame).
      { rewrite Hs. unfold Range.setRow. rewrite Heq.
        now rewrite list_lookup_alter_eq, ensureColumns_below, Hi. }
      exists row'. split; [exact Hrow'|].
      eapply sameRequest_trans; [apply sameRequest_setOutcome | exact Hsame].
    + apply (IH s' row).
      rewrite Hs. unfold Range.setRow.
      now rewrite list_lookup_alter_ne, ensureColumns_below.
Qed.

(** The content of a row reaches the column of each cell that is not
    empty. *)
Lemma lastContent_reaches (l : list string) (k : nat) :
  nth k l "" <> "" -> k < Row.lastContent l.
Proof.
  revert k. induction l as [|cell l IH]; intros k H.
  - destruct k; simpl in H; congruence.
  - simpl. destruct k as [|k]; simpl in H.
    + destruct (Row.lastContent l); [|lia].
      unfold nonEmpty. destruct (String.eqb_spec cell ""); [contradiction | simpl; lia].
    + specialize (IH k H). destruct (Row.lastContent l); lia.
Qed.

Lemma getLastColumn_reaches (rows : list Row.t) (i : nat) (row : Row.t) :
  rows !! i = Some row -> Row.lastContent (Row.cells row) <= Range.getLastColumn rows.
Proof.
  unfold Range.getLastColumn. revert i.
  induction rows as [|r rows IH]; intros [|i] H; simpl in *; try discriminate H.
  - injection H as ->. lia.
  - specialize (IH i H). lia.
Qed.

(** A header with its fourteenth label is left alone. *)
Lemma ensureColumns_full (rows : list Row.t) (header : Row.t) :
  rows !! 0 = Some header -> Row.processedDate header <> "" ->
  ensureColumns rows = rows.
Proof.
  intros H0 Hfull. unfold ensureColumns.
  pose proof (getLastColumn_reaches rows 0 header H0) as Hle.
  pose proof (lastContent_reaches (Row.cells header) 13 Hfull) as Hlt.
  destruct (Nat.ltb_spec (Range.getLastColumn rows) 14); [lia | reflexivity].
Qed.

(** A header with its eleventh label keeps its first eleven labels. *)
Lemma ensureColumns_request (rows : list Row.t) (header : Row.t) :
  rows !! 0 = Some header -> Row.addedDate header <> "" ->
  exists header', ensureColumns rows !! 0 = Some header' /\ sameRequest header header'.
Proof.
  intros H0 Hdate. unfold ensureColumns.
  pose proof (getLastColumn_reaches rows 0 header H0) as Hle.
  pose proof (lastContent_reaches (Row.cells header) 10 Hdate) as Hlt.
  destruct (Nat.ltb_spec (Range.getLastColumn rows) 14) as [H14|_];
    [|exists header; split; [exact H0 | apply sameRequest_refl]].
  unfold Range.setCells. simpl. rewrite list_lookup_alter_eq, H0. simpl.
  eexists. split; [reflexivity|].
  assert (Hcol : Range.getLastColumn rows = 11 \/ Range.getLastColumn rows = 12 \/
                 Range.getLastColumn rows = 13) by lia.
  destruct Hcol as [->|[->| ->]]; unfold sameRequest; simpl; repeat split.
Qed.

(** The header through the loop, when no keyword of the list stands for
    row 1. *)
Lemma after_header_full (l : list Pending.t) (s : State) (header : Row.t) :
  sheet s !! 0 = Some header -> Row.processedDate header <> "" ->
  (forall q, In q l -> Pending.rowIndex q - 1 <> 0) ->
  sheet (after ads l s) !! 0 = Some header.
Proof.
  intros H0 Hfull. revert s H0. induction l as [|k l IH]; intros s H0 Hl; [exact H0|].
  rewrite after_cons.
  destruct (processKeyword_effect ads k s) as (st & m & t & s' & E & Hs & _).
  rewrite E. simpl. apply IH; [|intros q Hq; apply Hl; now right].
  rewrite Hs, (ensureColumns_full _ header H0 Hfull). unfold Range.setRow.
  rewrite list_lookup_alter_ne by (apply Hl; now left). exact H0.
Qed.

Lemma after_header_request (l : list Pending.t) (s : State) (header : Row.t) :
  sheet s !! 0 = Some header -> Row.addedDate header <> "" ->
  (forall q, In q l -> Pending.rowIndex q - 1 <> 0) ->
  exists header', sheet (after ads l s) !! 0 = Some header' /\ sameRequest header header'.
Proof.
  revert s header. induction l as [|k l IH]; intros s header H0 Hdate Hl.
  - exists header. split; [exact H0 | apply sameRequest_refl].
  - rewrite after_cons.
    destruct (processKeyword_effect ads k s) as (st & m & t & s' & E & Hs & _).
    rewrite E. simpl.
    destruct (ensureColumns_request _ header H0 Hdate) as (h1 & Hh1 & Hsame1).
    destruct (IH s' h1) as (h2 & Hh2 & Hsame2).
    + rewrite Hs. unfold Range.setRow.
      rewrite list_lookup_alter_ne by (apply Hl; now left). exact Hh1.
    + destruct Hsame1 as (_ & _ & _ & _ & _ & _ & _ & _ & _ & _ & Hd). congruence.
    + intros q Hq. apply Hl. now right.
    + exists h2. split; [exact Hh2|]. eapply sameRequest_trans; eassumption.
Qed.

(** The sheet that a run leaves is the sheet after the loop over the
    pending keywords; when nothing is pending, that is the sheet itself. *)
Lemma run_sheet (rows : list Row.t) (triggers : option (list Trigger.t)) (w : World) :
  ranSheet (processPendingNegativeKeywords ads (Spreadsheet.mk (Some rows) triggers) w)
  = Some (sheet (after ads (getPendingKeywords rows) (start rows w))).
Proof.
  destruct (getPendingKeywords rows) as [|p l] eqn:E.
  - unfold processPendingNegativeKeywords. simpl. rewrite E. reflexivity.
  - rewrite processPendingNegativeKeywords_eq by (rewrite E; discriminate).
    unfold ranSheet. simpl. now rewrite E.
Qed.

Lemma not_pending_index (rows : list Row.t) (i : nat) (row : Row.t) :
  rows !! i = Some row -> i = 0 \/ ~ awaitsWorker row ->
  forall q, In q (getPendingKeywords rows) -> Pending.rowIndex q - 1 <> i.
Proof.
  intros Hi Hno q Hq Hidx.
  apply In_getPendingKeywords in Hq as (j & row' & Hj & Hw & ->).
  simpl in Hidx. rewrite lookup_drop in Hj.
  destruct Hno as [->|Hno]; [lia|].
  replace (1 + j) with i in Hj by lia.
  rewrite Hi in Hj. injection Hj as <-. contradiction.
Qed.

Lemma pending_not_header (rows : list Row.t) (q : Pending.t) :
  In q (getPendingKeywords rows) -> Pending.rowIndex q - 1 <> 0.
Proof.
  intros Hq. apply In_getPendingKeywords in Hq as (j & row & _ & _ & ->). simpl. lia.
Qed.

(** X1. A run leaves alone every row below the header that does not wait
    for the worker: the rows of the collector and the rows that an earlier
    run has set to ACTIVE or FAILED are found unchanged at their place, and
    a settled request is never processed again.  The header is left alone
    too when it has its fourteenth label, and so is the whole sheet when
    nothing is pending; a header that ends before column 14 is not
    promised to stay, for the run may write labels to it. *)
Theorem run_leaves_settled_rows (rows : list Row.t)
        (triggers : option (list Trigger.t)) (w : World) :
  exists rows',
    ranSheet (processPendingNegativeKeywords ads (Spreadsheet.mk (Some rows) triggers) w)
    = Some rows' /\
    (forall i row, rows !! i = Some row -> 1 <= i -> ~ awaitsWorker row ->
                   rows' !! i = Some row) /\
    (forall header, rows !! 0 = Some header -> Row.processedDate header <> "" ->
                    rows' !! 0 = Some header) /\
    (getPendingKeywords rows = [] -> rows' = rows).
Proof.
  eexists. split; [apply run_sheet|]. split; [|split].
  - intros i row Hi H1 Hno.
    rewrite after_other; [exact Hi | exact H1 |].
    apply (not_pending_index rows i row Hi). now right.
  - intros header H0 Hfull.
    apply after_header_full; [exact H0 | exact Hfull |].
    intros q Hq. now apply (pending_not_header rows).
  - intros ->. reflexivity.
Qed.

(** X2. Below the header a run writes outcomes and nothing else: the
    sheet keeps its number of rows, and every row below the header keeps
    its request, from the id to the added date, at its place.  The header
    keeps its first eleven labels when it has the eleventh; a header
    that ends before it may have labels written over them. *)
Theorem run_keeps_requests (rows : list Row.t)
        (triggers : option (list Trigger.t)) (w : World) :
  exists rows',
    ranSheet (processPendingNegativeKeywords ads (Spreadsheet.mk (Some rows) triggers) w)
    = Some rows' /\
    length rows' = length rows /\
    (forall i row, rows !! i = Some row -> 1 <= i ->
                   exists row', rows' !! i = Some row' /\ sameRequest row row') /\
    (forall header, rows !! 0 = Some header -> Row.addedDate header <> "" ->
                    exists header', rows' !! 0 = Some header' /\
                                    sameRequest header header').
Proof.
  eexists. split; [apply run_sheet|]. split; [|split].
  - apply after_length.
  - intros i row Hi H1. now apply after_request.
  - intros header H0 Hdate.
    apply after_header_request; [exact H0 | exact Hdate |].
    intros q Hq. now apply (pending_not_header rows).
Qed.

(** A header of eleven labels, and a row that waits without a status:
    the run writes the three labels to row 1. *)
Example run_labels_short_header :
  let short :=
    Row.mk "ID" "Keyword Text" "Match Type" "Level" "Campaign ID" "Campaign Name"
           "Ad Group ID" "Ad Group Name" "Shared List ID" "Shared List Name"
           "Added Date" "" "" "" in
  let waiting :=
    Row.mk "new_1_a" "free shipping" "BROAD" "CAMPAIGN" "123" "Shoes" "" "" "" ""
           "2023-11-01T00:00:00.000Z" "" "" "" in
  option_map (fun rows' => rows' !! 0)
    (ranSheet (processPendingNegativeKeywords Samples.account
                 (Spreadsheet.mk (Some [short; waiting]) None) tt))
  = Some (Some Row.headers).
Proof. vm_compute. reflexivity. Qed.

(** After a run no row waits for the worker. *)
Lemma after_nothing_pending (rows : list Row.t) (w : World) :
  getPendingKeywords (sheet (after ads (getPendingKeywords rows) (start rows w))) = [].
Proof.
  set (rows' := sheet (after ads (getPendingKeywords rows) (start rows w))).
  destruct (getPendingKeywords rows') as [|p l] eqn:E; [reflexivity|exfalso].
  assert (Hp : In p (getPendingKeywords rows')) by (rewrite E; now left).
  apply In_getPendingKeywords in Hp as (i & row' & Hi & Hw & _).
  rewrite lookup_drop in Hi.
  assert (Hlen : length rows' = length rows) by apply after_length.
  destruct (lookup_lt_is_Some_2 rows (1 + i)) as [row Hrow].
  { rewrite <- Hlen. now apply lookup_lt_Some in Hi. }
  destruct (isPendingRow row) eqn:Ep.
  - assert (Hq : In (pendingOf i row) (getPendingKeywords rows)).
    { apply In_getPendingKeywords. exists i, row. rewrite lookup_drop.
      split; [exact Hrow|]. split; [now apply isPendingRow_spec | reflexivity]. }
    destruct (after_processed ads _ (start rows w) _ Hq) as (r & Hr & Hst).
    { simpl. lia. }
    { simpl. apply lookup_lt_Some in Hrow. lia. }
    fold rows' in Hr. simpl in Hr.
    replace (i + 2 - 1) with (1 + i) in Hr by lia.
    rewrite Hi in Hr. injection Hr as <-.
    destruct Hw as [[Hs|Hs] _]; destruct Hst as [Ha|Ha]; congruence.
  - assert (Hsame : rows' !! (1 + i) = Some row).
    { unfold rows'. rewrite after_other; [exact Hrow | lia |].
      apply (not_pending_index rows (1 + i) row Hrow).
      right. rewrite <- isPendingRow_spec. congruence. }
    rewrite Hi in Hsame. injection Hsame as ->.
    apply isPendingRow_spec in Hw. congruence.
Qed.

(** X3. A run drains the queue: on the sheet it leaves, no row waits for
    the worker, and a second run right after it returns an empty list of
    results and changes neither the spreadsheet nor the world. *)
Theorem run_drains (rows : list Row.t) (triggers : option (list Trigger.t)) (w : World) :
  let r := processPendingNegativeKeywords ads (Spreadsheet.mk (Some rows) triggers) w in
  exists rows',
    ranSheet r = Some rows' /\
    getPendingKeywords rows' = [] /\
    processPendingNegativeKeywords ads (snd (fst r)) (snd r)
    = (Some [], snd (fst r), snd r).
Proof.
  intros r. pose proof (run_sheet rows triggers w) as Hr. fold r in Hr.
  eexists. split; [exact Hr|]. split; [apply after_nothing_pending|].
  unfold ranSheet in Hr.
  unfold processPendingNegativeKeywords at 1. rewrite Hr.
  now rewrite after_nothing_pending.
Qed.

(** The loop over keywords that stand for different rows of the sheet, in
    the order of the sheet: the results gain one entry per keyword, in
    that order, each telling what the sheet tells, and the two counters
    together count the keywords. *)
Lemma after_reported (l : list Pending.t) (s : State) :
  StronglySorted lt (map Pending.rowIndex l) ->
  (forall q, In q l -> 2 <= Pending.rowIndex q /\
                       Pending.rowIndex q - 1 < length (sheet s)) ->
  exists es,
    results (after ads l s) = results s ++ es /\
    Forall2 (reported (sheet (after ads l s))) l es /\
    successCount (after ads l s) + failureCount (after ads l s)
    = successCount s + failureCount s + length l.
Proof.
  revert s. induction l as [|k l IH]; intros s Hsorted Hrange.
  - exists []. rewrite app_nil_r.
    split; [reflexivity|]. split; [constructor | simpl; unfold after; simpl; lia].
  - rewrite after_cons.
    destruct (processKeyword_entry k s) as (st & m & t & s' & E & Hs & Hst & Hr & Hc).
    rewrite E. simpl.
    simpl in Hsorted. apply StronglySorted_inv in Hsorted as [Hsorted Hall].
    destruct (Hrange k (or_introl eq_refl)) as [Hk1 Hk2].
    destruct (IH s' Hsorted) as (es & Hes & Hrep & Hcount).
    { intros q Hq. rewrite Hs. unfold Range.setRow.
      rewrite length_alter, ensureColumns_length. apply Hrange. now right. }
    eexists. split; [rewrite Hes, Hr, <- app_assoc; reflexivity|]. split.
    + constructor; [|exact Hrep].
      unfold reported. simpl. split; [reflexivity|]. split; [reflexivity|].
      destruct (lookup_lt_is_Some_2 (sheet s) _ Hk2) as [row Hrow].
      exists (Row.setOutcome st m t row). split; [|split; [|reflexivity]].
      * rewrite after_other.
        -- rewrite Hs. unfold Range.setRow.
           rewrite list_lookup_alter_eq, ensureColumns_below by lia. now rewrite Hrow.
        -- lia.
        -- intros q Hq. rewrite Forall_map, Forall_forall in Hall.
           apply list_elem_of_In in Hq. specialize (Hall q Hq). simpl in Hall. lia.
      * simpl. destruct Hst as [->| ->]; reflexivity.
    + rewrite Hcount, Hc. simpl. lia.
Qed.

(** X4. The list of results that a run returns has one entry per pending
    keyword, in the order of the ledger, and tells what the ledger tells:
    the entry carries the text and the level of the keyword, and the row
    of the keyword is ACTIVE with the message of the entry when the entry
    is a success, FAILED with it when it is not. *)
Theorem run_reports (rows : list Row.t) (triggers : option (list Trigger.t)) (w : World) :
  exists entries rows' triggers' w',
    processPendingNegativeKeywords ads (Spreadsheet.mk (Some rows) triggers) w
    = (Some entries, Spreadsheet.mk (Some rows') triggers', w') /\
    Forall2 (reported rows') (getPendingKeywords rows) entries.
Proof.
  destruct (getPendingKeywords rows) as [|p l] eqn:E.
  - exists [], rows, triggers, w. split; [|constructor].
    unfold processPendingNegativeKeywords. simpl. now rewrite E.
  - rewrite processPendingNegativeKeywords_eq by (rewrite E; discriminate).
    destruct (after_reported (getPendingKeywords rows) (start rows w))
      as (es & Hes & Hrep & _).
    { apply getPendingKeywords_sorted. }
    { intros q Hq. now apply pending_in_range. }
    rewrite E in *. simpl in Hes.
    do 4 eexists. split; [reflexivity|]. simpl. rewrite Hes. exact Hrep.
Qed.

End RunFacts.

(** ** The trigger rows *)

Section TriggerFacts.
Import Js Worker Terms.

Lemma lastPendingTrigger_None (data : list Trigger.t) :
  lastPendingTrigger data = None <->
  forall i t, data !! i = Some t -> Trigger.status t <> "PENDING".
Proof.
  induction data as [|t data IH]; simpl.
  - split; [intros _ i t H; discriminate H | reflexivity].
  - destruct (lastPendingTrigger data) as [k|].
    + split; [discriminate|]. intros H. exfalso.
      assert (Hk : Some k = None); [|discriminate Hk].
      apply IH. intros i t' Hi. apply (H (S i) t' Hi).
    + destruct (String.eqb_spec (Trigger.status t) "PENDING") as [E|E].
      * split; [discriminate|]. intros H. exfalso. exact (H 0 t eq_refl E).
      * split; [|reflexivity]. intros _ [|i] t' Hi; simpl in Hi.
        -- now injection Hi as <-.
        -- apply (proj1 IH eq_refl i t' Hi).
Qed.

(** [lastPendingTrigger] finds the pending row after which none is
    pending. *)
Lemma lastPendingTrigger_Some (data : list Trigger.t) (i : nat) :
  lastPendingTrigger data = Some i <->
  (exists t, data !! i = Some t /\ Trigger.status t = "PENDING") /\
  (forall j t, i < j -> data !! j = Some t -> Trigger.status t <> "PENDING").
Proof.
  revert i. induction data as [|t data IH]; intros i; simpl.
  - split; [discriminate | intros [(t & H & _) _]; discriminate H].
  - destruct (lastPendingTrigger data) as [k|] eqn:Ek.
    + destruct (proj1 (IH k) eq_refl) as [(tk & Hk & Hpk) Hafter].
      split.
      * intros [= <-]. split; [now exists tk|].
        intros [|j] t' Hj Hl; simpl in Hl; [lia|]. apply (Hafter j t'); [lia | exact Hl].
      * intros [(ti & Hi & Hpi) Hlater]. destruct i as [|i].
        -- exfalso. apply (Hlater (S k) tk); [lia | exact Hk | exact Hpk].
        -- f_equal. f_equal.
           assert (Hi' : lastPendingTrigger data = Some i).
           { rewrite Ek. apply IH. split; [now exists ti|].
             intros j t' Hj Hl. apply (Hlater (S j) t'); [lia | exact Hl]. }
           congruence.
    + pose proof (proj1 (lastPendingTrigger_None data) Ek) as Hnone.
      destruct (String.eqb_spec (Trigger.status t) "PENDING") as [E|E].
      * split.
        -- intros [= <-]. split; [now exists t|].
           intros [|j] t' Hj Hl; simpl in Hl; [lia|]. now apply (Hnone j).
        -- intros [(ti & Hi & Hpi) _]. destruct i as [|i]; [reflexivity|].
           simpl in Hi. exfalso. now apply (Hnone i ti).
      * split; [discriminate|].
        intros [(ti & Hi & Hpi) _]. destruct i as [|i]; simpl in Hi.
        -- injection Hi as <-. contradiction.
        -- exfalso. now apply (Hnone i ti).
Qed.

(** X5. [updateProcessingTriggerStatus] completes the most recent pending
    trigger and nothing else.  When no row below the header is PENDING,
    the tab stays as it is and the clock is not read.  Otherwise the last
    PENDING row, and that row alone, becomes COMPLETED, with the two
    counts in its message and the time of the clock as its processed
    date. *)
Theorem updateProcessingTriggerStatus_spec {World Entity : Type}
        (ads : AdsApp World Entity) (successCount failureCount : nat)
        (rows : list Trigger.t) (w : World) :
  let r := updateProcessingTriggerStatus ads successCount failureCount (Some rows) w in
  ((forall i t, 1 <= i -> rows !! i = Some t -> Trigger.status t <> "PENDING") ->
   r = (Some rows, w)) /\
  (forall i t,
     1 <= i -> rows !! i = Some t -> Trigger.status t = "PENDING" ->
     (forall j t', i < j -> rows !! j = Some t' -> Trigger.status t' <> "PENDING") ->
     r = (Some (alter (completed successCount failureCount (fst (toISOString ads w))) i rows),
          snd (toISOString ads w))).
Proof.
  intros r. subst r. unfold updateProcessingTriggerStatus.
  destruct (length rows <=? 1)%nat eqn:Elen.
  - apply Nat.leb_le in Elen. split; [reflexivity|].
    intros i t Hi Hrow. apply lookup_lt_Some in Hrow. lia.
  - apply Nat.leb_gt in Elen.
    rewrite take_ge by (rewrite length_drop; lia).
    destruct (lastPendingTrigger (drop 1 rows)) as [k|] eqn:Ek.
    + apply lastPendingTrigger_Some in Ek as [(tk & Hk & Hpk) Hafter].
      rewrite lookup_drop in Hk.
      split.
      * intros Hnone. exfalso. apply (Hnone (1 + k) tk); [lia | exact Hk | exact Hpk].
      * intros i t Hi Hrow Hp Hlater.
        assert (i = 1 + k) as ->.
        { destruct (Nat.lt_trichotomy i (1 + k)) as [Hlt|[Heq|Hgt]]; [|exact Heq|].
          - exfalso. apply (Hlater (1 + k) tk Hlt Hk Hpk).
          - exfalso. apply (Hafter (i - 1) t); [lia | | exact Hp].
            rewrite lookup_drop. now replace (1 + (i - 1)) with i by lia. }
        destruct (toISOString ads w) as [processed w'] eqn:Et. simpl.
        unfold Range.setRow, completed.
        replace (k + 2 - 1) with (1 + k) by lia. reflexivity.
    + pose proof (proj1 (lastPendingTrigger_None _) Ek) as Hnone.
      split; [reflexivity|].
      intros i t Hi Hrow Hp _. exfalso.
      apply (Hnone (i - 1) t); [|exact Hp].
      rewrite lookup_drop. now replace (1 + (i - 1)) with i by lia.
Qed.

End TriggerFacts.

(** ** Removing a request *)

Section RemovalFacts.
Import Js WebApp Api Terms.

Lemma findRow_None (keywordId : string) (data : list Row.t) (i0 : nat) :
  findRow keywordId data i0 = None <->
  forall j row, data !! j = Some row -> Row.id row <> keywordId.
Proof.
  revert i0. induction data as [|r data IH]; intros i0; simpl.
  - split; [intros _ j row H; discriminate H | reflexivity].
  - destruct (String.eqb_spec (Row.id r) keywordId) as [E|E].
    + split; [discriminate|]. intros H. exfalso. exact (H 0 r eq_refl E).
    + rewrite IH. split.
      * intros H [|j] row Hj; simpl in Hj; [now injection Hj as <- | now apply (H j)].
      * intros H j row Hj. apply (H (S j) row Hj).
Qed.

(** [findRow] answers the first row with the id. *)
Lemma findRow_Some (keywordId : string) (data : list Row.t) (i0 n : nat) :
  findRow keywordId data i0 = Some n <->
  exists j row, n = i0 + j /\ data !! j = Some row /\ Row.id row = keywordId /\
                forall j' row', j' < j -> data !! j' = Some row' ->
                                Row.id row' <> keywordId.
Proof.
  revert i0. induction data as [|r data IH]; intros i0; simpl.
  - split; [discriminate | intros (j & row & _ & H & _); discriminate H].
  - destruct (String.eqb_spec (Row.id r) keywordId) as [E|E].
    + split.
      * intros [= <-]. exists 0, r. repeat split; [lia | exact E |].
        intros j' row' Hj'. lia.
      * intros (j & row & -> & Hj & Hid & Hfirst). destruct j as [|j]; [f_equal; lia|].
        exfalso. apply (Hfirst 0 r); [lia | reflexivity | exact E].
    + rewrite IH. split.
      * intros (j & row & -> & Hj & Hid & Hfirst).
        exists (S j), row. repeat split; [lia | exact Hj | exact Hid |].
        intros [|j'] row' Hlt Hj'; simpl in Hj'.
        -- now injection Hj' as <-.
        -- apply (Hfirst j' row'); [lia | exact Hj'].
      * intros (j & row & -> & Hj & Hid & Hfirst). destruct j as [|j]; simpl in Hj.
        -- injection Hj as <-. contradiction.
        -- exists j, row. repeat split; [lia | exact Hj | exact Hid |].
           intros j' row' Hlt Hj'. apply (Hfirst (S j') row'); [lia | exact Hj'].
Qed.

(** X6. [removeNegativeKeyword] answers false exactly when no row below the
    header has the id, and then leaves the sheet as it is; the header is
    never taken for a request.  When it answers true it has deleted one
    row, the first below the header with that id, whatever its status;
    the other rows keep their order, and a second row with the same id
    stays. *)
Theorem removeNegativeKeyword_spec (sheet : list Row.t) (keywordId : string) :
  let r := removeNegativeKeyword sheet keywordId in
  (fst r = false <->
   forall i row, 1 <= i -> sheet !! i = Some row -> Row.id row <> keywordId) /\
  (fst r = false -> snd r = sheet) /\
  (fst r = true ->
   exists i row,
     1 <= i /\ sheet !! i = Some row /\ Row.id row = keywordId /\
     (forall j row', 1 <= j < i -> sheet !! j = Some row' -> Row.id row' <> keywordId) /\
     snd r = take i sheet ++ drop (S i) sheet).
Proof.
  intros r. subst r. unfold removeNegativeKeyword.
  destruct (findRow keywordId (drop 1 sheet) 1) as [n|] eqn:E; simpl.
  - apply findRow_Some in E as (j & row & -> & Hj & Hid & Hfirst).
    rewrite lookup_drop in Hj.
    split; [|split; [discriminate|]].
    + split; [discriminate|]. intros H. exfalso.
      apply (H (1 + j) row); [lia | exact Hj | exact Hid].
    + intros _. exists (1 + j), row. repeat split; try assumption; [lia| |].
      * intros j' row' Hlt Hj'. apply (Hfirst (j' - 1) row'); [lia|].
        rewrite lookup_drop. now replace (1 + (j' - 1)) with j' by lia.
      * unfold deleteRow. f_equal; f_equal; lia.
  - pose proof (proj1 (findRow_None _ _ _) E) as Hnone.
    split; [|split; [reflexivity | discriminate]].
    split; [|reflexivity].
    intros _ i row Hi Hrow. apply (Hnone (i - 1) row).
    rewrite lookup_drop. now replace (1 + (i - 1)) with i by lia.
Qed.

(** X7. Appending and removing undo each other.  When a batch has been
    appended to a ledger that has its header, removing the id of its
    [j]-th row, an id that no row of the ledger and no earlier row of the
    batch has, gives the ledger followed by the other rows of the batch. *)
Theorem remove_after_append (env : Env) (sheet : list Row.t)
        (keywords : list Keyword.t) (j : nat) :
  sheet <> [] ->
  j < length keywords ->
  (forall i row, 1 <= i -> sheet !! i = Some row ->
                 Row.id row <> newId (reads env j)) ->
  (forall i, i < j -> newId (reads env i) <> newId (reads env j)) ->
  removeNegativeKeyword (snd (addNegativeKeywords env sheet keywords))
                        (newId (reads env j))
  = (true,
     sheet ++ delete j (imap (fun i keyword => newRow (reads env i) keyword) keywords)).
Proof.
  intros Hne Hj Hfresh Hearlier.
  rewrite addNegativeKeywords_eq. simpl.
  set (rows := imap (fun i keyword => newRow (reads env i) keyword) keywords).
  assert (Hlen : length rows = length keywords) by (unfold rows; apply length_imap).
  assert (Hrows : forall i, i < length keywords ->
            exists k, rows !! i = Some (newRow (reads env i) k)).
  { intros i Hi. destruct (lookup_lt_is_Some_2 keywords i Hi) as [k Hk].
    exists k. unfold rows. now rewrite list_lookup_imap, Hk. }
  assert (Hpos : 1 <= length sheet) by (destruct sheet; simpl; [congruence | lia]).
  unfold removeNegativeKeyword.
  assert (E : findRow (newId (reads env j)) (drop 1 (sheet ++ rows)) 1
              = Some (length sheet + j)).
  { apply findRow_Some. destruct (Hrows j Hj) as [k Hk].
    exists (length sheet - 1 + j), (newRow (reads env j) k).
    split; [lia|]. split; [|split; [reflexivity|]].
    - rewrite lookup_drop, lookup_app_r by lia.
      now replace (1 + (length sheet - 1 + j) - length sheet) with j by lia.
    - intros j' row' Hlt Hrow'. rewrite lookup_drop in Hrow'.
      destruct (Nat.lt_ge_cases (1 + j') (length sheet)) as [Hin|Hout].
      + rewrite lookup_app_l in Hrow' by exact Hin.
        apply (Hfresh (1 + j') row'); [lia | exact Hrow'].
      + rewrite lookup_app_r in Hrow' by exact Hout.
        destruct (Hrows (1 + j' - length sheet)) as [k' Hk']; [lia|].
        rewrite Hk' in Hrow'. injection Hrow' as <-. simpl.
        apply Hearlier. lia. }
  rewrite E. f_equal. unfold deleteRow.
  replace (length sheet + j + 1 - 1) with (length sheet + j) by lia.
  replace (length sheet + j + 1) with (length sheet + S j) by lia.
  rewrite take_app_add, drop_app_add, <- app_assoc. f_equal.
  symmetry. apply delete_take_drop.
Qed.

Lemma remove_after_append_witness :
  removeNegativeKeyword
    (snd (addNegativeKeywords Samples.counting Samples.ledger
            [Samples.freeShipping; Samples.freeShipping]))
    (newId (reads Samples.counting 1))
  = (true,
     Samples.ledger
     ++ delete 1 (imap (fun i keyword => newRow (reads Samples.counting i) keyword)
                       [Samples.freeShipping; Samples.freeShipping])).
Proof.
  apply (remove_after_append Samples.counting Samples.ledger
           [Samples.freeShipping; Samples.freeShipping] 1).
  - discriminate.
  - simpl. lia.
  - intros [|[|[|i]]] row Hi Hrow; simpl in Hrow; try lia; try discriminate Hrow.
    injection Hrow as <-. vm_compute. discriminate.
  - intros [|i] Hi; [|lia]. vm_compute. discriminate.
Defined.

End RemovalFacts.

(** ** From the web application to the worker *)

Section HandoverFacts.
Import Js WebApp Worker Spec Terms.

Lemma pendingFrom_app (index : nat) (a b : list Row.t) :
  pendingFrom index (a ++ b) = pendingFrom index a ++ pendingFrom (index + length a) b.
Proof.
  revert index. induction a as [|row a IH]; intros index; simpl.
  - now rewrite Nat.add_0_r.
  - rewrite IH, <- app_assoc.
    now replace (index + S (length a)) with (S index + length a) by lia.
Qed.

Lemma newRow_pending (r : Reads) (keyword : Keyword.t) :
  isPendingRow (newRow r keyword) = true.
Proof.
  apply isPendingRow_spec. split; [now left|].
  now exists (decimalN (dateNow r) +:+ "_" +:+ randomSuffix r).
Qed.

Lemma pendingFrom_newRows (env : Env) (keywords : list Keyword.t) (index offset : nat) :
  pendingFrom index
    (imap (fun i keyword => newRow (reads env (offset + i)) keyword) keywords)
  = imap (fun i keyword => pendingOf (index + i) (newRow (reads env (offset + i)) keyword))
         keywords.
Proof.
  revert index offset. induction keywords as [|k keywords IH]; intros index offset.
  - reflexivity.
  - cbn [imap pendingFrom]. rewrite newRow_pending.
    rewrite !Nat.add_0_r. cbn [app]. f_equal.
    rewrite (imap_ext _ (fun i keyword => newRow (reads env (S offset + i)) keyword))
      by (intros i x _; simpl; do 2 f_equal; lia).
    rewrite IH. apply imap_ext. intros i x _. simpl.
    replace (index + S i) with (S (index + i)) by lia.
    now replace (offset + S i) with (S (offset + i)) by lia.
Qed.

Lemma pendingFrom_batch (env : Env) (keywords : list Keyword.t) (index : nat) :
  pendingFrom index (imap (fun i keyword => newRow (reads env i) keyword) keywords)
  = imap (fun i keyword => pendingOf (index + i) (newRow (reads env i) keyword)) keywords.
Proof. exact (pendingFrom_newRows env keywords index 0). Qed.

(** The pending keywords of a ledger to which a batch has been appended. *)
Lemma getPendingKeywords_appended (env : Env) (sheet : list Row.t)
      (keywords : list Keyword.t) :
  sheet <> [] ->
  getPendingKeywords (snd (addNegativeKeywords env sheet keywords))
  = getPendingKeywords sheet
    ++ imap (fun i keyword =>
               pendingOf (length sheet - 1 + i) (newRow (reads env i) keyword))
            keywords.
Proof.
  intros Hne. rewrite addNegativeKeywords_eq, !getPendingKeywords_eq. simpl.
  destruct sheet as [|h sheet]; [congruence|]. simpl.
  rewrite !drop_0, pendingFrom_app, pendingFrom_batch. f_equal.
  apply imap_ext. intros i x _. simpl. f_equal. lia.
Qed.

(** X8. What the web application appends, the worker finds.  On a ledger
    that has its header, the pending keywords after a batch has been
    appended are those of before, followed by one for each request of the
    batch, in the order of the batch, with the number of its row. *)
Theorem appended_rows_are_listed (env : Env) (sheet : list Row.t)
        (keywords : list Keyword.t) :
  sheet <> [] ->
  getPendingKeywords (snd (addNegativeKeywords env sheet keywords))
  = getPendingKeywords sheet
    ++ imap (fun i keyword =>
               pendingOf (length sheet - 1 + i) (newRow (reads env i) keyword))
            keywords.
Proof. apply getPendingKeywords_appended. Qed.

Lemma appended_rows_are_listed_witness :
  getPendingKeywords
    (snd (addNegativeKeywords Samples.counting Samples.ledger [Samples.freeShipping]))
  = getPendingKeywords Samples.ledger
    ++ imap (fun i keyword =>
               pendingOf (length Samples.ledger - 1 + i)
                         (newRow (reads Samples.counting i) keyword))
            [Samples.freeShipping].
Proof.
  apply (appended_rows_are_listed Samples.counting Samples.ledger [Samples.freeShipping]).
  discriminate.
Defined.

(** On a sheet without a header the first request of a batch is written to
    row 1, where the worker expects the header, and is not found. *)
Lemma first_request_lost_without_header (env : Env) (keyword : Keyword.t) :
  getPendingKeywords (snd (addNegativeKeywords env [] [keyword])) = [].
Proof. rewrite addNegativeKeywords_eq. reflexivity. Qed.

(** X9. A request that has been submitted is processed by the next run.
    After a batch has been appended to a ledger that has its header, a run
    of the worker leaves each row of the batch ACTIVE or FAILED, with the
    request it was appended with. *)
Theorem submitted_then_processed {World Entity : Type} (ads : AdsApp World Entity)
        (env : Env) (sheet : list Row.t) (keywords : list Keyword.t)
        (triggers : option (list Trigger.t)) (w : World) :
  sheet <> [] ->
  exists rows',
    ranSheet (processPendingNegativeKeywords ads
                (Spreadsheet.mk (Some (snd (addNegativeKeywords env sheet keywords)))
                                triggers) w)
    = Some rows' /\
    forall i keyword, keywords !! i = Some keyword ->
      exists row', rows' !! (length sheet + i) = Some row' /\
                   (Row.status row' = "ACTIVE" \/ Row.status row' = "FAILED") /\
                   sameRequest (newRow (reads env i) keyword) row'.
Proof.
  intros Hne.
  set (sheet1 := snd (addNegativeKeywords env sheet keywords)).
  eexists. split; [apply run_sheet|].
  intros i keyword Hk.
  assert (Hpos : 1 <= length sheet) by (destruct sheet; simpl; [congruence | lia]).
  assert (Hrow : sheet1 !! (length sheet + i) = Some (newRow (reads env i) keyword)).
  { unfold sheet1. rewrite addNegativeKeywords_eq. simpl.
    rewrite lookup_app_r by lia.
    replace (length sheet + i - length sheet) with i by lia.
    now rewrite list_lookup_imap, Hk. }
  set (p := pendingOf (length sheet - 1 + i) (newRow (reads env i) keyword)).
  assert (Hp : In p (getPendingKeywords sheet1)).
  { unfold sheet1. rewrite getPendingKeywords_appended by exact Hne.
    apply in_or_app. right. apply list_elem_of_In, list_elem_of_lookup.
    exists i. now rewrite list_lookup_imap, Hk. }
  destruct (after_processed ads _ (start sheet1 w) p Hp) as (row' & Hrow' & Hst).
  { simpl. lia. }
  { simpl. apply lookup_lt_Some in Hrow. lia. }
  simpl in Hrow'.
  replace (length sheet - 1 + i + 2 - 1) with (length sheet + i) in Hrow' by lia.
  exists row'. split; [exact Hrow'|]. split; [exact Hst|].
  destruct (after_request ads (getPendingKeywords sheet1) (start sheet1 w)
                          (length sheet + i) _ ltac:(lia) Hrow)
    as (row'' & Hrow'' & Hsame).
  rewrite Hrow' in Hrow''. now injection Hrow'' as <-.
Qed.

Lemma submitted_then_processed_witness :
  exists rows',
    ranSheet (processPendingNegativeKeywords Samples.account
                (Spreadsheet.mk
                   (Some (snd (addNegativeKeywords Samples.counting Samples.ledger
                                                   [Samples.freeShipping])))
                   None) tt)
    = Some rows' /\
    forall i keyword, [Samples.freeShipping] !! i = Some keyword ->
      exists row', rows' !! (length Samples.ledger + i) = Some row' /\
                   (Row.status row' = "ACTIVE" \/ Row.status row' = "FAILED") /\
                   sameRequest (newRow (reads Samples.counting i) keyword) row'.
Proof.
  apply (submitted_then_processed Samples.account Samples.counting Samples.ledger
           [Samples.freeShipping] None tt).
  discriminate.
Defined.

End HandoverFacts.

(** ** Reading the ledger *)

Section ReadFacts.
Import Js WebApp Worker Api Spec Terms.

Lemma getNegativeKeywordData_eq (sheet : list Row.t) :
  getNegativeKeywordData sheet = map itemOf (drop 1 sheet).
Proof.
  unfold getNegativeKeywordData.
  destruct (length sheet <=? 1)%nat eqn:E.
  - apply Nat.leb_le in E. destruct sheet as [|h [|r sheet]]; simpl in *; [reflexivity..|lia].
  - apply Nat.leb_gt in E. now rewrite take_ge by (rewrite length_drop; lia).
Qed.

Lemma shownPending_itemOf (row : Row.t) :
  shownPending (itemOf row) = isPendingRow row.
Proof.
  unfold shownPending, isPendingRow, itemOf, nonEmpty. simpl.
  destruct (Row.id row) as [|c id]; simpl.
  - now rewrite !andb_false_r.
  - rewrite andb_true_r.
    destruct (String.eqb_spec (Row.status row) "") as [->|E]; simpl; [reflexivity|].
    reflexivity.
Qed.

Lemma pendingFrom_filter (index : nat) (data : list Row.t) :
  map (fun p => (Pending.id p, Pending.keywordText p)) (pendingFrom index data)
  = map (fun row => (Row.id row, Row.keywordText row)) (List.filter isPendingRow data).
Proof.
  revert index. induction data as [|row data IH]; intros index; simpl; [reflexivity|].
  rewrite map_app, IH. now destruct (isPendingRow row).
Qed.

(** X10. The read interface and the worker agree on what is pending: the
    keywords that [getPendingKeywords] lists are, in the same order, the
    items that [getNegativeKeywordData] shows with the status PENDING and
    an id that starts with [new_]; a row with an empty status cell is
    among them. *)
Theorem pending_shown_is_pending_listed (sheet : list Row.t) :
  map (fun p => (Pending.id p, Pending.keywordText p)) (getPendingKeywords sheet)
  = map (fun item => (Row.id item, Row.keywordText item))
        (List.filter shownPending (getNegativeKeywordData sheet)).
Proof.
  rewrite getPendingKeywords_eq, getNegativeKeywordData_eq, pendingFrom_filter.
  induction (drop 1 sheet) as [|row data IH]; simpl; [reflexivity|].
  rewrite shownPending_itemOf. destruct (isPendingRow row); simpl; now rewrite IH.
Qed.

Lemma filter_levels (data : list Row.t) :
  length (List.filter (fun item => Row.level item =? "CAMPAIGN") data)
  + length (List.filter (fun item => Row.level item =? "AD_GROUP") data)
  + length (List.filter (fun item => Row.level item =? "SHARED_LIST") data)
  + length (List.filter (fun item => negb (knownLevel item)) data)
  = length data.
Proof.
  induction data as [|item data IH]; simpl; [reflexivity|].
  unfold knownLevel in *.
  destruct (String.eqb_spec (Row.level item) "CAMPAIGN") as [E1|E1];
    destruct (String.eqb_spec (Row.level item) "AD_GROUP") as [E2|E2];
    destruct (String.eqb_spec (Row.level item) "SHARED_LIST") as [E3|E3];
    simpl; try lia; congruence.
Qed.

(** X11. [handleGetNegativeKeywords] shows every row below the header, with
    an empty status read as PENDING, and sorts the items by level into
    three lists that share no item: an item is in the list of its level
    and in no other, and an item whose level is none of the three is
    counted in [total] and in no list. *)
Theorem handleGetNegativeKeywords_buckets (sheet : list Row.t)
        (triggers : option (list Trigger.t)) :
  exists b,
    handleGetNegativeKeywords (Spreadsheet.mk (Some sheet) triggers) = okReply b /\
    all b = map itemOf (drop 1 sheet) /\
    total b = length sheet - 1 /\
    (forall item, In item (campaign b) <-> In item (all b) /\ Row.level item = "CAMPAIGN") /\
    (forall item, In item (adGroup b) <-> In item (all b) /\ Row.level item = "AD_GROUP") /\
    (forall item, In item (shared b) <-> In item (all b) /\ Row.level item = "SHARED_LIST") /\
    length (campaign b) + length (adGroup b) + length (shared b)
    + length (List.filter (fun item => negb (knownLevel item)) (all b))
    = total b.
Proof.
  eexists. split; [reflexivity|]. simpl.
  rewrite getNegativeKeywordData_eq.
  split; [reflexivity|]. split; [now rewrite length_map, length_drop|].
  split; [|split; [|split]].
  - intros item. now rewrite filter_In, String.eqb_eq.
  - intros item. now rewrite filter_In, String.eqb_eq.
  - intros item. now rewrite filter_In, String.eqb_eq.
  - apply filter_levels.
Qed.

End ReadFacts.

(** ** The processing status *)

Section StatusFacts.
Import Js WebApp Worker Api Spec Terms.
Variable later : string -> string -> bool.

Lemma forEach_scan (data : list Trigger.t) (index : nat) (v : Scan) :
  scanPending (forEach (scanTrigger later) data index v)
  = scanPending v
    + length (List.filter (fun t => Trigger.status t =? "PENDING") data).
Proof.
  revert index v. induction data as [|t data IH]; intros index v; simpl; [lia|].
  rewrite IH. unfold scanTrigger.
  destruct (Trigger.status t =? "PENDING"); simpl; [lia|].
  destruct ((Trigger.status t =? "COMPLETED") && nonEmpty (Trigger.processedDate t));
    [|lia].
  destruct (scanLast v) as [last|]; [|simpl; lia].
  destruct (later (Trigger.processedDate t) last); simpl; lia.
Qed.

Lemma handleGetProcessingStatus_pending (ss : Spreadsheet.t) :
  pendingRequests (handleGetProcessingStatus later ss)
  = pendingTriggers (Spreadsheet.processingTriggers ss).
Proof.
  unfold handleGetProcessingStatus, pendingTriggers.
  destruct (Spreadsheet.processingTriggers ss) as [sheet|]; [|reflexivity].
  destruct (length sheet <=? 1)%nat eqn:E.
  - apply Nat.leb_le in E. destruct sheet as [|h [|r sheet]]; simpl in *; [reflexivity..|lia].
  - apply Nat.leb_gt in E. simpl.
    rewrite take_ge by (rewrite length_drop; lia).
    now rewrite forEach_scan.
Qed.

(** X12. [handleGetProcessingStatus] counts the trigger rows below the
    header that are PENDING, none when the tab is missing, and answers
    [Processing pending] exactly when it has counted one or more. *)
Theorem handleGetProcessingStatus_counts (ss : Spreadsheet.t) :
  let r := handleGetProcessingStatus later ss in
  pendingRequests r = pendingTriggers (Spreadsheet.processingTriggers ss) /\
  (status r = "Processing pending" <-> 0 < pendingRequests r).
Proof.
  intros r. split; [apply handleGetProcessingStatus_pending|].
  subst r. unfold handleGetProcessingStatus.
  destruct (Spreadsheet.processingTriggers ss) as [sheet|];
    [|simpl; split; [discriminate | lia]].
  destruct (length sheet <=? 1)%nat; [simpl; split; [discriminate | lia]|].
  simpl. destruct (0 <? scanPending _)%nat eqn:E; simpl.
  - apply Nat.ltb_lt in E. tauto.
  - apply Nat.ltb_ge in E. split; [discriminate | lia].
Qed.

Lemma pendingTriggers_appendTrigger (timestamp : string)
      (tab : option (list Trigger.t)) :
  tab <> Some [] ->
  pendingTriggers (Some (appendTrigger timestamp tab)) = pendingTriggers tab + 1.
Proof.
  intros Hne. unfold appendTrigger, pendingTriggers.
  destruct tab as [[|h rows]|]; [congruence| |reflexivity].
  simpl. rewrite !drop_0, List.filter_app, length_app. reflexivity.
Qed.

Lemma handleAddNegativeKeywords_valid (env : Env) (ss : Spreadsheet.t)
      (keywords : list Keyword.t) (sheet : list Row.t) :
  keywords <> [] ->
  (forall k, In k keywords -> validateKeyword k = []) ->
  Spreadsheet.negativeKeywords ss = Some sheet ->
  snd (handleAddNegativeKeywords env ss (Some keywords))
  = Spreadsheet.mk
      (Some (sheet ++ imap (fun i keyword => newRow (reads env i) keyword) keywords))
      (Some (appendTrigger (triggerTimestamp env) (Spreadsheet.processingTriggers ss))).
Proof.
  intros Hne Hall Hsheet.
  assert (Hlen : (length keywords =? 0)%nat = false).
  { apply Nat.eqb_neq. destruct keywords; simpl; [congruence | lia]. }
  unfold handleAddNegativeKeywords.
  rewrite Hlen, forEach_validationLines, app_nil_l.
  rewrite (proj2 (validationLines_nil keywords 0) Hall), Hsheet, addNegativeKeywords_eq.
  reflexivity.
Qed.

(** X13. A batch that is taken shows in the processing status.  When every
    request of a batch is valid, the ledger is there and the trigger tab
    is missing or has its header, the status read after the submission
    is [Processing pending], with one pending request more than
    before. *)
Theorem submission_shows_pending (env : Env) (ss : Spreadsheet.t)
        (keywords : list Keyword.t) (sheet : list Row.t) :
  keywords <> [] ->
  (forall k, In k keywords -> validateKeyword k = []) ->
  Spreadsheet.negativeKeywords ss = Some sheet ->
  Spreadsheet.processingTriggers ss <> Some [] ->
  let r := handleGetProcessingStatus later
             (snd (handleAddNegativeKeywords env ss (Some keywords))) in
  pendingRequests r = pendingRequests (handleGetProcessingStatus later ss) + 1 /\
  status r = "Processing pending".
Proof.
  intros Hne Hall Hsheet Htab r.
  assert (Hcount : pendingRequests r
                   = pendingRequests (handleGetProcessingStatus later ss) + 1).
  { subst r. rewrite !handleGetProcessingStatus_pending.
    rewrite (handleAddNegativeKeywords_valid env ss keywords sheet Hne Hall Hsheet).
    now apply pendingTriggers_appendTrigger. }
  split; [exact Hcount|].
  subst r. unfold handleGetProcessingStatus in *.
  rewrite (handleAddNegativeKeywords_valid env ss keywords sheet Hne Hall Hsheet) in *.
  cbn [Spreadsheet.processingTriggers] in *.
  destruct (length (appendTrigger _ _) <=? 1)%nat; [simpl in Hcount; lia|].
  cbn [status pendingRequests] in *.
  destruct (0 <? scanPending _)%nat eqn:E; [reflexivity|].
  apply Nat.ltb_ge in E. lia.
Qed.

Lemma filter_alter_pending (f : Trigger.t -> Trigger.t) (data : list Trigger.t)
      (i : nat) (t : Trigger.t) :
  data !! i = Some t -> Trigger.status t = "PENDING" ->
  Trigger.status (f t) <> "PENDING" ->
  length (List.filter (fun t => Trigger.status t =? "PENDING") (alter f i data))
  = pred (length (List.filter (fun t => Trigger.status t =? "PENDING") data)).
Proof.
  revert i. induction data as [|x data IH]; intros i Hi Hp Hf; [discriminate Hi|].
  destruct i as [|i].
  - simpl in *. injection Hi as ->. rewrite Hp.
    destruct (String.eqb_spec (Trigger.status (f t)) "PENDING"); [contradiction|].
    reflexivity.
  - change (alter f (S i) (x :: data)) with (x :: alter f i data).
    change ((x :: data) !! S i) with (data !! i) in Hi.
    pose proof (IH i Hi Hp Hf) as IHi.
    assert (Hpos : 0 < length (List.filter (fun t => Trigger.status t =? "PENDING") data)).
    { assert (In t (List.filter (fun t => Trigger.status t =? "PENDING") data)).
      { apply filter_In. split; [|now rewrite Hp].
        apply list_elem_of_In, list_elem_of_lookup. now exists i. }
      destruct (List.filter _ data); simpl in *; [contradiction | lia]. }
    cbn [List.filter].
    destruct (Trigger.status x =? "PENDING"); cbn [length]; lia.
Qed.

Lemma pendingTriggers_update {World Entity : Type} (ads : AdsApp World Entity)
      (successCount failureCount : nat) (tab : option (list Trigger.t)) (w : World) :
  pendingTriggers (fst (updateProcessingTriggerStatus ads successCount failureCount tab w))
  = pred (pendingTriggers tab).
Proof.
  unfold updateProcessingTriggerStatus.
  destruct tab as [rows|]; [|reflexivity].
  destruct (length rows <=? 1)%nat eqn:Elen.
  - apply Nat.leb_le in Elen.
    destruct rows as [|h [|r rows]]; simpl in *; [reflexivity..|lia].
  - apply Nat.leb_gt in Elen.
    rewrite take_ge by (rewrite length_drop; lia).
    destruct (lastPendingTrigger (drop 1 rows)) as [k|] eqn:Ek.
    + apply lastPendingTrigger_Some in Ek as [(tk & Hk & Hpk) _].
      destruct (toISOString ads w) as [processed w']. simpl.
      unfold Range.setRow. replace (k + 2 - 1) with (S k) by lia.
      destruct rows as [|h rows]; [simpl in Elen; lia|].
      simpl in *. rewrite drop_0 in *.
      now apply (filter_alter_pending _ rows k tk).
    + simpl. pose proof (proj1 (lastPendingTrigger_None _) Ek) as Hnone.
      destruct (List.filter _ (drop 1 rows)) as [|t l] eqn:Ef; [reflexivity|exfalso].
      assert (Ht : In t (List.filter (fun t => Trigger.status t =? "PENDING")
                                     (drop 1 rows))) by (rewrite Ef; now left).
      apply filter_In in Ht as [Hin Hp]. apply String.eqb_eq in Hp.
      apply list_elem_of_In, list_elem_of_lookup in Hin as [i Hi].
      now apply (Hnone i t).
Qed.

(** X14. A run that had a request to process completes one trigger: the
    processing status read after it counts one pending request less than
    before, or none when none was pending.  A run that found nothing to
    process leaves the count as it was. *)
Theorem run_completes_one_trigger {World Entity : Type} (ads : AdsApp World Entity)
        (rows : list Row.t) (triggers : option (list Trigger.t)) (w : World) :
  let before := handleGetProcessingStatus later (Spreadsheet.mk (Some rows) triggers) in
  let after_ :=
    handleGetProcessingStatus later
      (snd (fst (processPendingNegativeKeywords ads (Spreadsheet.mk (Some rows) triggers) w))) in
  pendingRequests after_
  = if (length (getPendingKeywords rows) =? 0)%nat then pendingRequests before
    else pred (pendingRequests before).
Proof.
  intros before after_. subst before after_.
  rewrite !handleGetProcessingStatus_pending. simpl.
  destruct (getPendingKeywords rows) as [|p l] eqn:E.
  - unfold processPendingNegativeKeywords. simpl. now rewrite E.
  - rewrite processPendingNegativeKeywords_eq by (rewrite E; discriminate).
    simpl. apply pendingTriggers_update.
Qed.

End StatusFacts.

(** A batch of one valid keyword on a book without a trigger tab. *)
Lemma submission_shows_pending_witness :
  let later := fun _ _ : string => false in
  let keywords := [Samples.freeShipping] in
  keywords <> [] /\
  (forall k, In k keywords -> WebApp.validateKeyword k = []) /\
  Spreadsheet.negativeKeywords Samples.book = Some Samples.ledger /\
  Spreadsheet.processingTriggers Samples.book <> Some [] /\
  let r := Api.handleGetProcessingStatus later
             (snd (WebApp.handleAddNegativeKeywords Samples.frozen Samples.book
                     (Some keywords))) in
  Api.pendingRequests r
  = Api.pendingRequests (Api.handleGetProcessingStatus later Samples.book) + 1 /\
  Api.status r = "Processing pending".
Proof.
  assert (Hne : [Samples.freeShipping] <> []) by discriminate.
  assert (Hall : forall k, In k [Samples.freeShipping] -> WebApp.validateKeyword k = []).
  { intros k [<-|[]]. reflexivity. }
  assert (Htab : Spreadsheet.processingTriggers Samples.book <> Some []) by discriminate.
  split; [exact Hne|]. split; [exact Hall|]. split; [reflexivity|]. split; [exact Htab|].
  exact (submission_shows_pending (fun _ _ => false) Samples.frozen Samples.book
           [Samples.freeShipping] Samples.ledger Hne Hall eq_refl Htab).
Defined.

(** ** The catalogue of shared lists *)

Section CatalogFacts.
Import Js Worker Api Catalog.

(** X15. The dropdown of shared lists shows what the last refresh of the
    worker found: the lists of the account, each with its id and its name,
    in the order of the account.  A refresh on which the account threw
    leaves the dropdown empty, whatever the tab held before. *)
Theorem shared_lists_round_trip {World Entity : Type} (lists : Lists World Entity)
        (tab : option (list (string * string))) (w : World) :
  getSharedListDataFromSheet (fst (updateSharedListData lists tab w))
  = match fst (negativeKeywordLists lists w) with
    | Returned found =>
        map (fun l => {| listId := getId lists l; listName := getName lists l |}) found
    | Thrown _ => []
    end.
Proof.
  unfold updateSharedListData.
  destruct (negativeKeywordLists lists w) as [[found|t] w']; simpl; [|reflexivity].
  destruct found as [|l found]; [reflexivity|].
  unfold getSharedListDataFromSheet, Range.setValues. simpl.
  rewrite app_nil_r, firstn_all, map_map. reflexivity.
Qed.

End CatalogFacts.

(** ** Removal and processing requests *)

Section RequestFacts.
Import Js WebApp Worker Api Spec Terms.

Lemma deleteRow_below_header (sheet : list Row.t) (j : nat) :
  drop 1 (deleteRow (1 + j + 1) sheet) = delete j (drop 1 sheet).
Proof.
  unfold deleteRow. rewrite delete_take_drop.
  destruct sheet as [|h rows]; simpl.
  - rewrite ?take_nil, ?drop_nil. reflexivity.
  - rewrite !drop_0. replace (j + 1 - 0) with (S j) by lia.
    replace (j + 1) with (S j) by lia. reflexivity.
Qed.

Lemma map_delete {A B} (f : A -> B) (l : list A) (j : nat) :
  map f (delete j l) = delete j (map f l).
Proof.
  revert j. induction l as [|x l IH]; intros [|j]; simpl; try reflexivity.
  f_equal. apply IH.
Qed.

Lemma lookup_map {A B} (f : A -> B) (l : list A) (j : nat) :
  map f l !! j = option_map f (l !! j).
Proof.
  revert j. induction l as [|x l IH]; intros [|j]; simpl; try reflexivity.
  apply IH.
Qed.

(** X16. What a removal request does to the list that the read interface
    shows, on a spreadsheet that has the ledger tab.  A request without
    an id, or with the empty id, is refused
    with code 400 and changes nothing, so a row with an empty id cell is
    never removed.  A request whose id no shown item has is answered
    with [removed = false] and changes nothing.  Otherwise the first
    shown item with the id is gone and the others are shown as before,
    in their order.  The trigger tab is never touched. *)
Theorem removal_is_read_back (ss : Spreadsheet.t) (sheet : list Row.t)
        (id : option string) :
  Spreadsheet.negativeKeywords ss = Some sheet ->
  let r := handleRemoveNegativeKeyword ss id in
  let before := getNegativeKeywordData sheet in
  exists sheet',
    snd r = Spreadsheet.mk (Some sheet') (Spreadsheet.processingTriggers ss) /\
    match fst r with
    | errorReply _ code =>
        code = 400 /\ (id = None \/ id = Some "") /\ sheet' = sheet
    | okReply d =>
        exists keywordId,
          id = Some keywordId /\ keywordId <> "" /\
          if removed d
          then exists k item,
                 before !! k = Some item /\ Row.id item = keywordId /\
                 (forall k' item', k' < k -> before !! k' = Some item' ->
                                   Row.id item' <> keywordId) /\
                 getNegativeKeywordData sheet' = delete k before
          else sheet' = sheet /\
               forall item, In item before -> Row.id item <> keywordId
    end.
Proof.
  intros Hsheet r before. subst r before.
  unfold handleRemoveNegativeKeyword. rewrite Hsheet.
  destruct id as [[|c keywordId]|]; simpl.
  - exists sheet. split; [destruct ss; simpl in *; now subst|]. auto.
  - unfold removeNegativeKeyword.
    destruct (findRow (String c keywordId) (drop 1 sheet) 1) as [n|] eqn:E.
    + apply findRow_Some in E as (j & row & -> & Hj & Hid & Hfirst).
      eexists. split; [reflexivity|]. simpl.
      exists (String c keywordId). split; [reflexivity|]. split; [discriminate|].
      exists j, (itemOf row). rewrite !getNegativeKeywordData_eq.
      split; [|split; [exact Hid|split]].
      * now rewrite lookup_map, Hj.
      * intros k' item' Hlt Hk'.
        rewrite lookup_map in Hk'.
        destruct (drop 1 sheet !! k') as [row'|] eqn:Hrow'; [|discriminate Hk'].
        injection Hk' as <-. exact (Hfirst k' row' Hlt Hrow').
      * change (S (j + 1)) with (1 + j + 1).
        now rewrite deleteRow_below_header, map_delete.
    + exists sheet. split; [reflexivity|]. simpl.
      exists (String c keywordId). split; [reflexivity|]. split; [discriminate|].
      split; [reflexivity|].
      pose proof (proj1 (findRow_None _ _ _) E) as Hnone.
      intros item Hin. rewrite getNegativeKeywordData_eq in Hin.
      apply in_map_iff in Hin as (row & <- & Hrow).
      apply list_elem_of_In, list_elem_of_lookup in Hrow as [j Hj].
      exact (Hnone j row Hj).
  - exists sheet. split; [destruct ss; simpl in *; now subst|]. auto.
Qed.

(** A request for the second row of the sample ledger. *)
Lemma removal_is_read_back_witness :
  Spreadsheet.negativeKeywords Samples.book = Some Samples.ledger /\
  let r := handleRemoveNegativeKeyword Samples.book (Some "neg_1") in
  let before := getNegativeKeywordData Samples.ledger in
  exists sheet',
    snd r = Spreadsheet.mk (Some sheet') (Spreadsheet.processingTriggers Samples.book) /\
    match fst r with
    | errorReply _ code =>
        code = 400 /\ (Some "neg_1" = None \/ Some "neg_1" = Some "") /\
        sheet' = Samples.ledger
    | okReply d =>
        exists keywordId,
          Some "neg_1" = Some keywordId /\ keywordId <> "" /\
          if removed d
          then exists k item,
                 before !! k = Some item /\ Row.id item = keywordId /\
                 (forall k' item', k' < k -> before !! k' = Some item' ->
                                   Row.id item' <> keywordId) /\
                 getNegativeKeywordData sheet' = delete k before
          else sheet' = Samples.ledger /\
               forall item, In item before -> Row.id item <> keywordId
    end.
Proof.
  split; [reflexivity|].
  exact (removal_is_read_back Samples.book Samples.ledger (Some "neg_1") eq_refl).
Defined.

(** X17. A processing request does not look at the ledger beyond its
    being there.  On a spreadsheet that has the ledger tab, and whose
    trigger tab is missing or has a row at least, it is queued as a
    pending trigger also when no keyword is pending, and a run of the
    worker that finds no pending keyword leaves it pending.  The ledger
    is as it was after both. *)
Theorem idle_request_stays_pending {World Entity : Type} (ads : AdsApp World Entity)
        (later : string -> string -> bool)
        (ss : Spreadsheet.t) (sheet : list Row.t) (timestamp : string) (w : World) :
  Spreadsheet.negativeKeywords ss = Some sheet ->
  Spreadsheet.processingTriggers ss <> Some [] ->
  getPendingKeywords sheet = [] ->
  let queued := snd (handleProcessKeywords ss timestamp) in
  let ran := snd (fst (processPendingNegativeKeywords ads queued w)) in
  Spreadsheet.negativeKeywords ran = Some sheet /\
  pendingRequests (handleGetProcessingStatus later ran)
  = pendingRequests (handleGetProcessingStatus later ss) + 1.
Proof.
  intros Hsheet Htab Hnone queued ran. subst ran queued.
  unfold handleProcessKeywords. rewrite Hsheet. simpl.
  unfold processPendingNegativeKeywords. simpl. rewrite Hnone. simpl.
  split; [reflexivity|].
  rewrite !handleGetProcessingStatus_pending. simpl.
  now apply pendingTriggers_appendTrigger.
Qed.

(** The sample ledger holds one settled keyword and nothing pending. *)
Lemma idle_request_stays_pending_witness :
  let later := fun _ _ : string => false in
  let stamp := "2023-11-02T00:00:00.000Z" in
  Spreadsheet.negativeKeywords Samples.book = Some Samples.ledger /\
  Spreadsheet.processingTriggers Samples.book <> Some [] /\
  getPendingKeywords Samples.ledger = [] /\
  let queued := snd (handleProcessKeywords Samples.book stamp) in
  let ran := snd (fst (processPendingNegativeKeywords Samples.account queued tt)) in
  Spreadsheet.negativeKeywords ran = Some Samples.ledger /\
  pendingRequests (handleGetProcessingStatus later ran)
  = pendingRequests (handleGetProcessingStatus later Samples.book) + 1.
Proof.
  assert (Htab : Spreadsheet.processingTriggers Samples.book <> Some []) by discriminate.
  split; [reflexivity|]. split; [exact Htab|]. split; [reflexivity|].
  exact (idle_request_stays_pending Samples.account (fun _ _ => false) Samples.book
           Samples.ledger "2023-11-02T00:00:00.000Z" tt eq_refl Htab eq_refl).
Defined.

End RequestFacts.

(** ** Sorted results *)

Section SortFacts.
Import Js Calculations.

Lemma insertSorted_sorted {A} (compare : A -> A -> Q) (le : A -> A -> Prop)
      (x : A) (l : list A) :
  (forall a b, Qle_bool (compare a b) 0 = true -> le a b) ->
  (forall a b, Qle_bool (compare a b) 0 = false -> le b a) ->
  (forall a b c, le a b -> le b c -> le a c) ->
  StronglySorted le l -> StronglySorted le (insertSorted compare x l).
Proof.
  intros Hle Hgt Htrans Hl.
  induction Hl as [|y l Hl IH Hy]; simpl.
  - constructor; constructor.
  - destruct (Qle_bool (compare x y) 0) eqn:E.
    + constructor; [now constructor|].
      constructor; [now apply Hle|].
      apply List.Forall_forall. intros z Hz.
      apply (Htrans x y z); [now apply Hle|].
      now apply (proj1 (List.Forall_forall _ _) Hy).
    + constructor; [exact IH|].
      apply List.Forall_forall. intros z Hz.
      apply (Permutation_in _ (insertSorted_perm compare x l)) in Hz.
      destruct Hz as [<-|Hz]; [now apply Hgt|].
      now apply (proj1 (List.Forall_forall _ _) Hy).
Qed.

Lemma sort_sorted {A} (compare : A -> A -> Q) (le : A -> A -> Prop) (l : list A) :
  (forall a b, Qle_bool (compare a b) 0 = true -> le a b) ->
  (forall a b, Qle_bool (compare a b) 0 = false -> le b a) ->
  (forall a b c, le a b -> le b c -> le a c) ->
  StronglySorted le (sort compare l).
Proof.
  intros Hle Hgt Htrans. induction l as [|x l IH]; simpl; [constructor|].
  now apply insertSorted_sorted.
Qed.

Lemma insertSorted_filter {A} (compare : A -> A -> Q) (p : A -> bool)
      (x : A) (l : list A) :
  (forall y, p x = true -> p y = true -> Qle_bool (compare x y) 0 = true) ->
  List.filter p (insertSorted compare x l) = List.filter p (x :: l).
Proof.
  intros Hp. induction l as [|y l IH]; [reflexivity|].
  cbn [insertSorted]. destruct (Qle_bool (compare x y) 0) eqn:E; [reflexivity|].
  cbn [List.filter] in *. rewrite IH.
  destruct (p x) eqn:Ex; [|reflexivity].
  destruct (p y) eqn:Ey; [|reflexivity].
  rewrite (Hp y eq_refl Ey) in E. discriminate E.
Qed.

(** The sort is stable: rows that compare as equal keep their order. *)
Lemma sort_filter {A} (compare : A -> A -> Q) (p : A -> bool) (l : list A) :
  (forall x y, p x = true -> p y = true -> Qle_bool (compare x y) 0 = true) ->
  List.filter p (sort compare l) = List.filter p l.
Proof.
  intros Hp. induction l as [|x l IH]; [reflexivity|].
  cbn [sort fold_right]. fold (sort compare l).
  rewrite insertSorted_filter by (intros y; apply Hp).
  cbn [List.filter]. now rewrite IH.
Qed.

Lemma Qle_bool_minus (a b : Q) : Qle_bool (a - b) 0 = true <-> (a <= b)%Q.
Proof. rewrite Qle_bool_iff. split; intros H; lra. Qed.

Lemma Qle_bool_minus_false (a b : Q) : Qle_bool (a - b) 0 = false -> (b <= a)%Q.
Proof.
  intros H. destruct (Qlt_le_dec a b) as [Hlt|Hle]; [|exact Hle].
  assert (Qle_bool (a - b) 0 = true) by (apply Qle_bool_minus; lra). congruence.
Qed.

Lemma Qeq_bool_minus (a b v : Q) :
  Qeq_bool a v = true -> Qeq_bool b v = true -> Qle_bool (a - b) 0 = true.
Proof.
  rewrite !Qeq_bool_iff. intros Ha Hb. apply Qle_bool_minus. lra.
Qed.

Lemma filter_filter {A} (p q : A -> bool) (l : list A) :
  List.filter p (List.filter q l) = List.filter (fun x => q x && p x) l.
Proof.
  induction l as [|x l IH]; simpl; [reflexivity|].
  destruct (q x); simpl; [destruct (p x)|]; now rewrite IH.
Qed.

(** X18. [identifyOpportunities] lists the candidates by falling
    [potentialSavings], and candidates with equal savings in the order of
    their rows in the data. *)
Theorem identifyOpportunities_sorted (data : list SearchTermData) :
  StronglySorted (fun a b => (potentialSavings b <= potentialSavings a)%Q)
                 (identifyOpportunities data) /\
  forall v : Q,
    List.filter (fun o => Qeq_bool (potentialSavings o) v) (identifyOpportunities data)
    = map toOpportunity
          (List.filter (fun item => isOpportunity item && Qeq_bool (cost item) v) data).
Proof.
  unfold identifyOpportunities, bySavingsDescending. split.
  - apply sort_sorted.
    + intros a b H. now apply Qle_bool_minus in H.
    + intros a b H. now apply Qle_bool_minus_false in H.
    + intros a b c Hab Hbc. lra.
  - intros v. rewrite sort_filter.
    + now rewrite filter_map, filter_filter.
    + intros x y Hx Hy. exact (Qeq_bool_minus _ _ v Hy Hx).
Qed.

End SortFacts.

(** ** Sorting and paging the search terms *)

Section DataFacts.
Import Js Calculations DataUtils.

Lemma sort_indifferent {A} (compare : A -> A -> Q) (l : list A) :
  (forall a b, compare a b = 0%Q) -> sort compare l = l.
Proof.
  intros H. induction l as [|x l IH]; [reflexivity|].
  cbn [sort fold_right]. fold (sort compare l). rewrite IH.
  destruct l as [|y l]; [reflexivity|]. simpl. now rewrite H.
Qed.

(** X19. [sortSearchTerms] by a field that holds numbers gives the rows
    of the data, none lost and none twice, in rising order of the field
    for [asc] and in falling order for [desc]; rows that are equal in the
    field keep the order they had, in both directions, so that the one
    result is not the other reversed.  By a field that holds neither
    strings nor numbers the data comes back as it was. *)
Theorem sortSearchTerms_spec (localeCompare : string -> string -> Q)
        (data : list SearchTermData) (direction : Direction) :
  (forall get : SearchTermData -> Q,
     let sorted := sortSearchTerms localeCompare data (numberField get) direction in
     Permutation sorted data /\
     StronglySorted (fun a b => match direction with
                                | asc => (get a <= get b)%Q
                                | desc => (get b <= get a)%Q
                                end) sorted /\
     forall v : Q,
       List.filter (fun item => Qeq_bool (get item) v) sorted
       = List.filter (fun item => Qeq_bool (get item) v) data) /\
  sortSearchTerms localeCompare data otherField direction = data.
Proof.
  split; [|now apply sort_indifferent].
  intros get sorted. subst sorted. unfold sortSearchTerms.
  split; [apply sort_perm|]. split.
  - apply sort_sorted; destruct direction; simpl.
    + intros a b H. now apply Qle_bool_minus in H.
    + intros a b H. now apply Qle_bool_minus in H.
    + intros a b H. now apply Qle_bool_minus_false in H.
    + intros a b H. now apply Qle_bool_minus_false in H.
    + intros a b c Hab Hbc. lra.
    + intros a b c Hab Hbc. lra.
  - intros v. apply sort_filter. intros x y Hx Hy.
    destruct direction; simpl.
    + exact (Qeq_bool_minus _ _ v Hx Hy).
    + exact (Qeq_bool_minus _ _ v Hy Hx).
Qed.

Lemma slice_inside {A} (l : list A) (start size : nat) :
  slice (Z.of_nat start) (Z.of_nat start + Z.of_nat size) l = take size (drop start l).
Proof.
  unfold slice, sliceIndex.
  destruct (Z.ltb_spec (Z.of_nat start) 0) as [H|_]; [lia|].
  destruct (Z.ltb_spec (Z.of_nat start + Z.of_nat size) 0) as [H|_]; [lia|].
  destruct (le_lt_dec (length l) start) as [Hout|Hin].
  - rewrite (drop_ge l (Z.to_nat _)) by lia.
    rewrite (drop_ge l start) by lia. now rewrite !take_nil.
  - replace (Z.to_nat (Z.min (Z.of_nat start) (Z.of_nat (length l)))) with start by lia.
    destruct (le_lt_dec (length l) (start + size)) as [Hend|Hend].
    + rewrite !take_ge; [reflexivity | rewrite length_drop; lia | rewrite length_drop; lia].
    + f_equal. lia.
Qed.

Lemma paginateData_data {A} (l : list A) (p pageSize : nat) :
  data (paginateData l (Z.of_nat p + 1) (Z.of_nat pageSize))
  = take pageSize (drop (p * pageSize) l).
Proof.
  unfold paginateData. cbn [data].
  replace ((Z.of_nat p + 1 - 1) * Z.of_nat pageSize)%Z with (Z.of_nat (p * pageSize)) by lia.
  apply slice_inside.
Qed.

Lemma pages_take {A} (l : list A) (pageSize n : nat) :
  concat (map (fun p => take pageSize (drop (p * pageSize) l)) (seq 0 n))
  = take (n * pageSize) l.
Proof.
  induction n as [|n IH]; [reflexivity|].
  rewrite seq_S, map_app, concat_app, IH. simpl. rewrite app_nil_r.
  rewrite take_take_drop. f_equal. lia.
Qed.

(** X20. With a page size of one or more, [paginateData] cuts the data
    into [totalPages] pages, numbered from 1: the pages put one after the
    other are the data, each of them holds an item and no more than the
    page size, and a page beyond the last is empty. *)
Theorem paginateData_partition {A} (l : list A) (pageSize : nat) :
  0 < pageSize ->
  let page p := paginateData l (Z.of_nat p + 1) (Z.of_nat pageSize) in
  exists n,
    (forall p, totalPages (page p) = Finite (Z.of_nat n) /\ total (page p) = length l) /\
    concat (map (fun p => data (page p)) (seq 0 n)) = l /\
    (forall p, p < n -> 0 < length (data (page p)) <= pageSize) /\
    (forall p, n <= p -> data (page p) = []).
Proof.
  intros Hsize page.
  exists (Z.to_nat (- ((- Z.of_nat (length l)) / Z.of_nat pageSize))).
  assert (Hceil : forall n : nat,
             Z.of_nat n = (- ((- Z.of_nat (length l)) / Z.of_nat pageSize))%Z ->
             (n - 1) * pageSize < length l + (1 - n) * pageSize /\ length l <= n * pageSize
             /\ (length l = 0 -> n = 0)).
  { intros n Hn.
    pose proof (Z.div_mod (- Z.of_nat (length l)) (Z.of_nat pageSize) ltac:(lia)) as Hdm.
    pose proof (Z.mod_pos_bound (- Z.of_nat (length l)) (Z.of_nat pageSize) ltac:(lia)) as Hb.
    split; [|split]; nia. }
  assert (Hnonneg : (0 <= - ((- Z.of_nat (length l)) / Z.of_nat pageSize))%Z).
  { pose proof (Z.div_mod (- Z.of_nat (length l)) (Z.of_nat pageSize) ltac:(lia)) as Hdm.
    pose proof (Z.mod_pos_bound (- Z.of_nat (length l)) (Z.of_nat pageSize) ltac:(lia)) as Hb.
    nia. }
  set (n := Z.to_nat (- ((- Z.of_nat (length l)) / Z.of_nat pageSize))) in *.
  destruct (Hceil n ltac:(lia)) as (Hlow & Hhigh & Hzero).
  subst page. cbv beta.
  split; [|split; [|split]].
  - intros p. unfold paginateData, ceilDiv. simpl.
    destruct (Z.eqb_spec (Z.of_nat pageSize) 0) as [E|_]; [lia|].
    split; [f_equal; lia | reflexivity].
  - rewrite (map_ext _ (fun p => take pageSize (drop (p * pageSize) l)))
      by (intros p; apply paginateData_data).
    rewrite pages_take. apply take_ge. exact Hhigh.
  - intros p Hp. rewrite paginateData_data.
    rewrite length_take, length_drop.
    assert (p * pageSize < length l) by nia. lia.
  - intros p Hp. rewrite paginateData_data.
    rewrite drop_ge by nia. apply take_nil.
Qed.

(** Seven items in pages of three. *)
Lemma paginateData_partition_witness :
  0 < 3 /\
  let l := [1; 2; 3; 4; 5; 6; 7] in
  let page p := paginateData l (Z.of_nat p + 1) (Z.of_nat 3) in
  exists n,
    (forall p, totalPages (page p) = Finite (Z.of_nat n) /\ total (page p) = length l) /\
    concat (map (fun p => data (page p)) (seq 0 n)) = l /\
    (forall p, p < n -> 0 < length (data (page p)) <= 3) /\
    (forall p, n <= p -> data (page p) = []).
Proof.
  split; [exact (Nat.lt_0_succ 2)|].
  exact (paginateData_partition [1; 2; 3; 4; 5; 6; 7] 3 (Nat.lt_0_succ 2)).
Defined.

(** X21. The pages that [paginateData] was not written for.  With a page
    size of 0 every page is empty and the number of pages is not a
    finite number.  With a page size of one or more, page 0 is empty,
    and a page with a negative number is cut from the end of the data,
    because [slice] counts a negative index from the end and stops at
    the start of the data: page [-p] runs from the item that is [p + 1]
    page sizes before the end, or from the first item when the data is
    shorter, up to the item that is [p] page sizes before the end.  So
    it is the page-size items that end [p] pages before the end when
    the data has [p + 1] page sizes of items, a shorter and non-empty
    head of the data when the data has more than [p] page sizes of items
    and fewer than [p + 1], and empty when the data has [p] page sizes
    of items or fewer. *)
Theorem paginateData_edges {A} (l : list A) :
  let zeroPages := if (length l =? 0)%nat then NaN else Infinity in
  (forall page,
     data (paginateData l page 0) = [] /\
     totalPages (paginateData l page 0) = zeroPages) /\
  (forall pageSize : nat,
     0 < pageSize ->
     data (paginateData l 0 (Z.of_nat pageSize)) = [] /\
     forall p : nat,
       1 <= p ->
       let negative := data (paginateData l (- Z.of_nat p) (Z.of_nat pageSize)) in
       let start := length l - (p + 1) * pageSize in
       let stop := length l - p * pageSize in
       negative = take (stop - start) (drop start l) /\
       ((p + 1) * pageSize <= length l ->
        negative = take pageSize (drop (length l - (p + 1) * pageSize) l) /\
        length negative = pageSize) /\
       (p * pageSize < length l < (p + 1) * pageSize ->
        negative = take (length l - p * pageSize) l /\
        length negative = length l - p * pageSize) /\
       (length l <= p * pageSize -> negative = [])).
Proof.
  intros zeroPages. subst zeroPages. split.
  - intros page. unfold paginateData, ceilDiv, slice, sliceIndex. cbn [data totalPages].
    replace ((page - 1) * 0)%Z with 0%Z by lia. simpl.
    split; [now rewrite Z.sub_diag|].
    destruct l; reflexivity.
  - intros pageSize Hsize. split.
    + unfold paginateData, slice, sliceIndex. cbn [data].
      destruct (Z.ltb_spec ((0 - 1) * Z.of_nat pageSize) 0) as [_|H]; [|lia].
      destruct (Z.ltb_spec ((0 - 1) * Z.of_nat pageSize + Z.of_nat pageSize) 0) as [H|_];
        [lia|].
      replace (Z.to_nat _) with 0 by lia. reflexivity.
    + intros p Hp negative start stop.
      assert (Hneg : negative = take (stop - start) (drop start l)).
      { subst negative start stop. unfold paginateData, slice, sliceIndex. cbn [data].
        destruct (Z.ltb_spec ((- Z.of_nat p - 1) * Z.of_nat pageSize) 0) as [_|H]; [|nia].
        destruct (Z.ltb_spec ((- Z.of_nat p - 1) * Z.of_nat pageSize + Z.of_nat pageSize) 0)
          as [_|H]; [|nia].
        f_equal; [|f_equal]; nia. }
      split; [exact Hneg|]. rewrite Hneg. subst start stop. split; [|split].
      * intros Hlen.
        replace (length l - p * pageSize - (length l - (p + 1) * pageSize))
          with pageSize by nia.
        split; [reflexivity|]. rewrite length_take, length_drop. nia.
      * intros [Hlo Hhi].
        replace (length l - (p + 1) * pageSize) with 0 by nia.
        rewrite drop_0, Nat.sub_0_r.
        split; [reflexivity|]. rewrite length_take. lia.
      * intros Hlen.
        replace (length l - p * pageSize) with 0 by nia. reflexivity.
Qed.

(** Ten items in pages of three: page -2 holds the three items that end
    two pages before the end, page -3 the one item that is left, and
    page -4 none. *)
Example paginateData_negative_pages :
  let l := [1; 2; 3; 4; 5; 6; 7; 8; 9; 10]%Z in
  data (paginateData l (-2) 3) = [2; 3; 4]%Z /\
  data (paginateData l (-3) 3) = [1]%Z /\
  data (paginateData l (-4) 3) = [].
Proof. repeat split. Qed.

End DataFacts.

(** ** Spend by campaign *)

Section SpendFacts.
Import Js Calculations Distribution Terms.

Lemma mapGet_mapSet_same {V} (key : string) (value : V) (m : JsMap V) :
  mapGet key (mapSet key value m) = Some value.
Proof.
  induction m as [|[k v] m IH]; simpl.
  - now rewrite String.eqb_refl.
  - destruct (String.eqb_spec k key) as [->|E]; simpl.
    + now rewrite String.eqb_refl.
    + destruct (String.eqb_spec k key); [contradiction | exact IH].
Qed.

Lemma mapGet_mapSet_other {V} (key key' : string) (value : V) (m : JsMap V) :
  key <> key' -> mapGet key' (mapSet key value m) = mapGet key' m.
Proof.
  intros Hne. induction m as [|[k v] m IH]; simpl.
  - destruct (String.eqb_spec key key'); [contradiction | reflexivity].
  - destruct (String.eqb_spec k key) as [->|E]; simpl.
    + destruct (String.eqb_spec key key'); [contradiction | reflexivity].
    + destruct (String.eqb_spec k key'); [reflexivity | exact IH].
Qed.

Lemma mapGet_keys {V} (key : string) (m : JsMap V) :
  arrayIncludes (map fst m) key = match mapGet key m with Some _ => true | None => false end.
Proof.
  unfold arrayIncludes. induction m as [|[k v] m IH]; simpl; [reflexivity|].
  rewrite (String.eqb_sym key k). destruct (k =? key); [reflexivity | exact IH].
Qed.

Lemma mapSet_keys {V} (key : string) (value : V) (m : JsMap V) :
  map fst (mapSet key value m)
  = if arrayIncludes (map fst m) key then map fst m else map fst m ++ [key].
Proof.
  unfold arrayIncludes. induction m as [|[k v] m IH]; simpl; [reflexivity|].
  rewrite (String.eqb_sym key k).
  destruct (String.eqb_spec k key) as [->|E]; simpl; [reflexivity|].
  rewrite IH. now destruct (existsb (String.eqb key) (map fst m)).
Qed.

Lemma mapGet_In {V} (key : string) (value : V) (m : JsMap V) :
  List.NoDup (map fst m) -> In (key, value) m -> mapGet key m = Some value.
Proof.
  induction m as [|[k v] m IH]; simpl; [tauto|].
  intros Hnd [H|H].
  - injection H as -> ->. now rewrite String.eqb_refl.
  - apply NoDup_cons_iff in Hnd as [Hk Hnd].
    destruct (String.eqb_spec k key) as [->|E]; [|now apply IH].
    exfalso. apply Hk. apply in_map_iff. now exists (key, value).
Qed.

Lemma forEach_addItem_get (data : list SearchTermData) (index : nat)
      (m : JsMap Spend) (c : string) :
  mapGet c (forEach addItem data index m)
  = match List.filter (fun item => campaignName item =? c) data with
    | [] => mapGet c m
    | rows => Some (spendOf c (match mapGet c m with Some e => e | None => zeroSpend c end)
                            rows)
    end.
Proof.
  revert index m. induction data as [|item data IH]; intros index m; [reflexivity|].
  cbn [forEach List.filter]. rewrite IH.
  destruct (String.eqb_spec (campaignName item) c) as [<-|E].
  - unfold addItem at 1 2. rewrite !mapGet_mapSet_same.
    destruct (List.filter _ data) as [|row rows]; reflexivity.
  - unfold addItem. rewrite !mapGet_mapSet_other by exact E. reflexivity.
Qed.

Lemma filter_absent (seen : list string) (c : string) (l : list string) :
  arrayIncludes seen c = true ->
  List.filter (fun y => negb (arrayIncludes seen y)) (List.filter (fun y => negb (y =? c)) l)
  = List.filter (fun y => negb (arrayIncludes seen y)) l.
Proof.
  intros Hc. induction l as [|y l IH]; simpl; [reflexivity|].
  destruct (String.eqb_spec y c) as [->|E]; simpl.
  - now rewrite Hc.
  - now rewrite IH.
Qed.

Lemma filter_seen (seen : list string) (c : string) (l : list string) :
  List.filter (fun y => negb (arrayIncludes (seen ++ [c]) y)) l
  = List.filter (fun y => negb (arrayIncludes seen y))
                (List.filter (fun y => negb (y =? c)) l).
Proof.
  induction l as [|y l IH]; simpl; [reflexivity|].
  unfold arrayIncludes in *. rewrite existsb_app. simpl. rewrite orb_false_r.
  destruct (String.eqb_spec y c) as [->|E]; simpl.
  - now rewrite orb_true_r.
  - rewrite orb_false_r, IH. reflexivity.
Qed.

Lemma forEach_addItem_keys (data : list SearchTermData) (index : nat) (m : JsMap Spend) :
  map fst (forEach addItem data index m)
  = map fst m
    ++ List.filter (fun y => negb (arrayIncludes (map fst m) y))
                   (firsts (map campaignName data)).
Proof.
  revert index m. induction data as [|item data IH]; intros index m.
  - simpl. now rewrite app_nil_r.
  - cbn [forEach map firsts List.filter]. rewrite IH. unfold addItem.
    rewrite mapSet_keys.
    destruct (arrayIncludes (map fst m) (campaignName item)) eqn:E; simpl.
    + now rewrite filter_absent.
    + now rewrite filter_seen, <- app_assoc.
Qed.

Lemma firsts_In (l : list string) (c : string) : In c (firsts l) <-> In c l.
Proof.
  induction l as [|x l IH]; simpl; [tauto|].
  rewrite filter_In, IH, negb_true_iff, String.eqb_neq.
  destruct (String.eqb_spec x c); intuition congruence.
Qed.

Lemma filter_NoDup {A} (p : A -> bool) (l : list A) :
  List.NoDup l -> List.NoDup (List.filter p l).
Proof.
  induction 1 as [|x l Hx Hl IH]; simpl; [constructor|].
  destruct (p x); [|exact IH].
  constructor; [|exact IH]. rewrite filter_In. tauto.
Qed.

Lemma firsts_NoDup (l : list string) : List.NoDup (firsts l).
Proof.
  induction l as [|x l IH]; simpl; constructor.
  - rewrite filter_In, negb_true_iff, String.eqb_neq. tauto.
  - now apply filter_NoDup.
Qed.

Lemma distribution_campaigns (toFixed2 : Q -> Q) (data : list SearchTermData) :
  map (fun e => campaign (share e)) (calculateSpendDistribution toFixed2 data)
  = map (fun e => campaign (snd e)) (forEach addItem data 0 []).
Proof.
  unfold calculateSpendDistribution, values. now rewrite !map_map.
Qed.

Lemma mapSet_named (m : JsMap Spend) (key : string) (value : Spend) :
  campaign value = key ->
  Forall (fun e => campaign (snd e) = fst e) m ->
  Forall (fun e => campaign (snd e) = fst e) (mapSet key value m).
Proof.
  intros Hv. induction 1 as [|[k v] m Hk Hm IH]; simpl.
  - repeat constructor. exact Hv.
  - destruct (k =? key); constructor; auto.
Qed.

Lemma addItem_named (m : JsMap Spend) (item : SearchTermData) (index : nat) :
  Forall (fun e => campaign (snd e) = fst e) m ->
  Forall (fun e => campaign (snd e) = fst e) (addItem m item index).
Proof.
  intros Hm. unfold addItem. now apply mapSet_named.
Qed.

Lemma forEach_addItem_named (data : list SearchTermData) (index : nat) (m : JsMap Spend) :
  Forall (fun e => campaign (snd e) = fst e) m ->
  Forall (fun e => campaign (snd e) = fst e) (forEach addItem data index m).
Proof.
  revert index m. induction data as [|item data IH]; intros index m Hm; [exact Hm|].
  simpl. apply IH. now apply addItem_named.
Qed.

(** X22. [calculateSpendDistribution] has one entry for each campaign of
    the data, in the order in which the campaigns first appear, and the
    cost, the conversions, the clicks and the impressions of an entry are
    those of the rows of its campaign, added up from 0 in the order of
    the data.  Campaign names are told apart exactly, letter case
    included. *)
Theorem calculateSpendDistribution_spec (toFixed2 : Q -> Q) (data : list SearchTermData) :
  let entries := calculateSpendDistribution toFixed2 data in
  map (fun e => campaign (share e)) entries = firsts (map campaignName data) /\
  List.NoDup (map (fun e => campaign (share e)) entries) /\
  (forall c, In c (map (fun e => campaign (share e)) entries)
             <-> exists item, In item data /\ campaignName item = c) /\
  forall e, In e entries ->
    let rows := List.filter (fun item => campaignName item =? campaign (share e)) data in
    spendCost (share e) = sumOf cost rows /\
    spendConversions (share e) = sumOf conversions rows /\
    spendClicks (share e) = sumOf clicks rows /\
    spendImpressions (share e) = sumOf impressions rows.
Proof.
  intros entries.
  assert (Hkeys : map (fun e => campaign (share e)) entries = firsts (map campaignName data)).
  { subst entries. rewrite distribution_campaigns.
    pose proof (forEach_addItem_named data 0 [] (List.Forall_nil _)) as Hnamed.
    pose proof (forEach_addItem_keys data 0 []) as Hk. simpl in Hk.
    rewrite <- (map_ext_in fst (fun e => campaign (snd e))) in *.
    - rewrite Hk. clear. induction (firsts (map campaignName data)) as [|x l IH];
        simpl; [reflexivity | now rewrite IH].
    - intros e He. symmetry. exact (proj1 (List.Forall_forall _ _) Hnamed e He). }
  split; [exact Hkeys|]. split; [rewrite Hkeys; apply firsts_NoDup|]. split.
  - intros c. rewrite Hkeys, firsts_In, in_map_iff.
    split; intros (item & H1 & H2); exists item; tauto.
  - intros e He rows. subst entries rows.
    unfold calculateSpendDistribution, values in He. rewrite map_map in He.
    apply in_map_iff in He as ([k v] & <- & Hin). simpl in *.
    pose proof (forEach_addItem_named data 0 [] (List.Forall_nil _)) as Hnamed.
    pose proof (proj1 (List.Forall_forall _ _) Hnamed _ Hin) as Hname. simpl in Hname.
    assert (Hnd : List.NoDup (map fst (forEach addItem data 0 []))).
    { rewrite forEach_addItem_keys. simpl.
      apply filter_NoDup, firsts_NoDup. }
    pose proof (mapGet_In k v _ Hnd Hin) as Hget.
    rewrite forEach_addItem_get in Hget. rewrite Hname.
    destruct (List.filter _ data) as [|row rows]; [discriminate Hget|].
    injection Hget as <-. simpl. repeat split; reflexivity.
Qed.

Lemma mapSet_sum (f : Spend -> Q) (key : string) (value : Spend) (m : JsMap Spend) :
  (sumOf f (values (mapSet key value m))
   == sumOf f (values m) + f value
      - match mapGet key m with Some e => f e | None => 0 end)%Q.
Proof.
  unfold values. induction m as [|[k v] m IH]; simpl.
  - rewrite sumOf_cons. unfold sumOf. simpl. ring.
  - destruct (k =? key); simpl.
    + rewrite !sumOf_cons. simpl. ring.
    + rewrite !sumOf_cons, IH. simpl. ring.
Qed.

Lemma forEach_addItem_sum (f : Spend -> Q) (g : SearchTermData -> Q)
      (data : list SearchTermData) (index : nat) (m : JsMap Spend) :
  (forall c, f (zeroSpend c) == 0)%Q ->
  (forall e item,
     f {| campaign := campaignName item;
          spendCost := spendCost e + cost item;
          spendConversions := spendConversions e + conversions item;
          spendClicks := spendClicks e + clicks item;
          spendImpressions := spendImpressions e + impressions item |}
     == f e + g item)%Q ->
  (sumOf f (values (forEach addItem data index m)) == sumOf f (values m) + sumOf g data)%Q.
Proof.
  intros Hzero Hstep. revert index m.
  induction data as [|item data IH]; intros index m.
  - unfold sumOf at 3. simpl. ring.
  - cbn [forEach]. rewrite IH, sumOf_cons. unfold addItem.
    rewrite mapSet_sum, Hstep.
    destruct (mapGet (campaignName item) m) as [e|].
    + ring.
    + change {| campaign := campaignName item; spendCost := 0; spendConversions := 0;
                spendClicks := 0; spendImpressions := 0 |}
        with (zeroSpend (campaignName item)).
      rewrite Hzero. ring.
Qed.

(** X23. Nothing is lost or counted twice when the spend is split by
    campaign: the costs of the entries of [calculateSpendDistribution]
    add up to the cost of all rows, and so do the conversions, the
    clicks and the impressions (with numbers taken as exact). *)
Theorem spend_is_conserved (toFixed2 : Q -> Q) (data : list SearchTermData) :
  let entries := calculateSpendDistribution toFixed2 data in
  (sumOf (fun e => spendCost (share e)) entries == sumOf cost data)%Q /\
  (sumOf (fun e => spendConversions (share e)) entries == sumOf conversions data)%Q /\
  (sumOf (fun e => spendClicks (share e)) entries == sumOf clicks data)%Q /\
  (sumOf (fun e => spendImpressions (share e)) entries == sumOf impressions data)%Q.
Proof.
  intros entries. subst entries. unfold calculateSpendDistribution.
  repeat split.
  - rewrite (sumOf_map (fun e => spendCost (share e))). simpl.
    rewrite (forEach_addItem_sum spendCost cost); [unfold sumOf at 1; simpl; ring | |];
      intros; simpl; reflexivity.
  - rewrite (sumOf_map (fun e => spendConversions (share e))). simpl.
    rewrite (forEach_addItem_sum spendConversions conversions);
      [unfold sumOf at 1; simpl; ring | |]; intros; simpl; reflexivity.
  - rewrite (sumOf_map (fun e => spendClicks (share e))). simpl.
    rewrite (forEach_addItem_sum spendClicks clicks);
      [unfold sumOf at 1; simpl; ring | |]; intros; simpl; reflexivity.
  - rewrite (sumOf_map (fun e => spendImpressions (share e))). simpl.
    rewrite (forEach_addItem_sum spendImpressions impressions);
      [unfold sumOf at 1; simpl; ring | |]; intros; simpl; reflexivity.
Qed.

End SpendFacts.

(** ** The sums of the search terms page *)

Section AnalyticsFacts.
Import Js Calculations.

Lemma sumOf_nonneg {A} (f : A -> Q) (l : list A) :
  (forall x, In x l -> (0 <= f x)%Q) -> (0 <= sumOf f l)%Q.
Proof.
  induction l as [|x l IH]; intros H.
  - unfold sumOf. simpl. lra.
  - rewrite sumOf_cons.
    pose proof (H x (or_introl eq_refl)).
    assert (0 <= sumOf f l)%Q by (apply IH; intros; apply H; now right). lra.
Qed.

Lemma sumOf_take_le {A} (f : A -> Q) (n : nat) (l : list A) :
  (forall x, In x l -> (0 <= f x)%Q) -> (sumOf f (take n l) <= sumOf f l)%Q.
Proof.
  revert n. induction l as [|x l IH]; intros n H.
  - rewrite take_nil. lra.
  - destruct n as [|n]; simpl.
    + change (sumOf f []) with 0%Q. now apply sumOf_nonneg.
    + rewrite !sumOf_cons.
      assert (sumOf f (take n l) <= sumOf f l)%Q by (apply IH; intros; apply H; now right).
      lra.
Qed.

Lemma sumOf_filter_mono {A} (f : A -> Q) (p q : A -> bool) (l : list A) :
  (forall x, p x = true -> q x = true) ->
  (forall x, q x = true -> (0 <= f x)%Q) ->
  (sumOf f (List.filter p l) <= sumOf f (List.filter q l))%Q.
Proof.
  intros Hpq Hpos. induction l as [|x l IH]; simpl; [lra|].
  pose proof (Hpq x) as Hx. pose proof (Hpos x) as Hx'.
  destruct (p x) eqn:Ep, (q x) eqn:Eq; rewrite ?sumOf_cons.
  - specialize (Hx' eq_refl). lra.
  - specialize (Hx eq_refl). discriminate Hx.
  - specialize (Hx' eq_refl). lra.
  - exact IH.
Qed.

Lemma In_take {A} (x : A) (n : nat) (l : list A) : In x (take n l) -> In x l.
Proof.
  revert n. induction l as [|y l IH]; intros [|n]; simpl; try tauto.
  intros [H|H]; [now left | right; now apply (IH n)].
Qed.

Lemma StronglySorted_take {A} (R : A -> A -> Prop) (n : nat) (l : list A) :
  StronglySorted R l -> StronglySorted R (take n l).
Proof.
  intros H. revert n. induction H as [|x l Hl IH Hx]; intros [|n]; simpl;
    try constructor.
  - apply IH.
  - apply List.Forall_forall. intros y Hy. apply In_take in Hy.
    now apply (proj1 (List.Forall_forall _ _) Hx).
Qed.

(** X24. The top opportunities that the search terms page shows are ten
    rows at most, rows of the data without a conversion that cost more
    than 10, the dearest first.  With numbers taken as exact, so that a
    sum does not depend on the order of its terms, their costs never
    add up to more than the potential savings shown beside them.  Those
    savings are the ones of [calculatePotentialSavings], and each of the
    top opportunities that has a click is a candidate of
    [identifyOpportunities]. *)
Theorem topOpportunities_spec (rows : list SearchTermData) :
  let a := Analytics.useSearchTermAnalytics (Some rows) in
  let top := Analytics.topOpportunities a in
  length top <= 10 /\
  StronglySorted (fun x y => (cost y <= cost x)%Q) top /\
  (forall item, In item top ->
     In item rows /\ (conversions item == 0)%Q /\ (10 < cost item)%Q /\
     ((0 < clicks item)%Q -> In (toOpportunity item) (identifyOpportunities rows))) /\
  (sumOf cost top <= Analytics.potentialSavings a)%Q /\
  Analytics.potentialSavings a = calculatePotentialSavings rows /\
  Analytics.wastedSpend a = calculateWastedSpend rows.
Proof.
  intros a top. subst top a. unfold Analytics.useSearchTermAnalytics.
  destruct (length rows =? 0)%nat eqn:Elen.
  - apply Nat.eqb_eq in Elen. destruct rows; [|discriminate Elen].
    simpl. repeat split; try (constructor; fail); try lia; try tauto.
    unfold sumOf. simpl. lra.
  - cbn [Analytics.topOpportunities Analytics.potentialSavings Analytics.wastedSpend].
    set (dear := List.filter (fun item => isZero (conversions item) && gt (cost item) 10) rows).
    assert (Hdear : forall item, In item (sort Analytics.byCostDescending dear) ->
                                 In item rows /\ (conversions item == 0)%Q /\
                                 (10 < cost item)%Q).
    { intros item Hin.
      apply (Permutation_in _ (sort_perm _ _)) in Hin.
      apply filter_In in Hin as [Hin Hp].
      apply andb_true_iff in Hp as [Hz Hc].
      apply isZero_spec in Hz. apply gt_spec in Hc. tauto. }
    split; [rewrite length_take; lia|]. split; [|split; [|split; [|split]]].
    + apply StronglySorted_take, sort_sorted; unfold Analytics.byCostDescending.
      * intros x y H. now apply Qle_bool_minus in H.
      * intros x y H. now apply Qle_bool_minus_false in H.
      * intros x y z Hxy Hyz. lra.
    + intros item Hin. apply In_take in Hin.
      destruct (Hdear item Hin) as (Hdata & Hz & Hc).
      repeat split; try assumption.
      intros Hclicks.
      apply (Permutation_in _ (Permutation_sym (identifyOpportunities_perm rows))).
      apply in_map, filter_In. split; [exact Hdata|].
      unfold isOpportunity. rewrite !andb_true_iff, isZero_spec, !gt_spec.
      repeat split; [exact Hz | lra | exact Hclicks].
    + eapply Qle_trans; [apply sumOf_take_le|].
      * intros item Hin. destruct (Hdear item Hin) as (_ & _ & Hc). lra.
      * rewrite (sumOf_perm _ _ _ (sort_perm Analytics.byCostDescending dear)).
        subst dear. apply sumOf_filter_mono.
        -- intros item. rewrite !andb_true_iff, !gt_spec. intros [Hz Hc]. split; [exact Hz | lra].
        -- intros item. rewrite andb_true_iff, gt_spec. intros [_ Hc]. lra.
    + reflexivity.
    + reflexivity.
Qed.

End AnalyticsFacts.

(** ** The form of the client and the validator of the server *)

Section FormFacts.
Import Js WebApp Spec.

Lemma trimEnd_cons (c : ascii) (s : string) :
  trimEnd (String c s)
  = match trimEnd s with
    | EmptyString => if isWhiteSpace c then EmptyString else String c EmptyString
    | String d t => String c (String d t)
    end.
Proof. reflexivity. Qed.

Lemma trimEnd_idem (s : string) : trimEnd (trimEnd s) = trimEnd s.
Proof.
  induction s as [|c s IH]; [reflexivity|].
  rewrite trimEnd_cons. destruct (trimEnd s) as [|d t] eqn:E.
  - destruct (isWhiteSpace c) eqn:Ec; [reflexivity|].
    rewrite trimEnd_cons. simpl. now rewrite Ec.
  - rewrite trimEnd_cons, IH. reflexivity.
Qed.

Lemma trimEnd_head (c : ascii) (s : string) :
  isWhiteSpace c = false -> exists t, trimEnd (String c s) = String c t.
Proof.
  intros Hc. rewrite trimEnd_cons. destruct (trimEnd s) as [|d t].
  - rewrite Hc. now exists "".
  - now exists (String d t).
Qed.

Lemma trimStart_head (s : string) :
  trimStart s = "" \/ exists c t, trimStart s = String c t /\ isWhiteSpace c = false.
Proof.
  induction s as [|c s IH]; [now left|].
  cbn [trimStart]. destruct (isWhiteSpace c) eqn:Ec; [exact IH|].
  right. now exists c, s.
Qed.

(** Trimming a trimmed text changes nothing. *)
Lemma trim_idem (s : string) : trim (trim s) = trim s.
Proof.
  unfold trim. destruct (trimStart_head s) as [->|(c & t & -> & Hc)]; [reflexivity|].
  destruct (trimEnd_head c t Hc) as [t' E]. rewrite E.
  cbn [trimStart]. rewrite Hc, <- E. apply trimEnd_idem.
Qed.

Lemma allowed_allowedChar (c : ascii) : Form.allowed c = allowedChar c.
Proof.
  unfold Form.allowed, allowedChar.
  now destruct (between 97 122 c), (between 65 90 c).
Qed.

Lemma test_inClass (keyword : string) :
  Form.test keyword = true <-> keyword <> "" /\ inClass keyword.
Proof.
  unfold Form.test, inClass, nonEmpty.
  rewrite andb_true_iff, negb_true_iff, String.eqb_neq, forallb_forall, List.Forall_forall.
  split; intros [H1 H2]; (split; [exact H1|]); intros c Hc;
    [rewrite <- allowed_allowedChar | rewrite allowed_allowedChar]; now apply H2.
Qed.

Lemma validateEntry_nil (errors : list string) (keyword : string) (index : nat) :
  Form.validateEntry errors keyword index = [] <->
  errors = [] /\ nonEmpty (trim keyword) = true /\
  (80 <? String.length keyword)%nat = false /\ Form.test keyword = true.
Proof.
  unfold Form.validateEntry. rewrite !pushIf_nil, !negb_false_iff. tauto.
Qed.

Lemma forEach_validateEntry_nil (l : list string) (index : nat) (errors : list string) :
  forEach Form.validateEntry l index errors = [] <->
  errors = [] /\
  forall keyword, In keyword l ->
    nonEmpty (trim keyword) = true /\
    (80 <? String.length keyword)%nat = false /\ Form.test keyword = true.
Proof.
  revert index errors. induction l as [|k l IH]; intros index errors; simpl.
  - intuition.
  - rewrite IH, validateEntry_nil. split.
    + intros [(He & H1 & H2 & H3) Hl]. split; [exact He|].
      intros keyword [<-|Hin]; [tauto | now apply Hl].
    + intros [He H]. split; [|intros keyword Hin; apply H; now right].
      split; [exact He|]. apply H. now left.
Qed.

Lemma validateForm_nil (formData : Form.t) :
  Form.validateForm formData = [] <->
  Form.keywords formData <> [] /\
  ((Form.level formData =? "CAMPAIGN") && negb (truthy (Form.campaignId formData)) = false) /\
  ((Form.level formData =? "AD_GROUP")
   && (negb (truthy (Form.campaignId formData)) || negb (truthy (Form.adGroupId formData)))
   = false) /\
  ((Form.level formData =? "SHARED_LIST") && negb (truthy (Form.sharedListId formData))
   = false) /\
  forall keyword, In keyword (Form.keywords formData) ->
    nonEmpty (trim keyword) = true /\
    (80 <? String.length keyword)%nat = false /\ Form.test keyword = true.
Proof.
  unfold Form.validateForm. rewrite forEach_validateEntry_nil, !pushIf_nil, Nat.eqb_neq.
  assert (length (Form.keywords formData) <> 0 <-> Form.keywords formData <> []).
  { destruct (Form.keywords formData); simpl; split; congruence. }
  tauto.
Qed.

Lemma handleAddNegativeKeywords_response (env : Env) (ss : Spreadsheet.t)
      (keywords : list Keyword.t) (sheet : list Row.t) :
  keywords <> [] ->
  (forall k, In k keywords -> validateKeyword k = []) ->
  Spreadsheet.negativeKeywords ss = Some sheet ->
  exists data,
    fst (handleAddNegativeKeywords env ss (Some keywords)) = createResponse data /\
    res_added data = length keywords /\ res_failed data = 0 /\ res_errors data = [].
Proof.
  intros Hne Hall Hsheet.
  assert (Hlen : (length keywords =? 0)%nat = false).
  { apply Nat.eqb_neq. destruct keywords; simpl; [congruence | lia]. }
  unfold handleAddNegativeKeywords.
  rewrite Hlen, forEach_validationLines, app_nil_l.
  rewrite (proj2 (validationLines_nil keywords 0) Hall), Hsheet, addNegativeKeywords_eq.
  eexists. split; [reflexivity|]. simpl. auto.
Qed.

(** X25. What the form lets through, the server takes, on a spreadsheet
    that has the ledger tab.  When [validateForm] has no error for a form
    whose match type and level are among those that its menus offer,
    every keyword of the request that
    the page makes of the form passes [validateKeyword], with a text of
    the permitted class, and the request is answered with a success that
    counts every keyword as added and none as failed, the keywords
    appended to the ledger in the order of the form. *)
Theorem validated_form_is_admitted (env : Env) (ss : Spreadsheet.t) (sheet : list Row.t)
        (formData : Form.t) :
  Form.validateForm formData = [] ->
  In (Form.matchType formData) ["EXACT"; "PHRASE"; "BROAD"] ->
  In (Form.level formData) ["CAMPAIGN"; "AD_GROUP"; "SHARED_LIST"] ->
  Spreadsheet.negativeKeywords ss = Some sheet ->
  let keywords := Form.request formData in
  (forall k, In k keywords -> validateKeyword k = [] /\ rulesAsStated k) /\
  exists data,
    fst (handleAddNegativeKeywords env ss (Some keywords)) = createResponse data /\
    res_added data = length (Form.keywords formData) /\ res_failed data = 0 /\
    Spreadsheet.negativeKeywords (snd (handleAddNegativeKeywords env ss (Some keywords)))
    = Some (sheet ++ imap (fun i keyword => newRow (reads env i) keyword) keywords).
Proof.
  intros Hform HmatchType Hlevel Hsheet keywords. subst keywords.
  apply validateForm_nil in Hform as (Hne & Hc & Ha & Hs & Hkeywords).
  assert (Hvalid : forall k, In k (Form.request formData) ->
                             validateKeyword k = [] /\ rulesAsStated k).
  { intros k Hk. unfold Form.request in Hk.
    apply in_map_iff in Hk as (keyword & <- & Hin).
    destruct (Hkeywords keyword Hin) as (Htrim & Hlong & Htest).
    apply test_inClass in Htest as [Hnonempty Hclass].
    assert (Htruthy : truthy (Some keyword) = true).
    { simpl. now apply negb_true_iff, String.eqb_neq. }
    split.
    - apply validateKeyword_nil. cbn [Keyword.text Keyword.matchType Keyword.level
                                      Keyword.campaignId Keyword.adGroupId
                                      Keyword.sharedListId orEmpty].
      rewrite Htruthy, Hlong, !(proj2 (arrayIncludes_In _ _)) by assumption.
      repeat split; try assumption.
      simpl. apply Nat.eqb_neq. unfold nonEmpty in Htrim.
      apply negb_true_iff, String.eqb_neq in Htrim.
      destruct (trim keyword); simpl; congruence.
    - unfold rulesAsStated. cbn [Keyword.text Keyword.matchType Keyword.level].
      split; [|split; [assumption|split; [assumption|]]].
      + exists keyword. repeat split; try assumption.
        now apply Nat.ltb_ge in Hlong.
      + apply levelIdsPresent_spec. cbn [Keyword.level Keyword.campaignId
                                          Keyword.adGroupId Keyword.sharedListId].
        tauto. }
  split; [exact Hvalid|].
  assert (Hreq : Form.request formData <> []).
  { unfold Form.request. destruct (Form.keywords formData); simpl; congruence. }
  destruct (handleAddNegativeKeywords_response env ss (Form.request formData) sheet Hreq
              (fun k Hk => proj1 (Hvalid k Hk)) Hsheet) as (data & Hfst & Hadded & Hfailed & _).
  exists data. split; [exact Hfst|]. split; [|split; [exact Hfailed|]].
  - rewrite Hadded. unfold Form.request. apply length_map.
  - rewrite (handleAddNegativeKeywords_valid env ss (Form.request formData) sheet Hreq
               (fun k Hk => proj1 (Hvalid k Hk)) Hsheet).
    reflexivity.
Qed.

(** The form as it opens for one search term, with a campaign chosen. *)
Lemma validated_form_is_admitted_witness :
  let formData := Form.mk ["free shipping"] "EXACT" "CAMPAIGN" (Some "123") (Some "")
                          (Some "") in
  Form.validateForm formData = [] /\
  In (Form.matchType formData) ["EXACT"; "PHRASE"; "BROAD"] /\
  In (Form.level formData) ["CAMPAIGN"; "AD_GROUP"; "SHARED_LIST"] /\
  Spreadsheet.negativeKeywords Samples.book = Some Samples.ledger /\
  let keywords := Form.request formData in
  (forall k, In k keywords -> validateKeyword k = [] /\ rulesAsStated k) /\
  exists data,
    fst (handleAddNegativeKeywords Samples.frozen Samples.book (Some keywords))
    = createResponse data /\
    res_added data = length (Form.keywords formData) /\ res_failed data = 0 /\
    Spreadsheet.negativeKeywords
      (snd (handleAddNegativeKeywords Samples.frozen Samples.book (Some keywords)))
    = Some (Samples.ledger
            ++ imap (fun i keyword => newRow (reads Samples.frozen i) keyword) keywords).
Proof.
  assert (Hform : Form.validateForm
                    (Form.mk ["free shipping"] "EXACT" "CAMPAIGN" (Some "123") (Some "")
                             (Some "")) = []) by (vm_compute; reflexivity).
  split; [exact Hform|].
  split; [left; reflexivity|]. split; [left; reflexivity|]. split; [reflexivity|].
  exact (validated_form_is_admitted Samples.frozen Samples.book Samples.ledger _
           Hform (or_introl eq_refl) (or_introl eq_refl) eq_refl).
Defined.

(** X26. [addKeyword] keeps the list of the form in order: when no
    keyword is there twice, none is after it, and when every keyword
    passes the emptiness check of [validateForm], every keyword does
    after it, the new one being stored trimmed.  It adds to the end of
    the list or leaves the list alone, and touches no other field. *)
Theorem addKeyword_keeps_order (formData : Form.t) (newKeyword : string) :
  let formData' := fst (Form.addKeyword formData newKeyword) in
  (List.NoDup (Form.keywords formData) -> List.NoDup (Form.keywords formData')) /\
  (Forall (fun keyword => nonEmpty (trim keyword) = true) (Form.keywords formData) ->
   Forall (fun keyword => nonEmpty (trim keyword) = true) (Form.keywords formData')) /\
  (Form.keywords formData' = Form.keywords formData \/
   Form.keywords formData' = Form.keywords formData ++ [trim newKeyword]) /\
  Form.matchType formData' = Form.matchType formData /\
  Form.level formData' = Form.level formData /\
  Form.campaignId formData' = Form.campaignId formData /\
  Form.adGroupId formData' = Form.adGroupId formData /\
  Form.sharedListId formData' = Form.sharedListId formData.
Proof.
  intros formData'. subst formData'. unfold Form.addKeyword.
  destruct (nonEmpty (trim newKeyword)) eqn:Hne; simpl;
    [|repeat split; auto].
  destruct (arrayIncludes (Form.keywords formData) (trim newKeyword)) eqn:Hin; simpl;
    [repeat split; auto|].
  split; [|split; [|repeat split; auto]].
  - intros Hnd.
    apply (Permutation_NoDup (Permutation_cons_append _ _)).
    constructor; [|exact Hnd].
    intros Hx. apply arrayIncludes_In in Hx. congruence.
  - intros Hall. apply Forall_app. split; [exact Hall|].
    constructor; [|constructor]. now rewrite trim_idem.
Qed.

End FormFacts.

(** ** The dashboard of the web application *)

Section DashboardFacts.
Import Js Dashboard.

Lemma forEach_addRow (data : list Reading) (index : nat) (v : Totals) :
  sumCost (forEach addRow data index v)
  = fold_left (fun total row => total + cost row)%Q data (sumCost v) /\
  sumWasted (forEach addRow data index v)
  = fold_left (fun total row => total + cost row)%Q
              (List.filter (fun row => isZero (conversions row)) data) (sumWasted v) /\
  sumSavings (forEach addRow data index v)
  = fold_left (fun total row => total + cost row)%Q
              (List.filter (fun row => isZero (conversions row) && gt (cost row) 5) data)
              (sumSavings v) /\
  opportunities (forEach addRow data index v)
  = opportunities v
    ++ map toOpportunity
           (List.filter (fun row => isZero (conversions row) && gt (cost row) 5) data).
Proof.
  revert index v. induction data as [|row data IH]; intros index v.
  - simpl. now rewrite app_nil_r.
  - cbn [forEach List.filter fold_left].
    destruct (IH (S index) (addRow v row index)) as (H1 & H2 & H3 & H4).
    rewrite H1, H2, H3, H4. unfold addRow at 1 2 3 4. cbn [sumCost sumWasted sumSavings opportunities].
    destruct (isZero (conversions row)); cbn [andb]; [|auto].
    destruct (gt (cost row) 5); [|auto].
    repeat split; try reflexivity.
    rewrite <- app_assoc. reflexivity.
Qed.

Lemma round2_le (x y : Q) : (x <= y)%Q -> (round2 x <= round2 y)%Q.
Proof.
  intros H. unfold round2.
  assert (Hf : (Qfloor (x * 100 + (1 # 2)) <= Qfloor (y * 100 + (1 # 2)))%Z)
    by (apply Qfloor_resp_le; lra).
  rewrite Zle_Qle in Hf. unfold Qdiv.
  apply Qmult_le_compat_r; [exact Hf | discriminate].
Qed.

Lemma round2_eq (x y : Q) : (x == y)%Q -> (round2 x == round2 y)%Q.
Proof.
  intros H. apply Qle_antisym; apply round2_le; lra.
Qed.

Lemma dashboard_data (sheet : list Reading) :
  take (length sheet - 1) (drop 1 sheet) = drop 1 sheet.
Proof. apply take_ge. rewrite length_drop. lia. Qed.

(** X27. On the dashboard of the web application the savings and the
    opportunities go by one test.  The opportunities shown are made of
    the rows below the header that have no conversion and cost more than
    5, a click or not, the ten with the highest savings, highest first.
    Their savings, rounded, never exceed the potential savings shown,
    and are the potential savings shown when ten rows at most pass the
    test. *)
Theorem dashboard_savings_are_opportunities (sheet : list Reading) :
  let m := calculateDashboardMetrics sheet in
  let top := topNegativeKeywordOpportunities m in
  let dear :=
    List.filter (fun row => isZero (conversions row) && gt (cost row) 5) (drop 1 sheet) in
  top = take 10 (sort bySavingsDescending (map toOpportunity dear)) /\
  StronglySorted (fun a b => (opp_potentialSavings b <= opp_potentialSavings a)%Q) top /\
  (forall o, In o top ->
     exists row, In row (drop 1 sheet) /\ o = toOpportunity row /\
                 (conversions row == 0)%Q /\ (5 < cost row)%Q) /\
  (round2 (sumOf opp_potentialSavings top) <= potentialSavings m)%Q /\
  (length dear <= 10 -> (potentialSavings m == round2 (sumOf opp_potentialSavings top))%Q).
Proof.
  intros m top dear.
  assert (Hdear : forall row, In row dear ->
                              In row (drop 1 sheet) /\ (conversions row == 0)%Q /\
                              (5 < cost row)%Q).
  { intros row Hin. apply filter_In in Hin as [Hin Hp].
    apply andb_true_iff in Hp as [Hz Hc].
    apply isZero_spec in Hz. apply gt_spec in Hc. tauto. }
  assert (Hsorted : forall o, In o (sort bySavingsDescending (map toOpportunity dear)) ->
                              exists row, In row dear /\ o = toOpportunity row).
  { intros o Hin. apply (Permutation_in _ (sort_perm _ _)) in Hin.
    apply in_map_iff in Hin as (row & <- & Hin). now exists row. }
  assert (Hpos : forall o, In o (sort bySavingsDescending (map toOpportunity dear)) ->
                           (0 <= opp_potentialSavings o)%Q).
  { intros o Hin. destruct (Hsorted o Hin) as (row & Hrow & ->).
    destruct (Hdear row Hrow) as (_ & _ & Hc). simpl. lra. }
  assert (Hsum : (sumOf opp_potentialSavings (sort bySavingsDescending (map toOpportunity dear))
                  == sumOf cost dear)%Q).
  { rewrite (sumOf_perm _ _ _ (sort_perm _ _)), sumOf_map. reflexivity. }
  assert (Hm : top = take 10 (sort bySavingsDescending (map toOpportunity dear)) /\
               (potentialSavings m == round2 (sumOf cost dear))%Q).
  { subst top m dear. unfold calculateDashboardMetrics.
    destruct (length sheet <=? 1)%nat eqn:E.
    - apply Nat.leb_le in E. destruct sheet as [|h [|r sheet]]; simpl in E; [| |lia];
        split; reflexivity.
    - cbn [topNegativeKeywordOpportunities potentialSavings].
      rewrite dashboard_data.
      destruct (forEach_addRow (drop 1 sheet) 0
                  {| sumCost := 0; sumClicks := 0; sumImpressions := 0;
                     sumConversions := 0; sumWasted := 0; sumSavings := 0;
                     opportunities := [] |}) as (_ & _ & H3 & H4).
      rewrite H3, H4. split; reflexivity. }
  destruct Hm as [Htop Hsavings].
  split; [exact Htop|]. rewrite Htop. split; [|split; [|split]].
  - apply StronglySorted_take, sort_sorted; unfold bySavingsDescending.
    + intros a b H. now apply Qle_bool_minus in H.
    + intros a b H. now apply Qle_bool_minus_false in H.
    + intros a b c Hab Hbc. lra.
  - intros o Hin. apply In_take in Hin.
    destruct (Hsorted o Hin) as (row & Hrow & ->).
    exists row. destruct (Hdear row Hrow) as (H1 & H2 & H3). auto.
  - rewrite Hsavings. apply round2_le. rewrite <- Hsum. now apply sumOf_take_le.
  - intros Hlen. rewrite Hsavings. apply round2_eq. rewrite <- Hsum.
    rewrite take_ge; [reflexivity|].
    rewrite (Permutation_length (sort_perm _ _)), length_map. exact Hlen.
Qed.

(** X28. With costs that are not negative, the dashboard of the web
    application never shows potential savings above the wasted spend,
    nor wasted spend above the total cost. *)
Theorem dashboard_sums_in_order (sheet : list Reading) :
  (forall row, In row (drop 1 sheet) -> (0 <= cost row)%Q) ->
  let m := calculateDashboardMetrics sheet in
  (potentialSavings m <= wastedSpend m)%Q /\ (wastedSpend m <= totalCost m)%Q.
Proof.
  intros Hpos m. subst m. unfold calculateDashboardMetrics.
  destruct (length sheet <=? 1)%nat eqn:E; [split; apply Qle_refl|].
  cbn [potentialSavings wastedSpend totalCost].
  rewrite dashboard_data.
  destruct (forEach_addRow (drop 1 sheet) 0
              {| sumCost := 0; sumClicks := 0; sumImpressions := 0;
                 sumConversions := 0; sumWasted := 0; sumSavings := 0;
                 opportunities := [] |}) as (H1 & H2 & H3 & _).
  rewrite H1, H2, H3. cbn [sumCost sumWasted sumSavings].
  split; apply round2_le.
  - apply (sumOf_filter_le cost
             (fun row => isZero (conversions row) && gt (cost row) 5)
             (fun row => isZero (conversions row)) (drop 1 sheet)); [|exact Hpos].
    intros row _ H. now apply andb_true_iff in H as [H _].
  - rewrite <- (List.filter_true (drop 1 sheet)) at 2.
    apply (sumOf_filter_le cost (fun row => isZero (conversions row)) (fun _ => true)
             (drop 1 sheet)); [reflexivity | exact Hpos].
Qed.

(** A sheet of a header and two rows, one of them without a conversion. *)
Lemma dashboard_sums_in_order_witness :
  let sheet :=
    [ {| searchTerm := "Search Term"; campaignName := "Campaign"; adGroupName := "Ad Group";
         cost := 0; clicks := 0; impressions := 0; conversions := 0 |};
      {| searchTerm := "free shoes"; campaignName := "Shoes"; adGroupName := "Running";
         cost := 8; clicks := 4; impressions := 90; conversions := 0 |};
      {| searchTerm := "running shoes"; campaignName := "Shoes"; adGroupName := "Running";
         cost := 12; clicks := 6; impressions := 80; conversions := 2 |} ] in
  (forall row, In row (drop 1 sheet) -> (0 <= cost row)%Q) /\
  let m := calculateDashboardMetrics sheet in
  (potentialSavings m <= wastedSpend m)%Q /\ (wastedSpend m <= totalCost m)%Q.
Proof.
  intros sheet.
  assert (Hpos : forall row, In row (drop 1 sheet) -> (0 <= cost row)%Q).
  { intros row [<-|[<-|[]]]; unfold Qle; simpl; lia. }
  split; [exact Hpos|].
  exact (dashboard_sums_in_order sheet Hpos).
Defined.

End DashboardFacts.

(** ** The dashboard of the client *)

Section ClientDashboardFacts.
Import Js Calculations.

Lemma sort_sorted_id {A} (compare : A -> A -> Q) (le : A -> A -> Prop) (l : list A) :
  (forall a b, le a b -> Qle_bool (compare a b) 0 = true) ->
  StronglySorted le l -> sort compare l = l.
Proof.
  intros Hle. induction 1 as [|x l Hl IH Hx]; [reflexivity|].
  cbn [sort fold_right]. fold (sort compare l). rewrite IH.
  destruct l as [|y l]; [reflexivity|]. cbn [insertSorted].
  apply Forall_inv in Hx. now rewrite (Hle x y Hx).
Qed.

Lemma identifyOpportunities_descending (data : list SearchTermData) :
  StronglySorted (fun a b => (potentialSavings b <= potentialSavings a)%Q)
                 (identifyOpportunities data).
Proof.
  unfold identifyOpportunities, bySavingsDescending. apply sort_sorted.
  - intros a b H. now apply Qle_bool_minus in H.
  - intros a b H. now apply Qle_bool_minus_false in H.
  - intros a b c Hab Hbc. lra.
Qed.

Lemma identifyOpportunities_qualify (data : list SearchTermData)
      (opp : NegativeKeywordOpportunity) :
  In opp (identifyOpportunities data) ->
  exists item, In item data /\ opp = toOpportunity item /\ isOpportunity item = true.
Proof.
  intros Hin. apply (Permutation_in _ (identifyOpportunities_perm data)) in Hin.
  apply in_map_iff in Hin as (item & <- & Hin). apply filter_In in Hin as [Hin Hp].
  now exists item.
Qed.

(** X29. The top opportunities of the client's dashboard are the first
    ten candidates of [identifyOpportunities], in its order: sorting
    them again changes nothing.  Each row is made of a row of the data
    that has a click, no conversion and a cost above 5; its cost per
    conversion is 0, and its impressions are not those of the data but
    ten times its clicks. *)
Theorem dashboard_top_opportunities (toFixed2 : Q -> Q) (isoString : nat -> string)
        (data : list SearchTermData) :
  let top := ClientDashboard.topNegativeKeywordOpportunities
               (ClientDashboard.generateDashboardMetrics toFixed2 isoString data) in
  top = imap (ClientDashboard.topRow isoString) (take 10 (identifyOpportunities data)) /\
  length top <= 10 /\
  forall row, In row top ->
    ClientDashboard.costPerConversion row = 0%Q /\
    ClientDashboard.impressions row = (ClientDashboard.clicks row * 10)%Q /\
    exists item,
      In item data /\
      ClientDashboard.searchTerm row = searchTerm item /\
      ClientDashboard.cost row = cost item /\
      ClientDashboard.clicks row = clicks item /\
      (conversions item == 0)%Q /\ (5 < cost item)%Q /\ (0 < clicks item)%Q.
Proof.
  intros top.
  assert (Htop : top = imap (ClientDashboard.topRow isoString)
                            (take 10 (identifyOpportunities data))).
  { subst top. unfold ClientDashboard.generateDashboardMetrics.
    cbn [ClientDashboard.topNegativeKeywordOpportunities].
    rewrite (sort_sorted_id bySavingsDescending
               (fun a b => (potentialSavings b <= potentialSavings a)%Q)).
    - reflexivity.
    - intros a b H. unfold bySavingsDescending. now apply Qle_bool_minus.
    - apply identifyOpportunities_descending. }
  split; [exact Htop|]. rewrite Htop. split.
  - rewrite length_imap, length_take. lia.
  - intros row Hin. apply list_elem_of_In, list_elem_of_lookup in Hin as [i Hi].
    rewrite list_lookup_imap in Hi.
    destruct (take 10 (identifyOpportunities data) !! i) as [opp|] eqn:Hopp;
      [|discriminate Hi].
    injection Hi as <-.
    assert (Hin : In opp (identifyOpportunities data)).
    { apply (In_take opp 10), list_elem_of_In, list_elem_of_lookup. now exists i. }
    destruct (identifyOpportunities_qualify data opp Hin) as (item & Hitem & -> & Hq).
    unfold isOpportunity in Hq. rewrite !andb_true_iff, isZero_spec, !gt_spec in Hq.
    destruct Hq as [[Hz Hc] Hk].
    cbn [ClientDashboard.costPerConversion ClientDashboard.impressions
         ClientDashboard.clicks ClientDashboard.searchTerm ClientDashboard.cost
         ClientDashboard.topRow toOpportunity opp_conversions opp_clicks opp_cost
         opp_searchTerm].
    split; [|split; [reflexivity|]].
    + assert (Hgt : gt (conversions item) 0 = false).
      { destruct (gt (conversions item) 0) eqn:E; [|reflexivity].
        apply gt_spec in E. lra. }
      now rewrite Hgt.
    + exists item. repeat split; assumption.
Qed.

(** X30. Whatever rounding to two decimals is used, so long as it keeps
    the order of numbers, the dashboard of the client never shows
    potential savings above the wasted spend, nor wasted spend above the
    total cost, when no cost is negative. *)
Theorem client_dashboard_sums_in_order (toFixed2 : Q -> Q) (isoString : nat -> string)
        (data : list SearchTermData) :
  (forall x y, (x <= y)%Q -> (toFixed2 x <= toFixed2 y)%Q) ->
  (forall item, In item data -> (0 <= cost item)%Q) ->
  let m := ClientDashboard.generateDashboardMetrics toFixed2 isoString data in
  (ClientDashboard.potentialSavings m <= ClientDashboard.wastedSpend m)%Q /\
  (ClientDashboard.wastedSpend m <= ClientDashboard.totalCost m)%Q.
Proof.
  intros Hmono Hpos m. subst m. unfold ClientDashboard.generateDashboardMetrics.
  cbn [ClientDashboard.potentialSavings ClientDashboard.wastedSpend
       ClientDashboard.totalCost].
  split; apply Hmono.
  - unfold calculatePotentialSavings, calculateWastedSpend.
    apply sumOf_filter_le; [|exact Hpos].
    intros item _ H. now apply andb_true_iff in H as [H _].
  - unfold calculateWastedSpend.
    rewrite <- (List.filter_true data) at 2.
    apply (sumOf_filter_le cost (fun item => isZero (conversions item)) (fun _ => true) data);
      [reflexivity | exact Hpos].
Qed.

(** The rounding of [Math.round(x * 100) / 100] on the rows of the
    scenario. *)
Lemma client_dashboard_sums_in_order_witness :
  (forall x y, (x <= y)%Q -> (Dashboard.round2 x <= Dashboard.round2 y)%Q) /\
  (forall item, In item Samples.scenarioRows -> (0 <= cost item)%Q) /\
  let m := ClientDashboard.generateDashboardMetrics Dashboard.round2 (fun _ => "")
             Samples.scenarioRows in
  (ClientDashboard.potentialSavings m <= ClientDashboard.wastedSpend m)%Q /\
  (ClientDashboard.wastedSpend m <= ClientDashboard.totalCost m)%Q.
Proof.
  assert (Hpos : forall item, In item Samples.scenarioRows -> (0 <= cost item)%Q).
  { intros item Hin. simpl in Hin.
    repeat (destruct Hin as [<-|Hin]; [unfold Qle; simpl; lia|]). destruct Hin. }
  split; [exact round2_le|]. split; [exact Hpos|].
  exact (client_dashboard_sums_in_order Dashboard.round2 (fun _ => "")
           Samples.scenarioRows round2_le Hpos).
Defined.

End ClientDashboardFacts.
